(** * Volunteer booking dashboard: a shallow embedding of
      [streamlit_dashboard.py] and the properties of its scheduling core.

    The script keeps three pandas tables (volunteers, events, assignments)
    and five pages.  Tables are modelled as lists of records in row order,
    a missing cell (NaN / None / NaT) as [None], Python dictionaries as
    [gmap]s, Python exceptions through the [result] type, and every page
    as a function from the tables and the values of its widgets to the
    new tables and what the page reports. *)

From Stdlib Require Import ZArith NArith Ascii String List Lia Permutation.
From stdpp Require Import base option list strings gmap sorting.

Local Open Scope N_scope.

(** ** Python values *)

(** Exceptions the modelled code can raise. *)
Inductive exn : Type :=
| ValueError
| IndexError
| KeyError
| TypeError
| AttributeError.

Inductive result (A : Type) : Type :=
| Ok (a : A)
| Raise (e : exn).
Arguments Ok {A} a.
Arguments Raise {A} e.

(** Sequencing: an exception ends the computation.  With these instances
    [x ← r; k] reads as a Python statement sequence. *)
#[global] Instance result_ret : MRet result := fun _ a => Ok a.
#[global] Instance result_bind : MBind result := fun _ _ k r =>
  match r with
  | Ok a => k a
  | Raise e => Raise e
  end.

(** ** Python strings

    A [string] is read as a Python [str] whose characters are the code
    points U+0000 .. U+00FF, the character [c] being the code point
    [N_of_ascii c].  On this range the predicates below are the ones of
    CPython's Unicode database. *)
Module Py.

Definition code (c : ascii) : N := N_of_ascii c.

(** Characters of category Nd: the only ones [int] reads as digits. *)
Definition isdecimal_char (c : ascii) : bool :=
(48 <=? code c) && (code c <=? 57).

(** [str.isdigit] also accepts the superscripts U+00B2, U+00B3, U+00B9. *)
Definition isdigit_char (c : ascii) : bool :=
isdecimal_char c
|| (code c =? 178) || (code c =? 179) || (code c =? 185).

(** [str.isspace]: the characters removed by [str.strip()]. *)
Definition isspace_char (c : ascii) : bool :=
((9 <=? code c) && (code c <=? 13))
|| ((28 <=? code c) && (code c <=? 32))
|| (code c =? 133) || (code c =? 160).

(** [str.lower] on one character. *)
Definition lower_char (c : ascii) : ascii :=
if ((65 <=? code c) && (code c <=? 90))
   || ((192 <=? code c) && (code c <=? 222) && negb (code c =? 215))
then ascii_of_N (code c + 32)
else c.

Fixpoint str_all (p : ascii -> bool) (s : string) : bool :=
match s with
| EmptyString => true
| String c s' => p c && str_all p s'
end.

Definition nonempty (s : string) : bool :=
match s with
| EmptyString => false
| String _ _ => true
end.

(** [s.isdigit()]: at least one character, all of them digits. *)
Definition isdigit (s : string) : bool := nonempty s && str_all isdigit_char s.

(** [s.startswith(p)] *)
Fixpoint startswith (s p : string) {struct p} : bool :=
match p with
| EmptyString => true
| String a p' =>
    match s with
    | EmptyString => false
    | String b s' => Ascii.eqb a b && startswith s' p'
    end
end.

(** [s[n:]] *)
Fixpoint slice_from (n : nat) (s : string) : string :=
match n, s with
| O, _ => s
| S _, EmptyString => EmptyString
| S n', String _ s' => slice_from n' s'
end.

(** Value of a string of decimal digits, most significant first. *)
Fixpoint digits_value (acc : N) (s : string) : N :=
match s with
| EmptyString => acc
| String c s' => digits_value (acc * 10 + (code c - 48)) s'
end.

(** CPython converts between [int] and [str] only up to a number of
  digits, [sys.get_int_max_str_digits()], which is 4300 unless the
  interpreter is configured otherwise; beyond it both directions raise
  [ValueError].  Leading zeros count as digits. *)
Definition int_max_str_digits : N := 4300.

Definition within_digit_limit (s : string) : bool :=
N.of_nat (String.length s) <=? int_max_str_digits.

(** [int(s)] for the strings the program passes to it, those with
  [s.isdigit()]: the value when every character is a decimal digit and
  there are no more of them than the limit allows, [ValueError]
  otherwise.  (Signs, underscores and surrounding blanks, which [int] also
  reads, never pass [isdigit].) *)
Definition int (s : string) : result N :=
if nonempty s && str_all isdecimal_char s && within_digit_limit s
then Ok (digits_value 0 s)
else Raise ValueError.

Definition digit_char (d : N) : ascii := ascii_of_N (48 + d).

(** Decimal digits of [n] put in front of [acc]; [fuel] bounds the number
  of digits written. *)
Fixpoint digits_aux (fuel : nat) (n : N) (acc : string) : string :=
match fuel with
| O => acc
| S f =>
    let acc' := String (digit_char (n mod 10)) acc in
    if n <? 10 then acc' else digits_aux f (n / 10) acc'
end.

(** [str(n)] for a natural number: a number has no more decimal digits
  than binary ones. *)
Definition str_of_N (n : N) : string :=
digits_aux (S (N.to_nat (N.log2 n))) n EmptyString.

Fixpoint zeros (k : nat) : string :=
match k with
| O => EmptyString
| S k' => String "0"%char (zeros k')
end.

(** The text of [f"{n:0{w}d}"] for [n >= 0]: zeros on the left up to width
  [w]. *)
Definition format_0d (w : nat) (n : N) : string :=
let s := str_of_N n in
zeros (w - String.length s) +:+ s.

(** [f"{n:0{w}d}"] as CPython evaluates it: writing a number of more
  digits than the limit allows raises [ValueError]. *)
Definition format_d (w : nat) (n : N) : result string :=
if within_digit_limit (str_of_N n)
then Ok (format_0d w n)
else Raise ValueError.

(** [s.lstrip()], [s.rstrip()], [s.strip()] *)
Fixpoint lstrip (s : string) : string :=
match s with
| EmptyString => EmptyString
| String c s' => if isspace_char c then lstrip s' else s
end.

Fixpoint rstrip (s : string) : string :=
match s with
| EmptyString => EmptyString
| String c s' =>
    match rstrip s' with
    | EmptyString => if isspace_char c then EmptyString else String c EmptyString
    | r => String c r
    end
end.

Definition strip (s : string) : string := rstrip (lstrip s).

(** [s.lower()] *)
Fixpoint lower (s : string) : string :=
match s with
| EmptyString => EmptyString
| String c s' => String (lower_char c) (lower s')
end.

(** [a < b] on strings: lexicographic on code points. *)
Fixpoint str_ltb (a b : string) : bool :=
match a, b with
| _, EmptyString => false
| EmptyString, String _ _ => true
| String x a', String y b' =>
    (code x <? code y) || ((code x =? code y) && str_ltb a' b')
end.

(** [max(l)] of a non-empty list, scanning left to right. *)
Definition max_from (x : N) (l : list N) : N := fold_left N.max l x.

End Py.

(** ** Identifier generation *)

Definition type_prefix_map : list (string * string) :=
  [("grg", "GRG"); ("course", "COR"); ("guiding", "GUI")].

(** [d.get(k, default)] on a dictionary literal. *)
Fixpoint dict_get (d : list (string * string)) (k default : string) : string :=
  match d with
  | [] => default
  | (k', v) :: d' => if String.eqb k' k then v else dict_get d' k default
  end.

(** [[int(eid[len(prefix):]) for eid in filtered if eid[len(prefix):].isdigit()]] *)
Fixpoint suffix_nums (prefix : string) (filtered : list string) : result (list N) :=
  match filtered with
  | [] => Ok []
  | eid :: rest =>
      let suffix := Py.slice_from (String.length prefix) eid in
      if Py.isdigit suffix
      then n ← Py.int suffix;
           ns ← suffix_nums prefix rest;
           Ok (n :: ns)
      else suffix_nums prefix rest
  end.

(** [generate_event_id(events, prefix)], on the column [events["event_id"]]:
    [dropna()] removes the missing cells. *)
Definition generate_event_id (event_ids : list (option string)) (prefix : string)
  : result string :=
  let existing_ids := omap id event_ids in
  let filtered := List.filter (fun eid => Py.startswith eid prefix) existing_ids in
  next_num ←
    match filtered with
    | [] => Ok 1
    | _ =>
        nums ← suffix_nums prefix filtered;
        match nums with
        | [] => Ok 1
        | n :: ns => Ok (Py.max_from n ns + 1)
        end
    end;
  number ← Py.format_d 3 next_num;
  Ok (prefix +:+ number).

(** ** Tables *)

(** A text cell of a table; [None] is a missing value (NaN). *)
Definition cell : Type := option string.

(** [a == b] on cells: a missing value equals nothing, not even itself. *)
Definition cell_eqb (a b : cell) : bool :=
  match a, b with
  | Some x, Some y => String.eqb x y
  | _, _ => false
  end.

(** [str(c)] as an f-string renders a cell. *)
Definition cell_str (c : cell) : string :=
  match c with
  | Some s => s
  | None => "nan"
  end.

(** [fillna("")] *)
Definition fillna_empty (c : cell) : string :=
  match c with
  | Some s => s
  | None => EmptyString
  end.

(** A pandas [Timestamp] in nanoseconds since the epoch; [None] is NaT. *)
Definition timestamp : Type := option Z.

Definition ns_per_day : Z := 86400000000000.

(** [ts.date()] as a day number. *)
Definition date_of (t : Z) : Z := (t / ns_per_day)%Z.

(** [a > b] on timestamps: every comparison with NaT is false. *)
Definition ts_gtb (a b : timestamp) : bool :=
  match a, b with
  | Some x, Some y => (y <? x)%Z
  | _, _ => false
  end.

Module Volunteer.
Record t : Type := mk
  { first_name : cell;
    last_name : cell;
    alias : cell }.

(** The column added by [load_volunteers]. *)
Definition full_name (v : t) : string :=
  Py.strip (fillna_empty (first_name v)) +:+ " "
    +:+ Py.strip (fillna_empty (last_name v)).
End Volunteer.

Module Event.
Record t : Type := mk
  { event_id : cell;
    type : cell;
    school_name : cell;
    event_name : cell;
    grade : cell;
    num_students : Z;
    date : cell;
    start_time : cell;
    end_time : cell;
    required : Z }.
End Event.

Module Assignment.
Record t : Type := mk
  { event_id : cell;
    volunteer : cell }.
End Assignment.

(** A row of [merged_df]: an assignment joined with its event, with the two
    parsed columns.  [pd.to_datetime(..., errors='coerce')] is not modelled:
    its results are part of the row. *)
Module Entry.
Record t : Type := mk
  { event_id : cell;
    volunteer : cell;
    type : cell;
    date : cell;
    start_time : cell;
    end_time : cell;
    datetime_start : timestamp;
    datetime_end : timestamp }.
End Entry.

(** [Series.unique()]: the distinct values in order of first appearance,
    a missing value counting as one value. *)
Fixpoint unique_from {A} `{EqDecision A} (seen l : list A) : list A :=
  match l with
  | [] => []
  | x :: l' =>
      if decide (x ∈ seen) then unique_from seen l'
      else x :: unique_from (x :: seen) l'
  end.

Definition unique {A} `{EqDecision A} (l : list A) : list A := unique_from [] l.

(** [df.iloc[i]] *)
Definition iloc {A} (df : list A) (i : nat) : result A :=
  match df !! i with
  | Some row => Ok row
  | None => Raise IndexError
  end.

(** ** Conflict checker (page "Dashboard") *)

Inductive Conflict : Type :=
| Overlap (name date start_prev start_curr type_prev type_curr : cell)
  (** "{name} has overlapping bookings on {date} from {start_prev} to
      {start_curr} ({type_prev} → {type_curr})" *)
| Overbooked (event_id date : string) (volunteer_count : nat)
  (** "GRG slot {event_id} on {date} is overbooked with {volunteer_count}
      volunteers (max 2 allowed)" *).

Definition start_key (e : Entry.t) : Z := default 0%Z (Entry.datetime_start e).

Definition start_le (a b : Entry.t) : Prop := (start_key a <= start_key b)%Z.

#[global] Instance start_le_dec : RelDecision start_le :=
  fun a b => Z_le_dec (start_key a) (start_key b).

Definition has_start (e : Entry.t) : bool :=
  match Entry.datetime_start e with
  | Some _ => true
  | None => false
  end.

(** One step of a sort by insertion: [e] goes in front of the first row
    that does not start before it. *)
Fixpoint insert_by_start (e : Entry.t) (rows : list Entry.t) : list Entry.t :=
  match rows with
  | [] => [e]
  | x :: rest =>
      if decide (start_le e x) then e :: rows else x :: insert_by_start e rest
  end.

(** [sub.sort_values(by="datetime_start")]: ascending, rows without a start
    last, in the order of the table.  pandas promises no order for rows
    with equal starts (its default kind, quicksort, is not a stable sort);
    numpy's plain quicksort sorts a short column by insertion, which
    leaves such rows in the order of the table, and the model takes that
    order: it is the stable sort.  The loop over the sorted rows is
    modelled apart, in [overlap_loop], for rows in any order. *)
Definition sort_values_by_start (sub : list Entry.t) : list Entry.t :=
  foldr insert_by_start [] (List.filter has_start sub)
  ++ List.filter (fun e => negb (has_start e)) sub.

Definition overlap_message (name : cell) (prev curr : Entry.t) : Conflict :=
  Overlap name (Entry.date prev) (Entry.start_time prev) (Entry.start_time curr)
          (Entry.type prev) (Entry.type curr).

(** The body of [for i in range(1, len(sub))], for the indices [is_]. *)
Fixpoint overlap_loop (name : cell) (sub : list Entry.t) (is_ : list nat)
  : result (list Conflict) :=
  match is_ with
  | [] => Ok []
  | i :: rest =>
      prev ← iloc sub (i - 1);
      curr ← iloc sub i;
      conflicts ← overlap_loop name sub rest;
      Ok (if ts_gtb (Entry.datetime_end prev) (Entry.datetime_start curr)
          then overlap_message name prev curr :: conflicts
          else conflicts)
  end.

Definition volunteer_overlaps (filtered_df : list Entry.t) (name : cell)
  : result (list Conflict) :=
  let sub := sort_values_by_start
               (List.filter (fun e => cell_eqb (Entry.volunteer e) name) filtered_df) in
  overlap_loop name sub (seq 1 (length sub - 1)).

(** The loop [for name in filtered_df["volunteer"].unique()]. *)
Fixpoint overlaps_for (filtered_df : list Entry.t) (names : list cell)
  : result (list Conflict) :=
  match names with
  | [] => Ok []
  | name :: rest =>
      here ← volunteer_overlaps filtered_df name;
      later ← overlaps_for filtered_df rest;
      Ok (here ++ later)
  end.

Definition overlap_conflicts (filtered_df : list Entry.t) : result (list Conflict) :=
  overlaps_for filtered_df (unique (map Entry.volunteer filtered_df)).

Definition is_grg (e : Entry.t) : bool :=
  match Entry.type e with
  | Some ty => String.eqb (Py.lower ty) "grg"
  | None => false
  end.

(** The group key of a row; [groupby] drops the rows with a missing key. *)
Definition group_key (e : Entry.t) : option (string * string) :=
  match Entry.event_id e, Entry.date e with
  | Some i, Some d => Some (i, d)
  | _, _ => None
  end.

Definition key_leb (a b : string * string) : bool :=
  Py.str_ltb a.1 b.1 || (String.eqb a.1 b.1 && negb (Py.str_ltb b.2 a.2)).

Definition key_le (a b : string * string) : Prop := key_leb a b = true.

#[global] Instance key_le_dec : RelDecision key_le :=
  fun a b => bool_dec (key_leb a b) true.

Definition in_group (k : string * string) (e : Entry.t) : bool :=
  bool_decide (group_key e = Some k).

(** [.volunteer.nunique()] of one group: missing names are not counted. *)
Definition volunteer_count (grg_df : list Entry.t) (k : string * string) : nat :=
  length (unique (omap Entry.volunteer (List.filter (in_group k) grg_df))).

(** [grg_df.groupby(["event_id", "date"]).volunteer.nunique().reset_index(...)]:
    one row per key, keys in ascending order. *)
Definition grg_counts (grg_df : list Entry.t) : list (string * string * nat) :=
  map (fun k => (k, volunteer_count grg_df k))
      (merge_sort key_le (unique (omap group_key grg_df))).

Definition capacity_conflicts (filtered_df : list Entry.t) : list Conflict :=
  let grg_df := List.filter is_grg filtered_df in
  let overbooked := List.filter (fun row => 2 <? row.2)%nat (grg_counts grg_df) in
  map (fun row => Overbooked row.1.1 row.1.2 row.2) overbooked.

(** Lines 142-158: the list [conflicts] for the filtered table. *)
Definition find_conflicts (filtered_df : list Entry.t) : result (list Conflict) :=
  overlaps ← overlap_conflicts filtered_df;
  Ok (overlaps ++ capacity_conflicts filtered_df).

(** The widgets of the dashboard page. *)
Record DashboardInput : Type :=
  { selected_volunteer : string;
    selected_type : list string;
    start_date : Z;
    end_date : Z }.

Definition in_date_range (start_date end_date : Z) (e : Entry.t) : bool :=
  match Entry.datetime_start e with
  | Some t => (start_date <=? date_of t)%Z && (date_of t <=? end_date)%Z
  | None => false
  end.

Definition type_isin (selected : list string) (e : Entry.t) : bool :=
  match Entry.type e with
  | Some ty => existsb (String.eqb ty) selected
  | None => false
  end.

(** Lines 122-133: the filters of the side bar. *)
Definition apply_filters (merged_df : list Entry.t) (w : DashboardInput)
  : list Entry.t :=
  let by_volunteer :=
    if negb (String.eqb (selected_volunteer w) "All")
    then List.filter (fun e => cell_eqb (Entry.volunteer e) (Some (selected_volunteer w)))
                     merged_df
    else merged_df in
  let by_type :=
    match selected_type w with
    | [] => []
    | _ => List.filter (type_isin (selected_type w)) by_volunteer
    end in
  List.filter (in_date_range (start_date w) (end_date w)) by_type.

(** What the conflict checker of the page shows: the warnings, or the
    message that no conflicts were found. *)
Inductive ConflictReport : Type :=
| Warnings (conflicts : list Conflict)
| NoConflictsFound.

(** [if conflicts: ... else: st.success(...)] *)
Definition conflict_report (conflicts : list Conflict) : ConflictReport :=
  match conflicts with
  | [] => NoConflictsFound
  | _ => Warnings conflicts
  end.

(** [show_dashboard()]: [None] when the page stops at the date-range
    error, before the checker. *)
Definition show_dashboard (merged_df : list Entry.t) (w : DashboardInput)
  : result (option ConflictReport) :=
  if (end_date w <? start_date w)%Z then Ok None
  else
    conflicts ← find_conflicts (apply_filters merged_df w);
    Ok (Some (conflict_report conflicts)).

(** ** Widgets *)

(** [st.selectbox(label, options)]: the option the user picked, the first
    one when the pick is not on offer, and [None] when there is nothing to
    pick from (the case the pages test with [if not selected_display] and
    [if not selected_event]). *)
Definition selectbox {A} (options : list A) (pick : nat) : option A :=
  match options !! pick with
  | Some x => Some x
  | None => head options
  end.

(** ** Page "Add Event" *)

(** [t.strftime("%H:%M")] for a time given in minutes after midnight. *)
Definition strftime_HM (minutes : N) : string :=
  Py.format_0d 2 ((minutes / 60) mod 24) +:+ ":" +:+ Py.format_0d 2 (minutes mod 60).

(** The [while current <= end] loop of [time_options]; times are minutes
    after 2000-01-01 00:00. *)
Fixpoint time_options_loop (fuel : nat) (current end_ : N) : list string :=
  match fuel with
  | O => []
  | S f =>
      if current <=? end_
      then strftime_HM current :: time_options_loop f (current + 30) end_
      else []
  end.

Definition time_options_from (start_hour end_hour : N) : list string :=
  time_options_loop (S (N.to_nat (2 * (end_hour - start_hour)) + 1))
                    (start_hour * 60) (end_hour * 60).

(** [time_options()] with its defaults. *)
Definition time_options : list string := time_options_from 8 17.

Definition type_labels : list (string * string) :=
  [("course", "Course"); ("grg", "GRG"); ("guiding", "Guiding")].

Record Date : Type := { year : N; month : N; day : N }.

(** [date.strftime("%Y-%m-%d")] *)
Definition strftime_Ymd (d : Date) : string :=
  Py.format_0d 4 (year d) +:+ "-" +:+ Py.format_0d 2 (month d)
    +:+ "-" +:+ Py.format_0d 2 (day d).

(** The widgets of the page.  The text and number inputs for school, name,
    grade and students are only drawn (and read) for types other than grg. *)
Record AddEventForm : Type :=
  { type_pick : nat;
    school_name_input : string;
    event_name_input : string;
    grade_input : string;
    num_students_input : Z;
    date_input : Date;
    start_pick : nat;
    end_pick : nat;
    required_input : Z;
    add_event_clicked : bool }.

Inductive AddEventReport : Type :=
| AddEventIdle
| EventNameRequired
| EventAdded (new_event_id : string).

(** [[t for t in time_options() if t > start_time]]: comparing a string
    with [None] is a [TypeError]. *)
Definition end_times_filtered (start_time : option string) : result (list string) :=
  match start_time with
  | Some st => Ok (List.filter (fun t => Py.str_ltb st t) time_options)
  | None =>
      match time_options with
      | [] => Ok []
      | _ => Raise TypeError
      end
  end.

(** [show_add_event()]: the new [events_df] and the message shown. *)
Definition show_add_event (events_df : list Event.t) (f : AddEventForm)
  : result (list Event.t * AddEventReport) :=
  let event_type_display := selectbox (map snd type_labels) (type_pick f) in
  event_type ←
    iloc (map fst (List.filter (fun kv => cell_eqb (Some kv.2) event_type_display)
                               type_labels)) 0;
  let '(school_name, event_name, grade, num_students) :=
    if negb (String.eqb event_type "grg")
    then (school_name_input f, event_name_input f, grade_input f, num_students_input f)
    else (EmptyString, "GRG Session", EmptyString, 0%Z) in
  let start_time := selectbox time_options (start_pick f) in
  ends ← end_times_filtered start_time;
  let end_time := selectbox ends (end_pick f) in
  if add_event_clicked f then
    if negb (Py.nonempty (Py.strip event_name)) then Ok (events_df, EventNameRequired)
    else
      let prefix := dict_get type_prefix_map event_type "EVT" in
      new_event_id ← generate_event_id (map Event.event_id events_df) prefix;
      let new_event :=
        {| Event.event_id := Some new_event_id;
           Event.type := Some event_type;
           Event.school_name := Some school_name;
           Event.event_name := Some event_name;
           Event.grade := Some grade;
           Event.num_students := num_students;
           Event.date := Some (strftime_Ymd (date_input f));
           Event.start_time := start_time;
           Event.end_time := end_time;
           Event.required := required_input f |} in
      Ok (events_df ++ [new_event], EventAdded new_event_id)
  else Ok (events_df, AddEventIdle).

(** One run of the page on the stored table: an exception ends the run and
    leaves the table as it was. *)
Definition add_event_run (events_df : list Event.t) (f : AddEventForm)
  : list Event.t * option string :=
  match show_add_event events_df f with
  | Ok (events_df', EventAdded new_event_id) => (events_df', Some new_event_id)
  | Ok (events_df', _) => (events_df', None)
  | Raise _ => (events_df, None)
  end.

(** A session: the runs for the forms [fs] in turn, with the identifiers
    announced on the way. *)
Fixpoint add_event_runs (events_df : list Event.t) (fs : list AddEventForm)
  : list Event.t * list string :=
  match fs with
  | [] => (events_df, [])
  | f :: rest =>
      let '(events_df', r) := add_event_run events_df f in
      let '(final, ids) := add_event_runs events_df' rest in
      (final, match r with Some i => i :: ids | None => ids end)
  end.

(** ** Volunteer names (script level, lines 41-43) *)

Definition name_key (v : Volunteer.t) : string :=
  match Volunteer.alias v with
  | Some a => a
  | None => Volunteer.full_name v
  end.

(** [pd.Series(full_name.values, index=alias.fillna(full_name)).to_dict()]:
    rows are entered in order, a later row replacing an earlier one with the
    same key. *)
Definition name_map_step (m : gmap string string) (v : Volunteer.t)
  : gmap string string :=
  <[name_key v := Volunteer.full_name v]> m.

Definition name_map (volunteers_df : list Volunteer.t) : gmap string string :=
  fold_left name_map_step volunteers_df ∅.

(** One cell of [col.str.strip().map(name_map).fillna(col)]. *)
Definition resolve_volunteer (m : gmap string string) (raw : cell) : cell :=
  match raw with
  | None => None
  | Some r =>
      match m !! Py.strip r with
      | Some full => Some full
      | None => Some r
      end
  end.

Definition resolve_assignments (volunteers_df : list Volunteer.t)
    (assignments_df : list Assignment.t) : list Assignment.t :=
  map (fun a => {| Assignment.event_id := Assignment.event_id a;
                   Assignment.volunteer :=
                     resolve_volunteer (name_map volunteers_df) (Assignment.volunteer a) |})
      assignments_df.

(** ** Page "Add Assignment" *)

Inductive AssignReport : Type :=
| NoEventsAvailable
| NoVolunteersAvailable
| NothingSelected
| AssignIdle
| AlreadyAssigned
| VolunteerAssigned (volunteer event_id : cell).

Definition event_display (e : Event.t) : string :=
  cell_str (Event.event_id e) +:+ " - " +:+ cell_str (Event.event_name e)
    +:+ " - " +:+ cell_str (Event.date e).

(** [dict(zip(events_df["display"], events_df["event_id"]))] *)
Definition display_to_id (events_df : list Event.t) : gmap string cell :=
  fold_left (fun m e => <[event_display e := Event.event_id e]> m) events_df ∅.

(** [", ".join(names)]: a missing name is a float, which [join] refuses. *)
Fixpoint join_names (names : list cell) : result string :=
  match names with
  | [] => Ok EmptyString
  | n :: rest =>
      match n with
      | None => Raise TypeError
      | Some s =>
          tail ← join_names rest;
          Ok (match rest with [] => s | _ => s +:+ ", " +:+ tail end)
      end
  end.

Definition same_pair (event_id volunteer : cell) (a : Assignment.t) : bool :=
  cell_eqb (Assignment.event_id a) event_id && cell_eqb (Assignment.volunteer a) volunteer.

(** Lines 271-283, the body of [if st.button("Assign Volunteer")]. *)
Definition assign_volunteer (assignments_df : list Assignment.t)
    (selected_event_id selected_volunteer : cell)
  : list Assignment.t * AssignReport :=
  match List.filter (same_pair selected_event_id selected_volunteer) assignments_df with
  | _ :: _ => (assignments_df, AlreadyAssigned)
  | [] =>
      let new_assignment :=
        {| Assignment.event_id := selected_event_id;
           Assignment.volunteer := selected_volunteer |} in
      (assignments_df ++ [new_assignment],
       VolunteerAssigned selected_volunteer selected_event_id)
  end.

Record AssignForm : Type :=
  { event_pick : nat;
    volunteer_pick : nat;
    assign_clicked : bool }.

(** Lines 221-269: what the page has selected when it reaches the button,
    or the message it stops with.  The column [display] that the page adds
    to [events_df] is kept apart, in [event_display]; the texts written with
    [st.markdown] are left out. *)
Definition assignment_selection (events_df : list Event.t)
    (volunteers_df : list Volunteer.t) (assignments_df : list Assignment.t)
    (f : AssignForm) : result (AssignReport + cell * cell) :=
  match events_df, volunteers_df with
  | [], _ => Ok (inl NoEventsAvailable)
  | _, [] => Ok (inl NoVolunteersAvailable)
  | _, _ =>
      let selected_display := selectbox (map event_display events_df) (event_pick f) in
      match selected_display with
      | None | Some EmptyString => Ok (inl NothingSelected)
      | Some shown =>
          selected_event_id ←
            match display_to_id events_df !! shown with
            | Some i => Ok i
            | None => Raise KeyError
            end;
          event_info ←
            iloc (List.filter (fun e => cell_eqb (Event.event_id e) selected_event_id)
                              events_df) 0;
          let current_assigned :=
            map Assignment.volunteer
                (List.filter (fun a => cell_eqb (Assignment.event_id a) selected_event_id)
                             assignments_df) in
          booked ← join_names current_assigned;
          let selected_volunteer :=
            selectbox (map Volunteer.full_name volunteers_df) (volunteer_pick f) in
          Ok (inr (selected_event_id, selected_volunteer))
      end
  end.

(** [show_add_assignment()]: the new [assignments_df] and the message. *)
Definition show_add_assignment (events_df : list Event.t)
    (volunteers_df : list Volunteer.t) (assignments_df : list Assignment.t)
    (f : AssignForm) : result (list Assignment.t * AssignReport) :=
  sel ← assignment_selection events_df volunteers_df assignments_df f;
  match sel with
  | inl stopped => Ok (assignments_df, stopped)
  | inr (selected_event_id, selected_volunteer) =>
      if assign_clicked f
      then Ok (assign_volunteer assignments_df selected_event_id selected_volunteer)
      else Ok (assignments_df, AssignIdle)
  end.

(** ** One run of the script on the page "Add Assignment"

    Streamlit runs the whole script for every interaction.  A run reads the
    assignments from their file, rewrites the names of the volunteer column
    (line 43), runs the page on the rewritten table, and a click that
    assigns writes that table, with its new row, back to the file (line
    282).  The file is modelled by the table it holds: the texts of its
    cells, a missing value for an empty cell. *)

Definition is_missing (c : cell) : bool :=
  match c with
  | None => true
  | Some _ => false
  end.

(** Line 43 on the column read from the file.  [.str] needs a column of
    texts: a column that has rows and a text in none of them is read as a
    column of floats, on which [.str] raises [AttributeError]. *)
Definition resolve_saved (volunteers_df : list Volunteer.t)
    (saved : list Assignment.t) : result (list Assignment.t) :=
  match saved with
  | [] => Ok []
  | _ =>
      if forallb (fun a => is_missing (Assignment.volunteer a)) saved
      then Raise AttributeError
      else Ok (resolve_assignments volunteers_df saved)
  end.

(** The run: the content of the file after it, and what the page reported
    or raised.  Only a click that assigns writes the file. *)
Definition run_add_assignment (events_df : list Event.t)
    (volunteers_df : list Volunteer.t) (saved : list Assignment.t) (f : AssignForm)
  : list Assignment.t * result AssignReport :=
  match (assignments_df ← resolve_saved volunteers_df saved;
         show_add_assignment events_df volunteers_df assignments_df f) with
  | Ok (assignments_df', VolunteerAssigned volunteer event_id) =>
      (assignments_df', Ok (VolunteerAssigned volunteer event_id))
  | Ok (_, report) => (saved, Ok report)
  | Raise e => (saved, Raise e)
  end.



(** ** Required against assigned volunteers *)

(** [assignments_df.groupby("event_id").size().to_dict()]: rows without an
    event id belong to no group. *)
Definition count_row (m : gmap string Z) (a : Assignment.t) : gmap string Z :=
  match Assignment.event_id a with
  | Some i => <[i := (default 0 (m !! i) + 1)%Z]> m
  | None => m
  end.

Definition assigned_counts (assignments_df : list Assignment.t) : gmap string Z :=
  fold_left count_row assignments_df ∅.

Record SummaryRow : Type :=
  { row_event : Event.t;
    assigned : Z;
    still_required : Z }.

(** Lines 336-341 of [show_event_summary], for the rows [filtered_events]. *)
Definition show_event_summary_rows (filtered_events : list Event.t)
    (assignments_df : list Assignment.t) : list SummaryRow :=
  let counts := assigned_counts assignments_df in
  map (fun e =>
         let assigned :=
           match Event.event_id e with
           | Some i => default 0%Z (counts !! i)
           | None => 0%Z
           end in
         let x := (Event.required e - assigned)%Z in
         {| row_event := e;
            assigned := assigned;
            still_required := if (0 <? x)%Z then x else 0%Z |})
      filtered_events.

(** Lines 385-388 of [show_event_details]: the two numbers shown for the
    event [event] found under [event_id]. *)
Definition show_event_details_counts (event : Event.t) (event_id : string)
    (assignments_df : list Assignment.t) : Z * Z :=
  let assigned_vols :=
    map Assignment.volunteer
        (List.filter (fun a => cell_eqb (Assignment.event_id a) (Some event_id))
                     assignments_df) in
  let assigned_count := Z.of_nat (length assigned_vols) in
  let required_count := Event.required event in
  (assigned_count, Z.max (required_count - assigned_count) 0).

(** ** Reference definitions in the words of the specification *)

(** The generator as the specification words it: the numeric suffixes of
    the identifiers that start with the prefix, then their maximum plus one,
    or one when there is none. *)
Definition is_numeric (s : string) : bool :=
  Py.nonempty s && Py.str_all Py.isdecimal_char s.

Definition numeric_suffixes (existing_ids : list string) (prefix : string) : list N :=
  omap (fun eid =>
          let suffix := Py.slice_from (String.length prefix) eid in
          if Py.startswith eid prefix && is_numeric suffix
          then Some (Py.digits_value 0 suffix) else None)
       existing_ids.

Definition spec_generate_id (existing_ids : list string) (prefix : string) : string :=
  prefix +:+ Py.format_0d 3 (match numeric_suffixes existing_ids prefix with
                             | [] => 1
                             | n :: ns => Py.max_from n ns + 1
                             end).

(** The invariant of an event: both times are present and the start is
    strictly before the end. *)
Definition times_ordered (e : Event.t) : Prop :=
  exists s t, Event.start_time e = Some s /\ Event.end_time e = Some t
              /\ Py.str_ltb s t = true.

Definition name_nonempty (e : Event.t) : Prop :=
  exists n, Event.event_name e = Some n /\ n <> EmptyString.

(** The number of assignment rows of an event. *)
Definition count_assigned (event_id : cell) (assignments_df : list Assignment.t) : Z :=
  Z.of_nat (length (List.filter (fun a => cell_eqb (Assignment.event_id a) event_id)
                                assignments_df)).

(** Consecutive rows of a table. *)
Fixpoint adjacent_pairs {A} (l : list A) : list (A * A) :=
  match l with
  | [] => []
  | x :: l' =>
      match l' with
      | [] => []
      | y :: _ => (x, y) :: adjacent_pairs l'
      end
  end.

(** [prev.datetime_end > curr.datetime_start] in the words of the
    specification: both times are there, and the end of the first entry is
    later than the start of the second. *)
Definition ends_after_start (prev curr : Entry.t) : Prop :=
  exists e s, Entry.datetime_end prev = Some e
              /\ Entry.datetime_start curr = Some s
              /\ (e > s)%Z.

#[global] Instance ends_after_start_dec (prev curr : Entry.t) :
  Decision (ends_after_start prev curr).
Proof.
  unfold ends_after_start.
  destruct (Entry.datetime_end prev) as [e|];
    [|right; by intros (? & ? & [=] & _)].
  destruct (Entry.datetime_start curr) as [s|];
    [|right; by intros (? & ? & _ & [=] & _)].
  destruct (decide (e > s)%Z) as [H|H]; [left; by exists e, s | right].
  intros (? & ? & [= <-] & [= <-] & ?). done.
Defined.

(** The overlap conflicts as the specification words them: for each
    volunteer, the entries sorted by start, and one conflict for each
    adjacent pair whose first entry ends after the second one starts. *)
Definition pair_messages (name : cell) (pairs : list (Entry.t * Entry.t))
  : list Conflict :=
  map (fun pc => overlap_message name pc.1 pc.2)
      (List.filter (fun pc => bool_decide (ends_after_start pc.1 pc.2)) pairs).

Definition spec_volunteer_overlaps (entries : list Entry.t) (name : cell)
  : list Conflict :=
  let sub := sort_values_by_start
               (List.filter (fun e => cell_eqb (Entry.volunteer e) name) entries) in
  pair_messages name (adjacent_pairs sub).

Definition spec_overlap_conflicts (entries : list Entry.t) : list Conflict :=
  flat_map (spec_volunteer_overlaps entries) (unique (map Entry.volunteer entries)).

(** Ascending start, rows without a start last. *)
Definition start_order (a b : Entry.t) : Prop :=
  match Entry.datetime_start a, Entry.datetime_start b with
  | Some x, Some y => (x <= y)%Z
  | None, Some _ => False
  | _, None => True
  end.

(** Two entries whose time intervals have a moment in common. *)
Definition intervals_overlap (a b : Entry.t) : Prop :=
  exists sa ea sb eb,
    Entry.datetime_start a = Some sa /\ Entry.datetime_end a = Some ea
    /\ Entry.datetime_start b = Some sb /\ Entry.datetime_end b = Some eb
    /\ (sa < eb)%Z /\ (sb < ea)%Z.

(** The distinct volunteers of the grg entries of one event on one date. *)
Definition distinct_volunteers (entries : list Entry.t) (event_id date : string) : nat :=
  size (list_to_set
          (omap Entry.volunteer
                (List.filter (fun e => is_grg e && in_group (event_id, date) e) entries))
        : gset string).

Definition overbooked_for (event_id date : string) (c : Conflict) : bool :=
  match c with
  | Overbooked i d _ => String.eqb i event_id && String.eqb d date
  | Overlap _ _ _ _ _ _ => false
  end.

(** ** Further parts of the script *)

(** Rows of the assignments table can be compared. *)
#[global] Instance assignment_eq_dec : EqDecision Assignment.t.
Proof. solve_decision. Defined.

(** A matching identifier whose suffix passes [isdigit] although [int]
    refuses it: the suffix holds a digit that is not decimal (on the code
    points modelled, a superscript), or it is longer than the limit on the
    digits of an [int]. *)
Definition undecodable (prefix eid : string) : bool :=
  let suffix := Py.slice_from (String.length prefix) eid in
  Py.startswith eid prefix && Py.isdigit suffix
  && negb (Py.str_all Py.isdecimal_char suffix && Py.within_digit_limit suffix).

(** Line 44 and lines 46-53: [assignments_df.merge(events_df, on="event_id",
    how="left")] and the two parsed columns.  The rows keep the order of the
    assignments; an assignment is joined with every event that carries its
    identifier (two missing identifiers match, as pandas has it), or with
    missing event columns when there is none.  [pd.to_datetime] on one text,
    with [errors='coerce'], is a parameter. *)
Section merged.
Variable to_datetime : string -> timestamp.

Definition merge_matches (a : Assignment.t) (events_df : list Event.t)
  : list (option Event.t) :=
  match List.filter (fun e => bool_decide (Event.event_id e = Assignment.event_id a))
                    events_df with
  | [] => [None]
  | es => map Some es
  end.

Definition merged_row (a : Assignment.t) (e : option Event.t) : Entry.t :=
  let date := e ≫= Event.date in
  let start_time := e ≫= Event.start_time in
  let end_time := e ≫= Event.end_time in
  {| Entry.event_id := Assignment.event_id a;
     Entry.volunteer := Assignment.volunteer a;
     Entry.type := e ≫= Event.type;
     Entry.date := date;
     Entry.start_time := start_time;
     Entry.end_time := end_time;
     Entry.datetime_start :=
       to_datetime (fillna_empty date +:+ " " +:+ fillna_empty start_time);
     Entry.datetime_end :=
       to_datetime (fillna_empty date +:+ " " +:+ fillna_empty end_time) |}.

Definition merged_df (assignments_df : list Assignment.t) (events_df : list Event.t)
  : list Entry.t :=
  flat_map (fun a => map (merged_row a) (merge_matches a events_df)) assignments_df.
End merged.

(** ** Page "Event Details" (lines 355-388) *)

(** [s.split(sep)[0]] for a separator that is not empty: the text before
    the first occurrence of the separator, the whole text when there is
    none. *)
Fixpoint split_head (sep s : string) : string :=
  if Py.startswith s sep then EmptyString
  else match s with
       | EmptyString => EmptyString
       | String c s' => String c (split_head sep s')
       end.

(** One entry of [event_options]: adding a missing name or date to a text
    gives a missing value; [astype(str)] writes a missing identifier as
    "nan". *)
Definition details_option (e : Event.t) : cell :=
  match Event.event_name e, Event.date e with
  | Some n, Some d => Some (cell_str (Event.event_id e) +:+ " - " +:+ n +:+ " - " +:+ d)
  | _, _ => None
  end.

(** What the page writes under "Booked Volunteers". *)
Inductive BookedText : Type :=
| BookedNames (names : string)
| NoVolunteersBookedYet.

Inductive DetailsReport : Type :=
| NoEventsFound
| SelectedEventNotFound
| EventDetails (event : Event.t) (booked : BookedText) (assigned_count still_required : Z)
| DetailsAttributeError
  (** a missing value was picked: a float has no [split] *)
| DetailsTypeError
  (** a missing volunteer name among the booked ones: [join] refuses it *).

(** [show_event_details()]: the event it shows, the booked names and the two
    numbers, for an events table whose identifiers, names and dates are
    texts (see [kept_as_text]). *)
Definition show_event_details (events_df : list Event.t)
    (assignments_df : list Assignment.t) (pick : nat) : DetailsReport :=
  match selectbox (map details_option events_df) pick with
  | None | Some (Some EmptyString) => NoEventsFound
  | Some None => DetailsAttributeError
  | Some (Some selected_event) =>
      let event_id := split_head " - " selected_event in
      match List.filter (fun e => cell_eqb (Event.event_id e) (Some event_id)) events_df with
      | [] => SelectedEventNotFound
      | event :: _ =>
          let '(assigned_count, still_required) :=
            show_event_details_counts event event_id assignments_df in
          let assigned_vols :=
            map Assignment.volunteer
                (List.filter (fun a => cell_eqb (Assignment.event_id a) (Some event_id))
                             assignments_df) in
          match assigned_vols with
          | [] => EventDetails event NoVolunteersBookedYet assigned_count still_required
          | _ =>
              match join_names assigned_vols with
              | Ok names => EventDetails event (BookedNames names) assigned_count still_required
              | Raise _ => DetailsTypeError
              end
          end
      end
  end.

(** A text without the blank that starts the separator " - ". *)
Definition no_space (s : string) : bool :=
  Py.str_all (fun c => negb (Ascii.eqb c " ")) s.

(** The tables hold texts, and [show_event_details] compares the
    identifiers as texts.  [pd.read_csv] however reads a column as numbers
    or truth values when every cell of it reads as one, and a cell as
    missing when it holds a marker of a missing value ("NA", "NaN", "null",
    "None", "n/a", ...); the identifier "101" in a column of numbers is the
    number 101, which equals no text.  Numbers, truth values and those
    markers are written with digits, signs, points, "#", "/", "<", ">",
    blanks and the letters of "e", "inf", "infinity", "nan", "true",
    "false", "na", "null", "none", "ind" and "qnan".  A cell that holds
    another letter of the alphabet (one of b c g h j k m p v w x z, in either
    case) is therefore kept as a text, and with it every cell of its column
    that is not missing. *)
Definition other_letter (c : ascii) : bool :=
  let l := Py.code (Py.lower_char c) in
  (97 <=? l) && (l <=? 122)
  && negb (existsb (N.eqb l)
                   [97; 100; 101; 102; 105; 108; 110; 111; 113; 114; 115; 116; 117; 121]).

Definition kept_as_text (s : string) : bool :=
  negb (Py.str_all (fun c => negb (other_letter c)) s).

(** The number that follows the numbers [nums]. *)
Definition next_of (nums : list N) : N :=
  match nums with
  | [] => 1
  | n :: ns => Py.max_from n ns + 1
  end.

(** The event type behind the pick of the selectbox "Select Event Type". *)
Definition picked_event_type (pick : nat) : string :=
  match pick with
  | 1%nat => "grg"
  | 2%nat => "guiding"
  | _ => "course"
  end.

(** The row that the page "Add Event" builds from its widgets. *)
Definition added_event (f : AddEventForm) (new_event_id : string) : Event.t :=
  let event_type := picked_event_type (type_pick f) in
  let grg := String.eqb event_type "grg" in
  let start_time := selectbox time_options (start_pick f) in
  {| Event.event_id := Some new_event_id;
     Event.type := Some event_type;
     Event.school_name := Some (if grg then EmptyString else school_name_input f);
     Event.event_name := Some (if grg then "GRG Session" else event_name_input f);
     Event.grade := Some (if grg then EmptyString else grade_input f);
     Event.num_students := if grg then 0%Z else num_students_input f;
     Event.date := Some (strftime_Ymd (date_input f));
     Event.start_time := start_time;
     Event.end_time :=
       match end_times_filtered start_time with
       | Ok ends => selectbox ends (end_pick f)
       | Raise _ => None
       end;
     Event.required := required_input f |}.

(** A row that the three filters of the dashboard let through. *)
Definition passes_filters (w : DashboardInput) (e : Entry.t) : bool :=
  (String.eqb (selected_volunteer w) "All"
   || cell_eqb (Entry.volunteer e) (Some (selected_volunteer w)))
  && type_isin (selected_type w) e
  && in_date_range (start_date w) (end_date w) e.

(** ** The widgets of the dashboard as the page first shows them
    (lines 93-108) *)

(** [sorted(l)] on texts. *)
Definition str_le (a b : string) : Prop := Py.str_ltb b a = false.

#[global] Instance str_le_dec : RelDecision str_le :=
  fun a b => bool_dec (Py.str_ltb b a) false.

Definition sorted (l : list string) : list string := merge_sort str_le l.

(** [col.dropna()] *)
Definition dropna {A} (col : list (option A)) : list A := omap id col.

(** The values of the four widgets when the user has touched none of them:
    "All" is the first option of the volunteer filter, every type of the
    events table is selected, and the two dates are the days of the earliest
    and of the latest start of the joined table ([min()] and [max()] skip
    the missing starts), or [today] when no row has a start. *)
Definition dashboard_defaults (today : Z) (merged_df : list Entry.t)
    (events_df : list Event.t) : DashboardInput :=
  let type_options := sorted (unique (dropna (map Event.type events_df))) in
  let dates :=
    match dropna (map Entry.datetime_start merged_df) with
    | t :: ts => (date_of (fold_left Z.min ts t), date_of (fold_left Z.max ts t))
    | [] => (today, today)
    end in
  {| selected_volunteer := "All";
     selected_type := type_options;
     start_date := dates.1;
     end_date := dates.2 |}.

(** A row with a type and a start. *)
Definition typed_and_dated (r : Entry.t) : bool :=
  match Entry.type r, Entry.datetime_start r with
  | Some _, Some _ => true
  | _, _ => false
  end.

(** No row of the table ends after the next row starts. *)
Definition no_adjacent_overlap (l : list Entry.t) : Prop :=
  List.filter (fun pc => bool_decide (ends_after_start pc.1 pc.2))
              (adjacent_pairs l) = [].

(** * Properties *)

(** ** Lists *)

Section list_facts.
Context {A B : Type}.

Lemma elem_of_List_filter (f : A -> bool) (l : list A) (x : A) :
  x ∈ List.filter f l <-> x ∈ l /\ f x = true.
Proof. rewrite !list_elem_of_In. apply filter_In. Qed.

Lemma elem_of_map (f : A -> B) (l : list A) (y : B) :
  y ∈ map f l <-> exists x, f x = y /\ x ∈ l.
Proof.
  rewrite list_elem_of_In, in_map_iff.
  split; intros (x & Hx & Hin); exists x; by rewrite list_elem_of_In in *.
Qed.

Lemma NoDup_List_filter (f : A -> bool) (l : list A) :
  NoDup l -> NoDup (List.filter f l).
Proof.
  induction 1 as [|x l Hx Hnd IH]; simpl; [constructor|].
  destruct (f x); [|done]. constructor; [|done].
  rewrite elem_of_List_filter. by intros [? _].
Qed.

Lemma NoDup_map_inj (f : A -> B) (l : list A) :
  (forall x y, f x = f y -> x = y) -> NoDup l -> NoDup (map f l).
Proof.
  intros Hinj. induction 1 as [|x l Hx Hnd IH]; simpl; [constructor|].
  constructor; [|done].
  rewrite elem_of_map. intros (y & Hy & Hin). apply Hinj in Hy as ->. done.
Qed.
End list_facts.

(** More on [List.filter]. *)
Section filter_facts.

Lemma filter_filter {A} (p q : A -> bool) (l : list A) :
  List.filter p (List.filter q l) = List.filter (fun x => q x && p x) l.
Proof.
  induction l as [|x l IH]; [reflexivity|]. simpl.
  destruct (q x); simpl; [|exact IH]. destruct (p x); by rewrite IH.
Qed.

Lemma List_filter_ext {A} (p q : A -> bool) (l : list A) :
  (forall x, p x = q x) -> List.filter p l = List.filter q l.
Proof. intros H. induction l as [|x l IH]; simpl; [done|]. by rewrite H, IH. Qed.

Lemma type_isin_nil (e : Entry.t) : type_isin [] e = false.
Proof. unfold type_isin. by destruct (Entry.type e). Qed.

Lemma apply_filters_filter (merged_df : list Entry.t) (w : DashboardInput) :
  apply_filters merged_df w = List.filter (passes_filters w) merged_df.
Proof.
  unfold apply_filters, passes_filters.
  destruct (String.eqb (selected_volunteer w) "All") eqn:Hall; cbn [negb orb].
  - destruct (selected_type w) as [|ty tys] eqn:Hty.
    + simpl. symmetry. induction merged_df as [|e l IH]; [done|]. simpl.
      by rewrite type_isin_nil.
    + rewrite filter_filter. by apply List_filter_ext.
  - destruct (selected_type w) as [|ty tys] eqn:Hty.
    + simpl. symmetry. induction merged_df as [|e l IH]; [done|]. simpl.
      by rewrite type_isin_nil, andb_false_r.
    + rewrite !filter_filter. apply List_filter_ext. intros x. apply andb_assoc.
Qed.

Lemma List_filter_nil {A} (p : A -> bool) (l : list A) :
  (forall x, x ∈ l -> p x = false) -> List.filter p l = [].
Proof.
  induction l as [|x l IH]; intros H; [reflexivity|]. simpl.
  rewrite (H x) by left. apply IH. intros y Hy. apply H. by right.
Qed.

Lemma List_filter_ext_in {A} (p q : A -> bool) (l : list A) :
  (forall x, x ∈ l -> p x = q x) -> List.filter p l = List.filter q l.
Proof.
  induction l as [|x l IH]; intros H; [reflexivity|]. simpl.
  rewrite (H x) by left. rewrite IH; [done|]. intros y Hy. apply H. by right.
Qed.
End filter_facts.

(** ** Strings and numbers *)

Section py_facts.
Import Py.

Lemma append_nil_l (s : string) : EmptyString +:+ s = s.
Proof. reflexivity. Qed.

Lemma append_cons (x : ascii) (a b : string) : String x a +:+ b = String x (a +:+ b).
Proof. reflexivity. Qed.

Lemma append_nil_r (s : string) : s +:+ EmptyString = s.
Proof.
  induction s as [|x s IH]; [reflexivity|]. by rewrite append_cons, IH.
Qed.

Lemma append_assoc (a b c : string) : (a +:+ b) +:+ c = a +:+ (b +:+ c).
Proof.
  induction a as [|x a IH]; [reflexivity|]. by rewrite !append_cons, IH.
Qed.

Lemma append_length (a b : string) :
  String.length (a +:+ b) = (String.length a + String.length b)%nat.
Proof.
  induction a as [|x a IH]; [reflexivity|]. rewrite append_cons. simpl. by rewrite IH.
Qed.

Lemma startswith_append (p s : string) : startswith (p +:+ s) p = true.
Proof.
  induction p as [|x p IH]; [reflexivity|].
  rewrite append_cons. simpl. by rewrite Ascii.eqb_refl, IH.
Qed.

Lemma slice_from_append (p s : string) : slice_from (String.length p) (p +:+ s) = s.
Proof.
  induction p as [|x p IH]; [by destruct s|]. rewrite append_cons. exact IH.
Qed.

Lemma str_all_append q (a b : string) :
  str_all q (a +:+ b) = str_all q a && str_all q b.
Proof.
  induction a as [|x a IH]; [reflexivity|].
  rewrite append_cons. simpl. by rewrite IH, andb_assoc.
Qed.

Lemma str_all_impl (q r : ascii -> bool) (s : string) :
  (forall c, q c = true -> r c = true) ->
  str_all q s = true -> str_all r s = true.
Proof.
  intros Hqr. induction s as [|x s IH]; simpl; [done|].
  rewrite !andb_true_iff. intros [Hx Hs]. auto.
Qed.

Lemma isdecimal_isdigit_char c : isdecimal_char c = true -> isdigit_char c = true.
Proof. unfold isdigit_char. intros ->. reflexivity. Qed.

Lemma digits_value_append (acc : N) (a b : string) :
  digits_value acc (a +:+ b) = digits_value (digits_value acc a) b.
Proof.
  revert acc. induction a as [|x a IH]; intros acc; [reflexivity|].
  rewrite append_cons. apply IH.
Qed.

Lemma code_digit_char (d : N) : d < 10 -> code (digit_char d) = 48 + d.
Proof.
  intros Hd. unfold code, digit_char. apply N_ascii_embedding. lia.
Qed.

Lemma isdecimal_digit_char (d : N) : d < 10 -> isdecimal_char (digit_char d) = true.
Proof.
  intros Hd. unfold isdecimal_char. rewrite code_digit_char by done.
  apply andb_true_iff. split; apply N.leb_le; lia.
Qed.

(** With enough fuel the loop writes a non-empty string of decimal digits
    whose value is the number. *)
Lemma digits_aux_spec (fuel : nat) :
  forall (n : N) (acc : string),
    n < 2 ^ N.of_nat (S fuel) ->
    exists ds,
      digits_aux (S fuel) n acc = ds +:+ acc
      /\ nonempty ds = true
      /\ str_all isdecimal_char ds = true
      /\ digits_value 0 ds = n.
Proof.
  induction fuel as [|fuel IH]; intros n acc Hn.
  - assert (Hlt : n < 10) by (change (2 ^ N.of_nat 1) with 2 in Hn; lia).
    exists (String (digit_char (n mod 10)) EmptyString).
    cbn [digits_aux]. apply N.ltb_lt in Hlt as Hb. rewrite Hb.
    rewrite N.mod_small by done. simpl.
    rewrite isdecimal_digit_char, code_digit_char by done.
    repeat split. lia.
  - remember (S fuel) as fuel' eqn:Hfuel.
    cbn [digits_aux]. destruct (n <? 10) eqn:Hb.
    + apply N.ltb_lt in Hb.
      exists (String (digit_char (n mod 10)) EmptyString).
      rewrite N.mod_small by done. simpl.
      rewrite isdecimal_digit_char, code_digit_char by done.
      repeat split. lia.
    + apply N.ltb_ge in Hb.
      assert (Hmod : n mod 10 < 10) by (apply N.mod_lt; lia).
      subst fuel'.
      assert (Hdiv : n / 10 < 2 ^ N.of_nat (S fuel)).
      { rewrite Nat2N.inj_succ, N.pow_succ_r' in Hn.
        apply N.Div0.div_lt_upper_bound. lia. }
      destruct (IH (n / 10) (String (digit_char (n mod 10)) acc) Hdiv)
        as (ds & Hds & Hne & Hall & Hval).
      exists (ds +:+ String (digit_char (n mod 10)) EmptyString).
      split; [rewrite Hds, append_assoc; reflexivity|].
      split; [by destruct ds|].
      split.
      * rewrite str_all_append, Hall. simpl. by rewrite isdecimal_digit_char.
      * rewrite digits_value_append, Hval. cbn [digits_value].
        rewrite code_digit_char by done.
        pose proof (N.div_mod n 10 ltac:(lia)) as Hdm. clear IH Hn Hdiv Hds Hval.
        generalize dependent (n mod 10). generalize (n / 10). intros; lia.
Qed.

Lemma str_of_N_spec (n : N) :
  nonempty (str_of_N n) = true
  /\ str_all isdecimal_char (str_of_N n) = true
  /\ digits_value 0 (str_of_N n) = n.
Proof.
  unfold str_of_N.
  destruct (digits_aux_spec (N.to_nat (N.log2 n)) n EmptyString)
    as (ds & Hds & Hne & Hall & Hval).
  - rewrite Nat2N.inj_succ, N2Nat.id.
    destruct (N.eq_dec n 0) as [->|Hn0]; [reflexivity|].
    apply N.log2_spec. lia.
  - rewrite Hds.
    rewrite append_nil_r. done.
Qed.

Lemma zeros_decimal (k : nat) : str_all isdecimal_char (zeros k) = true.
Proof. induction k; simpl; [reflexivity | done]. Qed.

Lemma digits_value_zeros (k : nat) (s : string) :
  digits_value 0 (zeros k +:+ s) = digits_value 0 s.
Proof.
  induction k as [|k IH]; [reflexivity|]. simpl zeros. rewrite append_cons. exact IH.
Qed.

Lemma format_0d_decimal (w : nat) (n : N) :
  nonempty (format_0d w n) = true
  /\ str_all isdecimal_char (format_0d w n) = true.
Proof.
  destruct (str_of_N_spec n) as (Hne & Hall & _). unfold format_0d.
  split.
  - destruct (zeros _); [done | reflexivity].
  - by rewrite str_all_append, zeros_decimal, Hall.
Qed.

Lemma format_0d_value (w : nat) (n : N) : digits_value 0 (format_0d w n) = n.
Proof.
  unfold format_0d. rewrite digits_value_zeros. apply str_of_N_spec.
Qed.

Lemma zeros_length (k : nat) : String.length (zeros k) = k.
Proof. induction k; simpl; congruence. Qed.

(** Padding to three digits does not take a number over the limit. *)
Lemma format_0d_within (n : N) :
  within_digit_limit (str_of_N n) = true ->
  within_digit_limit (format_0d 3 n) = true.
Proof.
  unfold within_digit_limit, int_max_str_digits, format_0d.
  rewrite !N.leb_le, append_length, zeros_length. lia.
Qed.

(** Reading back what [format_0d] wrote. *)
Lemma int_format_0d (w : nat) (n : N) :
  within_digit_limit (format_0d w n) = true -> int (format_0d w n) = Ok n.
Proof.
  intros Hw. unfold int. destruct (format_0d_decimal w n) as [-> ->].
  rewrite Hw. simpl. by rewrite format_0d_value.
Qed.

Lemma isdigit_format_0d (w : nat) (n : N) : isdigit (format_0d w n) = true.
Proof.
  unfold isdigit. destruct (format_0d_decimal w n) as [-> Hall]. simpl.
  eapply str_all_impl; [apply isdecimal_isdigit_char | exact Hall].
Qed.

Lemma format_0d_length (w : nat) (n : N) : (w <= String.length (format_0d w n))%nat.
Proof.
  unfold format_0d. rewrite append_length, zeros_length. lia.
Qed.

Lemma max_from_init (x : N) (l : list N) : x <= max_from x l.
Proof.
  unfold max_from. revert x. induction l as [|z l IH]; intros x; simpl; [lia|].
  etransitivity; [|apply IH]. lia.
Qed.

Lemma max_from_ge (x : N) (l : list N) (y : N) :
  y ∈ x :: l -> y <= max_from x l.
Proof.
  revert x. induction l as [|z l IH]; intros x Hy.
  - apply list_elem_of_singleton in Hy. subst y. apply max_from_init.
  - apply elem_of_cons in Hy as [Hy|Hy].
    + subst y. apply max_from_init.
    + change (max_from x (z :: l)) with (max_from (N.max x z) l).
      apply elem_of_cons in Hy as [Hy|Hy].
      * subst y. etransitivity; [|apply max_from_init]. lia.
      * apply IH. by right.
Qed.

Lemma max_from_elem (x : N) (l : list N) : max_from x l ∈ x :: l.
Proof.
  unfold max_from. revert x. induction l as [|z l IH]; intros x; simpl.
  - left.
  - specialize (IH (N.max x z)).
    apply elem_of_cons in IH as [Heq|IH].
    + rewrite Heq. destruct (N.max_spec x z) as [[_ Hm]|[_ Hm]]; rewrite Hm.
      * right; left.
      * left.
    + right; by right.
Qed.
End py_facts.

(** ** Identifier generation *)

Section generate_event_id_facts.
Import Py.

Lemma is_numeric_isdigit (s : string) : is_numeric s = true -> isdigit s = true.
Proof.
  unfold is_numeric, isdigit. intros [-> Hall]%andb_true_iff. simpl.
  by apply (str_all_impl _ _ _ isdecimal_isdigit_char).
Qed.

(** The comprehension over the matching identifiers raises exactly when
    one of them is undecodable, and collects the numeric suffixes when
    none is. *)
Lemma suffix_nums_filtered (prefix : string) (existing_ids : list string) :
  suffix_nums prefix (List.filter (fun eid => startswith eid prefix) existing_ids)
  = if existsb (undecodable prefix) existing_ids
    then Raise ValueError
    else Ok (numeric_suffixes existing_ids prefix).
Proof.
  unfold numeric_suffixes.
  induction existing_ids as [|x l IH]; [reflexivity|].
  cbn [List.filter existsb omap list_omap]. unfold undecodable at 1.
  destruct (startswith x prefix) eqn:Hx; cbn [andb orb]; [|exact IH].
  cbn [suffix_nums].
  destruct (isdigit (slice_from (String.length prefix) x)) eqn:Hd; cbn [andb].
  - assert (Hne : nonempty (slice_from (String.length prefix) x) = true)
      by (unfold isdigit in Hd; by apply andb_true_iff in Hd as [? _]).
    unfold int, is_numeric. rewrite Hne. cbn [andb].
    destruct (str_all isdecimal_char (slice_from (String.length prefix) x));
      cbn [andb negb orb mbind result_bind]; [|reflexivity].
    destruct (within_digit_limit (slice_from (String.length prefix) x));
      cbn [andb negb orb mbind result_bind]; [|reflexivity].
    rewrite IH. by destruct (existsb _ l).
  - assert (is_numeric (slice_from (String.length prefix) x) = false) as ->;
      [|exact IH].
    apply not_true_is_false. intros Hnum. apply is_numeric_isdigit in Hnum. congruence.
Qed.

(** What the generator does, in one equation: it raises [ValueError] when
    an identifier is undecodable or when the next number has too many
    digits to be written, and returns the prefix with the next number
    otherwise. *)
Lemma generate_event_id_cases (event_ids : list cell) (prefix : string) :
  generate_event_id event_ids prefix
  = if existsb (undecodable prefix) (omap id event_ids)
    then Raise ValueError
    else let n := next_of (numeric_suffixes (omap id event_ids) prefix) in
         if within_digit_limit (str_of_N n)
         then Ok (prefix +:+ format_0d 3 n)
         else Raise ValueError.
Proof.
  unfold generate_event_id.
  pose proof (suffix_nums_filtered prefix (omap id event_ids)) as H.
  destruct (List.filter _ _) as [|x l] eqn:Hf.
  - cbn [suffix_nums] in H. destruct (existsb _ _); [discriminate|].
    injection H as <-. reflexivity.
  - rewrite H. destruct (existsb _ _); [reflexivity|].
    cbn [mbind result_bind].
    destruct (numeric_suffixes _ _) as [|n ns]; cbn [mbind result_bind next_of];
      unfold format_d; cbv zeta; by destruct (within_digit_limit _).
Qed.

(** When the generator returns, it returns what the specification asks. *)
Lemma generate_event_id_refines_spec (event_ids : list cell) (prefix new_id : string) :
  generate_event_id event_ids prefix = Ok new_id ->
  new_id = spec_generate_id (omap id event_ids) prefix.
Proof.
  rewrite generate_event_id_cases.
  destruct (existsb _ _); [discriminate|]. cbv zeta.
  destruct (within_digit_limit _); [|discriminate]. by intros [= <-].
Qed.

(** It returns whenever no identifier is undecodable and the next number
    can be written. *)
Lemma generate_event_id_returns (event_ids : list cell) (prefix : string) :
  existsb (undecodable prefix) (omap id event_ids) = false ->
  within_digit_limit
    (str_of_N (next_of (numeric_suffixes (omap id event_ids) prefix))) = true ->
  generate_event_id event_ids prefix
  = Ok (spec_generate_id (omap id event_ids) prefix).
Proof.
  intros Hdec Hlim. rewrite generate_event_id_cases, Hdec. cbv zeta.
  by rewrite Hlim.
Qed.

Lemma numeric_suffixes_elem (prefix : string) (existing_ids : list string)
    (eid : string) :
  eid ∈ existing_ids -> startswith eid prefix = true ->
  is_numeric (slice_from (String.length prefix) eid) = true ->
  digits_value 0 (slice_from (String.length prefix) eid)
  ∈ numeric_suffixes existing_ids prefix.
Proof.
  intros Hin Hsw Hnum. unfold numeric_suffixes. apply list_elem_of_omap.
  exists eid. split; [done|]. cbv zeta. by rewrite Hsw, Hnum.
Qed.

Lemma next_of_gt (nums : list N) (n : N) : n ∈ nums -> n < next_of nums.
Proof.
  destruct nums as [|m ms]; intros Hn; [by apply elem_of_nil in Hn|].
  cbn [next_of]. pose proof (max_from_ge m ms n Hn). lia.
Qed.

(** The generator never returns an identifier of the table. *)
Lemma generate_event_id_fresh (event_ids : list cell) (prefix new_id : string) :
  generate_event_id event_ids prefix = Ok new_id ->
  Some new_id ∉ event_ids.
Proof.
  rewrite generate_event_id_cases.
  destruct (existsb _ _); [discriminate|]. cbv zeta.
  destruct (within_digit_limit _); [|discriminate]. intros [= <-] Hin.
  set (nums := numeric_suffixes (omap id event_ids) prefix) in *.
  assert (Hn : next_of nums ∈ nums).
  { pose proof (numeric_suffixes_elem prefix (omap id event_ids)
                  (prefix +:+ format_0d 3 (next_of nums))) as H.
    rewrite slice_from_append, format_0d_value in H. apply H.
    - apply list_elem_of_omap. by exists (Some (prefix +:+ format_0d 3 (next_of nums))).
    - apply startswith_append.
    - unfold is_numeric. by destruct (format_0d_decimal 3 (next_of nums)) as [-> ->]. }
  apply next_of_gt in Hn. lia.
Qed.
End generate_event_id_facts.

(** ** Page "Add Event" *)

Section add_event_facts.

(** The loop of [time_options] stops because the time has passed the end,
    not because the fuel is spent: more fuel changes nothing. *)
Lemma time_options_loop_enough (fuel : nat) :
  forall (current end_ : N) (extra : nat),
    end_ < current + 30 * N.of_nat fuel ->
    time_options_loop (fuel + extra) current end_ = time_options_loop fuel current end_.
Proof.
  induction fuel as [|fuel IH]; intros current end_ extra Hend.
  - destruct extra as [|extra]; [reflexivity|]. simpl.
    destruct (N.leb_spec current end_); [lia | reflexivity].
  - cbn [Nat.add time_options_loop]. destruct (current <=? end_); [|reflexivity].
    f_equal. apply IH. lia.
Qed.

Lemma time_options_from_enough (start_hour end_hour : N) (extra : nat) :
  time_options_loop (S (N.to_nat (2 * (end_hour - start_hour)) + 1) + extra)
                    (start_hour * 60) (end_hour * 60)
  = time_options_from start_hour end_hour.
Proof. unfold time_options_from. apply time_options_loop_enough. lia. Qed.

Example time_options_grid :
  time_options
  = ["08:00"; "08:30"; "09:00"; "09:30"; "10:00"; "10:30"; "11:00"; "11:30";
     "12:00"; "12:30"; "13:00"; "13:30"; "14:00"; "14:30"; "15:00"; "15:30";
     "16:00"; "16:30"; "17:00"].
Proof. vm_compute. reflexivity. Qed.

(** A run that announces an identifier appended exactly one event, which
    carries that identifier, and the identifier was not in the table. *)
Lemma show_add_event_added (events_df events_df' : list Event.t)
    (f : AddEventForm) (new_id : string) :
  show_add_event events_df f = Ok (events_df', EventAdded new_id) ->
  exists e,
    events_df' = events_df ++ [e]
    /\ Event.event_id e = Some new_id
    /\ Some new_id ∉ map Event.event_id events_df.
Proof.
  unfold show_add_event.
  destruct (iloc _ 0) as [event_type|]; [simpl|discriminate].
  destruct (negb (String.eqb event_type "grg"));
    (destruct (end_times_filtered _) as [ends|]; [simpl|discriminate]);
    (destruct (add_event_clicked f); [|discriminate]);
    try (destruct (negb (Py.nonempty _)); [discriminate|]);
    (destruct (generate_event_id _ _) as [i|] eqn:Hgen; [simpl|discriminate]);
    intros [= <- <-]; eexists; (split; [reflexivity|]);
    (split; [reflexivity|]); by eapply generate_event_id_fresh.
Qed.

(** Any other run leaves the table as it was. *)
Lemma show_add_event_not_added (events_df events_df' : list Event.t)
    (f : AddEventForm) (r : AddEventReport) :
  show_add_event events_df f = Ok (events_df', r) ->
  (exists new_id, r = EventAdded new_id) \/ events_df' = events_df.
Proof.
  unfold show_add_event.
  destruct (iloc _ 0) as [event_type|]; [simpl|discriminate].
  destruct (negb (String.eqb event_type "grg"));
    (destruct (end_times_filtered _) as [ends|]; [simpl|discriminate]);
    (destruct (add_event_clicked f); [|intros [= <- <-]; by right]);
    try (destruct (negb (Py.nonempty _)); [intros [= <- <-]; by right|]);
    (destruct (generate_event_id _ _) as [i|] eqn:Hgen; [simpl|discriminate]);
    intros [= <- <-]; left; by eexists.
Qed.

Lemma add_event_run_cases (events_df : list Event.t) (f : AddEventForm) :
  (add_event_run events_df f = (events_df, None))
  \/ (exists e new_id,
        add_event_run events_df f = (events_df ++ [e], Some new_id)
        /\ Event.event_id e = Some new_id
        /\ Some new_id ∉ map Event.event_id events_df).
Proof.
  unfold add_event_run.
  destruct (show_add_event events_df f) as [[events_df' r]|] eqn:Hrun; [|by left].
  destruct r as [| |new_id].
  - apply show_add_event_not_added in Hrun as [[? [=]]| ->]. by left.
  - apply show_add_event_not_added in Hrun as [[? [=]]| ->]. by left.
  - apply show_add_event_added in Hrun as (e & -> & He & Hfresh).
    right. by exists e, new_id.
Qed.

(** The invariant of a session: the identifiers announced are distinct,
    none was in the table at the start, and the table only grows. *)
Lemma add_event_runs_invariant (fs : list AddEventForm) :
  forall events_df : list Event.t,
    NoDup (add_event_runs events_df fs).2
    /\ (forall i, i ∈ (add_event_runs events_df fs).2 ->
          Some i ∉ map Event.event_id events_df)
    /\ (forall c, c ∈ map Event.event_id events_df ->
          c ∈ map Event.event_id (add_event_runs events_df fs).1).
Proof.
  induction fs as [|f fs IH]; intros events_df.
  - simpl. split; [constructor|]. split; [|done].
    intros i Hi. by apply elem_of_nil in Hi.
  - cbn [add_event_runs].
    destruct (add_event_run_cases events_df f) as [Hrun|(e & i & Hrun & He & Hfresh)];
      rewrite Hrun.
    + specialize (IH events_df).
      destruct (add_event_runs events_df fs) as [final ids]. exact IH.
    + specialize (IH (events_df ++ [e])).
      destruct (add_event_runs (events_df ++ [e]) fs) as [final ids].
      simpl in IH |- *. destruct IH as (Hnd & Hnot & Hgrow).
      assert (Hsub : forall c, c ∈ map Event.event_id events_df ->
                               c ∈ map Event.event_id (events_df ++ [e])).
      { intros c Hc. rewrite map_app. apply elem_of_app. by left. }
      assert (Hi : Some i ∈ map Event.event_id (events_df ++ [e])).
      { rewrite map_app. apply elem_of_app. right. simpl. rewrite He. left. }
      split; [|split].
      * apply NoDup_cons. split; [|done]. intros Hin. by apply (Hnot i).
      * intros j Hj. apply elem_of_cons in Hj as [->|Hj]; [done|].
        intros Hc. apply (Hnot j Hj). by apply Hsub.
      * intros c Hc. by apply Hgrow, Hsub.
Qed.

(** An appended event has a name that is not empty. *)
Lemma strip_nonempty (s : string) : Py.nonempty (Py.strip s) = true -> s <> EmptyString.
Proof. intros H ->. discriminate. Qed.

Lemma show_add_event_name (events_df events_df' : list Event.t)
    (f : AddEventForm) (new_id : string) :
  show_add_event events_df f = Ok (events_df', EventAdded new_id) ->
  exists e, events_df' = events_df ++ [e] /\ name_nonempty e.
Proof.
  unfold show_add_event.
  destruct (iloc _ 0) as [event_type|]; [simpl|discriminate].
  destruct (negb (String.eqb event_type "grg"));
    (destruct (end_times_filtered _) as [ends|]; [simpl|discriminate]);
    (destruct (add_event_clicked f); [|discriminate]);
    try (destruct (negb (Py.nonempty _)) eqn:Hname; [discriminate|]);
    (destruct (generate_event_id _ _) as [i|] eqn:Hgen; [simpl|discriminate]);
    intros [= <- <-]; eexists; (split; [reflexivity|]);
    eexists; (split; [reflexivity|]);
    [apply negb_false_iff in Hname; by apply strip_nonempty | discriminate].
Qed.

Lemma selectbox_elem {A} (options : list A) (pick : nat) (x : A) :
  selectbox options pick = Some x -> x ∈ options.
Proof.
  unfold selectbox. destruct (options !! pick) eqn:Hp.
  - intros [= <-]. by eapply list_elem_of_lookup_2.
  - destruct options; [discriminate|]. intros [= <-]. left.
Qed.

Lemma selectbox_nonempty {A} (options : list A) (pick : nat) :
  options <> [] -> is_Some (selectbox options pick).
Proof.
  intros Hne. unfold selectbox. destruct (options !! pick); [by eexists|].
  destruct options; [done | by eexists].
Qed.

Lemma end_times_filtered_later (st : string) (ends : list string) (t : string) :
  end_times_filtered (Some st) = Ok ends -> t ∈ ends -> Py.str_ltb st t = true.
Proof.
  unfold end_times_filtered. generalize time_options. intros opts Hends Ht.
  injection Hends as <-.
  by apply elem_of_List_filter in Ht as [_ Ht].
Qed.

(** When an end time was on offer, it is later than the start time. *)
Lemma show_add_event_times (events_df events_df' : list Event.t)
    (f : AddEventForm) (new_id : string) :
  show_add_event events_df f = Ok (events_df', EventAdded new_id) ->
  exists e, events_df' = events_df ++ [e]
            /\ (Event.end_time e = None \/ times_ordered e).
Proof.
  unfold show_add_event.
  destruct (selectbox_nonempty time_options (start_pick f)) as [st Hst]; [done|].
  rewrite Hst.
  destruct (iloc _ 0) as [event_type|]; [cbn [mbind result_bind]|discriminate].
  destruct (negb (String.eqb event_type "grg"));
    (destruct (end_times_filtered _) as [ends|] eqn:Hends;
       [cbn [mbind result_bind]|discriminate]);
    (destruct (add_event_clicked f); [|discriminate]);
    try (destruct (negb (Py.nonempty _)); [discriminate|]);
    (destruct (generate_event_id _ _) as [i|] eqn:Hgen;
       [cbn [mbind result_bind]|discriminate]);
    intros [= <- <-]; eexists; (split; [reflexivity|]);
    cbn [Event.end_time];
    (destruct (selectbox ends (end_pick f)) as [t|] eqn:Ht; [right|by left]);
    exists st, t; (split; [reflexivity|]); (split; [reflexivity|]);
    exact (end_times_filtered_later st ends t Hends (selectbox_elem _ _ _ Ht)).
Qed.
End add_event_facts.

(** C1.  In every session of the page "Add Event", from any events table
    (whatever identifiers it holds or lacks), the identifiers announced are
    pairwise distinct and none of them was already in the table; and each
    single run announces an identifier that the table did not hold at that
    moment. *)
Theorem add_event_ids_never_reused :
  forall (events_df : list Event.t) (fs : list AddEventForm),
    NoDup (add_event_runs events_df fs).2
    /\ Forall (fun i => Some i ∉ map Event.event_id events_df)
              (add_event_runs events_df fs).2
    /\ forall f, match add_event_run events_df f with
                 | (_, Some i) => Some i ∉ map Event.event_id events_df
                 | (_, None) => True
                 end.
Proof.
  intros events_df fs.
  destruct (add_event_runs_invariant fs events_df) as (Hnd & Hnot & _).
  split; [done|]. split; [by apply Forall_forall|].
  intros f.
  destruct (add_event_run_cases events_df f) as [->|(e & i & -> & _ & Hfresh)]; done.
Qed.

(** The last start time on offer leaves no end time to pick: the event is
    stored without one. *)
Lemma show_add_event_last_slot (events_df events_df' : list Event.t)
    (f : AddEventForm) (new_id : string) :
  selectbox time_options (start_pick f) = Some "17:00" ->
  show_add_event events_df f = Ok (events_df', EventAdded new_id) ->
  exists e, events_df' = events_df ++ [e]
            /\ Event.start_time e = Some "17:00" /\ Event.end_time e = None.
Proof.
  intros Hst. unfold show_add_event. rewrite Hst.
  replace (end_times_filtered (Some "17:00")) with (@Ok (list string) [])
    by (vm_compute; reflexivity).
  destruct (iloc _ 0) as [event_type|]; [cbn [mbind result_bind]|discriminate].
  destruct (negb (String.eqb event_type "grg"));
    (destruct (add_event_clicked f); [|discriminate]);
    try (destruct (negb (Py.nonempty _)); [discriminate|]);
    (destruct (generate_event_id _ _) as [i|]; [cbn [mbind result_bind]|discriminate]);
    intros [= <- <-]; eexists; (split; [reflexivity|]); by split.
Qed.

(** C9.  The page checks that the event name is not blank (a GRG event is
    named "GRG Session") and offers as end times only the times after the
    start time.  With the start time 17:00, the last one of the grid, no
    end time is on offer, and the click on "Add Event" still appends the
    event: it has a non-empty name but no end time, so the invariant
    start_time < end_time does not hold for it. *)
Theorem show_add_event_start_1700 :
  let f := {| type_pick := 0;
              school_name_input := "Hill School";
              event_name_input := "Talk";
              grade_input := "5";
              num_students_input := 20;
              date_input := {| year := 2025; month := 6; day := 2 |};
              start_pick := 18;
              end_pick := 0;
              required_input := 1;
              add_event_clicked := true |} in
  exists e,
    show_add_event [] f = Ok ([e], EventAdded "COR001")
    /\ name_nonempty e
    /\ Event.start_time e = Some "17:00"
    /\ Event.end_time e = None
    /\ ~ times_ordered e.
Proof.
  intros f. eexists. split; [vm_compute; reflexivity|].
  split; [exists "Talk"; by split|].
  split; [reflexivity|]. split; [reflexivity|].
  intros (s & t & _ & Ht & _). discriminate.
Qed.

Example generate_event_id_GRG004 :
  generate_event_id [Some "GRG001"; Some "GRG003"] "GRG" = Ok "GRG004".
Proof. reflexivity. Qed.

Example generate_event_id_no_numeric_suffix :
  generate_event_id [Some "GRG"; Some "GRGx1"; Some "COR007"; None] "GRG" = Ok "GRG001".
Proof. reflexivity. Qed.

(** At CPython's limit of 4300 digits: a suffix of 4300 zeros is read, a
    suffix of 4301 zeros is not. *)
Example generate_event_id_digit_limit :
  generate_event_id [Some ("GRG" +:+ Py.zeros 4300)] "GRG" = Ok "GRG001"
  /\ generate_event_id [Some ("GRG" +:+ Py.zeros 4301)] "GRG" = Raise ValueError.
Proof. split; vm_compute; reflexivity. Qed.

(** C2.  The generator is meant to return the prefix followed by the
    maximum numeric suffix plus one on three digits, and to ignore, without
    an error, the matching identifiers whose suffix is not a number.  A
    suffix made of the superscript digit U+00B2 passes the [isdigit] test of
    the code but is refused by [int]: with the identifiers GRG001 and GRG
    followed by U+00B2 the code raises [ValueError], where it returns GRG002
    for GRG001 alone. *)
Theorem generate_event_id_superscript_suffix :
  let sup2 := String "178"%char EmptyString in
  Py.isdigit sup2 = true
  /\ Py.int sup2 = Raise ValueError
  /\ generate_event_id [Some "GRG001"] "GRG" = Ok "GRG002"
  /\ generate_event_id [Some "GRG001"; Some ("GRG" +:+ sup2)] "GRG" = Raise ValueError.
Proof. repeat split; reflexivity. Qed.

(** ** Page "Add Assignment" *)

Section assignment_facts.

Lemma cell_eqb_true (a b : cell) :
  cell_eqb a b = true <-> exists s, a = Some s /\ b = Some s.
Proof.
  destruct a as [x|], b as [y|]; simpl; split;
    try discriminate; try (intros (s & [=] & [=]); fail).
  - intros H. apply String.eqb_eq in H as ->. by exists y.
  - intros (s & [= ->] & [= ->]). apply String.eqb_refl.
Qed.

Lemma iloc_filter_0 {A} (p : A -> bool) (l : list A) (x : A) :
  iloc (List.filter p l) 0 = Ok x -> x ∈ l /\ p x = true.
Proof.
  unfold iloc. destruct (List.filter p l) as [|y l'] eqn:Hf; [discriminate|].
  simpl. intros [= <-]. apply elem_of_List_filter. rewrite Hf. left.
Qed.

Lemma assign_volunteer_present (assignments_df : list Assignment.t)
    (event_id volunteer : cell) (a : Assignment.t) :
  a ∈ assignments_df -> same_pair event_id volunteer a = true ->
  assign_volunteer assignments_df event_id volunteer
  = (assignments_df, AlreadyAssigned).
Proof.
  intros Hin Hsame. unfold assign_volunteer.
  destruct (List.filter _ _) as [|b l] eqn:Hf; [|reflexivity].
  assert (Ha : a ∈ List.filter (same_pair event_id volunteer) assignments_df)
    by by apply elem_of_List_filter.
  rewrite Hf in Ha. by apply elem_of_nil in Ha.
Qed.

Lemma assign_volunteer_absent (assignments_df : list Assignment.t)
    (event_id volunteer : cell) :
  (forall a, a ∈ assignments_df -> same_pair event_id volunteer a = false) ->
  assign_volunteer assignments_df event_id volunteer
  = (assignments_df ++ [Assignment.mk event_id volunteer],
     VolunteerAssigned volunteer event_id).
Proof.
  intros Hno. unfold assign_volunteer.
  destruct (List.filter _ _) as [|b l] eqn:Hf; [reflexivity|].
  assert (Hb : b ∈ List.filter (same_pair event_id volunteer) assignments_df)
    by (rewrite Hf; left).
  apply elem_of_List_filter in Hb as [Hb Hsame]. rewrite (Hno b Hb) in Hsame.
  discriminate.
Qed.

(** After a successful assignment the same pair is refused. *)
Lemma assign_volunteer_twice (assignments_df assignments_df' : list Assignment.t)
    (e v : string) :
  assign_volunteer assignments_df (Some e) (Some v)
  = (assignments_df', VolunteerAssigned (Some v) (Some e)) ->
  assign_volunteer assignments_df' (Some e) (Some v)
  = (assignments_df', AlreadyAssigned).
Proof.
  unfold assign_volunteer at 1.
  destruct (List.filter _ _); [|discriminate]. intros [= <-].
  apply (assign_volunteer_present _ _ _ (Assignment.mk (Some e) (Some v))).
  - apply elem_of_app. right. left.
  - unfold same_pair. simpl. by rewrite !String.eqb_refl.
Qed.

(** The event the page has selected is one of the events table. *)
Lemma assignment_selection_known (events_df : list Event.t)
    (volunteers_df : list Volunteer.t) (assignments_df : list Assignment.t)
    (f : AssignForm) (event_id volunteer : cell) :
  assignment_selection events_df volunteers_df assignments_df f
  = Ok (inr (event_id, volunteer)) ->
  (exists i, event_id = Some i) /\ event_id ∈ map Event.event_id events_df.
Proof.
  unfold assignment_selection.
  destruct events_df as [|e0 events']; [discriminate|].
  destruct volunteers_df as [|v0 volunteers']; [discriminate|].
  destruct (selectbox _ (event_pick f)) as [[|c shown]|]; try discriminate.
  destruct (display_to_id _ !! _) as [i|]; [cbn [mbind result_bind]|discriminate].
  destruct (iloc _ 0) as [event_info|] eqn:Hinfo;
    [cbn [mbind result_bind]|discriminate].
  destruct (join_names _); [cbn [mbind result_bind]|discriminate].
  intros [= <- <-].
  apply iloc_filter_0 in Hinfo as [Hin Heq].
  apply cell_eqb_true in Heq as (x & Hx & ->).
  split; [by exists x|].
  apply elem_of_map. by exists event_info.
Qed.

Lemma show_add_assignment_duplicate (events_df : list Event.t)
    (volunteers_df : list Volunteer.t) (assignments_df : list Assignment.t)
    (f : AssignForm) (e v : string) :
  assignment_selection events_df volunteers_df assignments_df f
  = Ok (inr (Some e, Some v)) ->
  assign_clicked f = true ->
  Assignment.mk (Some e) (Some v) ∈ assignments_df ->
  show_add_assignment events_df volunteers_df assignments_df f
  = Ok (assignments_df, AlreadyAssigned).
Proof.
  intros Hsel Hclick Hin. unfold show_add_assignment.
  rewrite Hsel. cbn [mbind result_bind]. rewrite Hclick. f_equal.
  apply (assign_volunteer_present _ _ _ _ Hin).
  unfold same_pair. simpl. by rewrite !String.eqb_refl.
Qed.
End assignment_facts.

(** C6.  Whenever the pair (event_id, volunteer) is already a row of the
    assignments table, assigning that pair is refused with the warning
    "already assigned" and the table is returned as it was, same rows in
    the same order; so does the page when that pair is selected and the
    button is clicked. *)
Theorem assign_volunteer_duplicate :
  forall (assignments_df : list Assignment.t) (e v : string),
    Assignment.mk (Some e) (Some v) ∈ assignments_df ->
    assign_volunteer assignments_df (Some e) (Some v)
    = (assignments_df, AlreadyAssigned)
    /\ forall (events_df : list Event.t) (volunteers_df : list Volunteer.t)
              (f : AssignForm),
         assignment_selection events_df volunteers_df assignments_df f
         = Ok (inr (Some e, Some v)) ->
         assign_clicked f = true ->
         show_add_assignment events_df volunteers_df assignments_df f
         = Ok (assignments_df, AlreadyAssigned).
Proof.
  intros assignments_df e v Hin. split.
  - apply (assign_volunteer_present _ _ _ _ Hin).
    unfold same_pair. simpl. by rewrite !String.eqb_refl.
  - intros events_df volunteers_df f Hsel Hclick.
    by apply (show_add_assignment_duplicate _ _ _ _ e v).
Qed.

Lemma assign_volunteer_duplicate_witness :
  let events_df :=
    [Event.mk (Some "COR001") (Some "course") (Some "Hill School") (Some "Talk")
              (Some "5") 20 (Some "2025-06-02") (Some "10:00") (Some "11:00") 1] in
  let volunteers_df := [Volunteer.mk (Some "Alice") (Some "Moss") None] in
  let assignments_df :=
    [Assignment.mk (Some "COR001") (Some "Alice Moss");
     Assignment.mk (Some "GRG001") (Some "Bob Ray")] in
  let f := {| event_pick := 0; volunteer_pick := 0; assign_clicked := true |} in
  Assignment.mk (Some "COR001") (Some "Alice Moss") ∈ assignments_df
  /\ assign_volunteer assignments_df (Some "COR001") (Some "Alice Moss")
     = (assignments_df, AlreadyAssigned)
  /\ show_add_assignment events_df volunteers_df assignments_df f
     = Ok (assignments_df, AlreadyAssigned).
Proof.
  intros events_df volunteers_df assignments_df f.
  assert (H : Assignment.mk (Some "COR001") (Some "Alice Moss") ∈ assignments_df)
    by left.
  destruct (assign_volunteer_duplicate assignments_df "COR001" "Alice Moss" H)
    as [Hwrite Hpage].
  split; [exact H|]. split; [exact Hwrite|].
  apply Hpage; reflexivity.
Defined.

Section run_add_assignment_facts.



(** A selection that stops the page stops it with one of three messages. *)
Lemma assignment_selection_stopped (events_df : list Event.t)
    (volunteers_df : list Volunteer.t) (assignments_df : list Assignment.t)
    (f : AssignForm) (stopped : AssignReport) :
  assignment_selection events_df volunteers_df assignments_df f = Ok (inl stopped) ->
  stopped = NoEventsAvailable \/ stopped = NoVolunteersAvailable
  \/ stopped = NothingSelected.
Proof.
  unfold assignment_selection.
  destruct events_df as [|e0 events']; [intros [= <-]; by left|].
  destruct volunteers_df as [|v0 volunteers']; [intros [= <-]; right; by left|].
  destruct (selectbox _ (event_pick f)) as [[|c shown]|];
    try (intros [= <-]; right; by right).
  destruct (display_to_id _ !! _) as [i|]; [cbn [mbind result_bind]|discriminate].
  destruct (iloc _ 0); [cbn [mbind result_bind]|discriminate].
  destruct (join_names _); [cbn [mbind result_bind]|discriminate].
  discriminate.
Qed.


(** What a run of the page that assigns has done. *)
Lemma show_add_assignment_assigned (events_df : list Event.t)
    (volunteers_df : list Volunteer.t) (assignments_df assignments_df' : list Assignment.t)
    (f : AssignForm) (event_id volunteer : cell) :
  show_add_assignment events_df volunteers_df assignments_df f
  = Ok (assignments_df', VolunteerAssigned volunteer event_id) ->
  assignment_selection events_df volunteers_df assignments_df f
  = Ok (inr (event_id, volunteer))
  /\ assign_clicked f = true
  /\ assignments_df' = assignments_df ++ [Assignment.mk event_id volunteer].
Proof.
  unfold show_add_assignment.
  destruct (assignment_selection _ _ _ f) as [[stopped|[sel_e sel_v]]|] eqn:Hsel;
    cbn [mbind result_bind]; [| |discriminate].
  - intros [= _ ->].
    by apply assignment_selection_stopped in Hsel as [?|[?|?]].
  - destruct (assign_clicked f); [|discriminate].
    unfold assign_volunteer. destruct (List.filter _ _); [|discriminate].
    by intros [= <- <- <-].
Qed.

(** Any other run of the page returns the table it was given. *)
Lemma show_add_assignment_not_assigned (events_df : list Event.t)
    (volunteers_df : list Volunteer.t) (assignments_df assignments_df' : list Assignment.t)
    (f : AssignForm) (r : AssignReport) :
  show_add_assignment events_df volunteers_df assignments_df f = Ok (assignments_df', r) ->
  (exists volunteer event_id, r = VolunteerAssigned volunteer event_id)
  \/ assignments_df' = assignments_df.
Proof.
  unfold show_add_assignment.
  destruct (assignment_selection _ _ _ f) as [[stopped|[sel_e sel_v]]|];
    cbn [mbind result_bind]; [by intros [= <- _]; right| |discriminate].
  destruct (assign_clicked f); [|by intros [= <- _]; right].
  unfold assign_volunteer. destruct (List.filter _ _); intros [= <- <-];
    [left; by eexists _, _ | by right].
Qed.

End run_add_assignment_facts.



(** ** Volunteer names *)

Section name_map_facts.

Lemma name_map_fold_origin (volunteers_df : list Volunteer.t) :
  forall (m : gmap string string) (k x : string),
    fold_left name_map_step volunteers_df m !! k = Some x ->
    m !! k = Some x
    \/ exists w, w ∈ volunteers_df /\ name_key w = k /\ Volunteer.full_name w = x.
Proof.
  induction volunteers_df as [|v vs IH]; intros m k x; simpl; [by left|].
  intros Hk. apply IH in Hk as [Hk|(w & Hw & Hkey & Hname)].
  - unfold name_map_step in Hk.
    destruct (decide (name_key v = k)) as [Heq|Hne].
    + rewrite Heq, lookup_insert_eq in Hk. injection Hk as <-.
      right. exists v. split; [left | done].
    + rewrite lookup_insert_ne in Hk by done. by left.
  - right. exists w. split; [by right | done].
Qed.

Lemma name_map_fold_keeps (volunteers_df : list Volunteer.t) :
  forall (m : gmap string string) (k : string),
    is_Some (m !! k) -> is_Some (fold_left name_map_step volunteers_df m !! k).
Proof.
  induction volunteers_df as [|v vs IH]; intros m k Hk; simpl; [done|].
  apply IH. unfold name_map_step.
  destruct (decide (name_key v = k)) as [Heq|Hne].
  - rewrite Heq, lookup_insert_eq. by eexists.
  - by rewrite lookup_insert_ne.
Qed.

Lemma name_map_fold_key (volunteers_df : list Volunteer.t) :
  forall (m : gmap string string) (v : Volunteer.t),
    v ∈ volunteers_df ->
    is_Some (fold_left name_map_step volunteers_df m !! name_key v).
Proof.
  induction volunteers_df as [|w vs IH]; intros m v Hv; simpl.
  - by apply elem_of_nil in Hv.
  - apply elem_of_cons in Hv as [->|Hv]; [|by apply IH].
    apply name_map_fold_keeps. unfold name_map_step.
    rewrite lookup_insert_eq. by eexists.
Qed.

(** Every entry of the table comes from a row: its key is the alias of the
    row, or its full name when the alias is blank. *)
Lemma name_map_origin (volunteers_df : list Volunteer.t) (k x : string) :
  name_map volunteers_df !! k = Some x ->
  exists w, w ∈ volunteers_df /\ name_key w = k /\ Volunteer.full_name w = x.
Proof.
  intros Hk. apply name_map_fold_origin in Hk as [Hk|Hk]; [|done].
  by rewrite lookup_empty in Hk.
Qed.

Lemma name_map_key (volunteers_df : list Volunteer.t) (v : Volunteer.t) :
  v ∈ volunteers_df -> is_Some (name_map volunteers_df !! name_key v).
Proof. apply name_map_fold_key. Qed.
End name_map_facts.

(** C10, as stated, fails when another row is keyed by the same string:
    the later row replaces the entry, and the full name of the volunteer
    with the blank alias resolves to the other volunteer. *)
Lemma resolve_full_name_overwritten :
  let al := Volunteer.mk (Some "Al") (Some "Brown") None in
  let bo := Volunteer.mk (Some "Bo") (Some "Clark") (Some "Al Brown") in
  Volunteer.alias al = None
  /\ Volunteer.full_name al = "Al Brown"
  /\ resolve_volunteer (name_map [al; bo]) (Some (Volunteer.full_name al))
     = Some "Bo Clark".
Proof. repeat split; vm_compute; reflexivity. Qed.

(** C10, amended.  A raw name is stripped of outer whitespace before the
    lookup, and when the stripped name is no key the raw value is kept as it
    is.  A volunteer whose alias is blank is keyed by their own full name;
    that full name resolves to itself provided no row of the volunteer
    table is keyed by its stripped form under a different full name (rows
    with the same key replace one another, the last one wins). *)
Theorem resolve_volunteer_full_name :
  forall (volunteers_df : list Volunteer.t) (v : Volunteer.t) (raw : string),
    v ∈ volunteers_df ->
    Volunteer.alias v = None ->
    (forall w, w ∈ volunteers_df ->
               name_key w = Py.strip (Volunteer.full_name v) ->
               Volunteer.full_name w = Volunteer.full_name v) ->
    resolve_volunteer (name_map volunteers_df) (Some raw)
    = Some (default raw (name_map volunteers_df !! Py.strip raw))
    /\ name_key v = Volunteer.full_name v
    /\ is_Some (name_map volunteers_df !! Volunteer.full_name v)
    /\ resolve_volunteer (name_map volunteers_df) (Some (Volunteer.full_name v))
       = Some (Volunteer.full_name v).
Proof.
  intros volunteers_df v raw Hv Halias Hkeys.
  assert (Hkey : name_key v = Volunteer.full_name v)
    by (unfold name_key; by rewrite Halias).
  split; [|split; [done|split]].
  - unfold resolve_volunteer. by destruct (name_map volunteers_df !! Py.strip raw).
  - rewrite <- Hkey. by apply name_map_key.
  - unfold resolve_volunteer.
    destruct (name_map volunteers_df !! Py.strip (Volunteer.full_name v)) as [x|] eqn:Hx;
      [|done].
    apply name_map_origin in Hx as (w & Hw & Hwk & <-).
    f_equal. by apply Hkeys.
Qed.

Lemma resolve_volunteer_full_name_witness :
  let al := Volunteer.mk (Some "Al") (Some "Brown") None in
  let bo := Volunteer.mk (Some "Bo ") (Some "Clark") (Some "Bobby") in
  al ∈ [al; bo]
  /\ Volunteer.alias al = None
  /\ (forall w, w ∈ [al; bo] ->
                name_key w = Py.strip (Volunteer.full_name al) ->
                Volunteer.full_name w = Volunteer.full_name al)
  /\ resolve_volunteer (name_map [al; bo]) (Some "  Bobby ") = Some "Bo Clark"
  /\ resolve_volunteer (name_map [al; bo]) (Some " Zed ") = Some " Zed "
  /\ resolve_volunteer (name_map [al; bo]) (Some "Al Brown") = Some "Al Brown".
Proof.
  intros al bo.
  assert (Hal : al ∈ [al; bo]) by left.
  assert (Hkeys : forall w, w ∈ [al; bo] ->
                            name_key w = Py.strip (Volunteer.full_name al) ->
                            Volunteer.full_name w = Volunteer.full_name al).
  { intros w Hw. apply elem_of_cons in Hw as [->|Hw]; [done|].
    apply list_elem_of_singleton in Hw as ->. vm_compute. discriminate. }
  pose proof (resolve_volunteer_full_name [al; bo] al "  Bobby " Hal eq_refl Hkeys)
    as (H1 & _ & _ & H3).
  pose proof (resolve_volunteer_full_name [al; bo] al " Zed " Hal eq_refl Hkeys)
    as (H2 & _).
  split; [exact Hal|]. split; [reflexivity|]. split; [exact Hkeys|].
  split; [exact H1|]. split; [exact H2 | exact H3].
Defined.

(** ** Required against assigned volunteers *)

Section reconcile_facts.

Lemma count_assigned_cons (i : cell) (a : Assignment.t) (l : list Assignment.t) :
  count_assigned i (a :: l)
  = ((if cell_eqb (Assignment.event_id a) i then 1 else 0) + count_assigned i l)%Z.
Proof.
  unfold count_assigned. simpl.
  destruct (cell_eqb (Assignment.event_id a) i); simpl length; lia.
Qed.

Lemma count_assigned_nonneg (i : cell) (l : list Assignment.t) :
  (0 <= count_assigned i l)%Z.
Proof. unfold count_assigned. lia. Qed.

(** The dictionary of group sizes holds, for each identifier, the number
    of rows that carry it. *)
Lemma assigned_counts_fold (assignments_df : list Assignment.t) :
  forall (m : gmap string Z) (i : string),
    default 0%Z (fold_left count_row assignments_df m !! i)
    = (default 0 (m !! i) + count_assigned (Some i) assignments_df)%Z.
Proof.
  induction assignments_df as [|a l IH]; intros m i.
  - simpl. unfold count_assigned. simpl. lia.
  - cbn [fold_left]. rewrite IH, count_assigned_cons.
    unfold count_row. destruct (Assignment.event_id a) as [j|]; simpl; [|lia].
    destruct (String.eqb_spec j i) as [->|Hne].
    + rewrite lookup_insert_eq. simpl. lia.
    + rewrite lookup_insert_ne by done. lia.
Qed.

Lemma assigned_counts_lookup (assignments_df : list Assignment.t) (i : string) :
  default 0%Z (assigned_counts assignments_df !! i)
  = count_assigned (Some i) assignments_df.
Proof.
  unfold assigned_counts. rewrite assigned_counts_fold, lookup_empty. simpl. lia.
Qed.

Lemma count_assigned_missing (l : list Assignment.t) : count_assigned None l = 0%Z.
Proof.
  induction l as [|a l IH]; [reflexivity|].
  rewrite count_assigned_cons, IH. by destruct (Assignment.event_id a).
Qed.
End reconcile_facts.

(** C8.  On the summary page every row reports as assigned the number of
    assignment rows whose event_id equals the one of the event, and as
    still required max(required - assigned, 0), which is never negative; the
    details page computes the same two numbers; an event that requires 2
    volunteers and has 5 assignments shows assigned 5 and still required
    0. *)
Theorem reconcile_counts :
  (forall (filtered_events : list Event.t) (assignments_df : list Assignment.t),
      map row_event (show_event_summary_rows filtered_events assignments_df) = filtered_events
      /\ Forall (fun row =>
                   assigned row
                   = count_assigned (Event.event_id (row_event row)) assignments_df
                   /\ still_required row
                      = Z.max (Event.required (row_event row) - assigned row) 0
                   /\ (0 <= still_required row)%Z)
                (show_event_summary_rows filtered_events assignments_df))
  /\ (forall (event : Event.t) (event_id : string) (assignments_df : list Assignment.t),
        let '(assigned_count, still) :=
          show_event_details_counts event event_id assignments_df in
        assigned_count = count_assigned (Some event_id) assignments_df
        /\ still = Z.max (Event.required event - assigned_count) 0
        /\ (0 <= still)%Z)
  /\ (let event := Event.mk (Some "COR001") (Some "course") (Some "Hill School")
                            (Some "Talk") (Some "5") 20 (Some "2025-06-02")
                            (Some "10:00") (Some "11:00") 2 in
      let assignments_df :=
        map (fun v => Assignment.mk (Some "COR001") (Some v))
            ["Ann"; "Ben"; "Cy"; "Dee"; "Eli"] in
      map (fun row => (assigned row, still_required row))
          (show_event_summary_rows [event] assignments_df) = [(5, 0)%Z]
      /\ show_event_details_counts event "COR001" assignments_df = (5, 0)%Z).
Proof.
  split; [|split].
  - intros filtered_events assignments_df. unfold show_event_summary_rows. split.
    + rewrite map_map. simpl. apply map_id.
    + apply Forall_forall. intros row Hrow.
      apply elem_of_map in Hrow as (e & <- & _). cbn [assigned still_required row_event].
      assert (Hcount :
                match Event.event_id e with
                | Some i => default 0%Z (assigned_counts assignments_df !! i)
                | None => 0%Z
                end = count_assigned (Event.event_id e) assignments_df).
      { destruct (Event.event_id e) as [i|].
        - apply assigned_counts_lookup.
        - by rewrite count_assigned_missing. }
      rewrite Hcount. split; [done|].
      destruct (Z.ltb_spec 0 (Event.required e
                              - count_assigned (Event.event_id e) assignments_df)); lia.
  - intros event event_id assignments_df. unfold show_event_details_counts.
    rewrite length_map. fold (count_assigned (Some event_id) assignments_df).
    split; [done|]. split; [done | lia].
  - split; vm_compute; reflexivity.
Qed.

(** ** Conflict checker *)

Section unique_facts.
Context {A : Type} `{EqDecision A}.

Lemma elem_of_unique_from (seen l : list A) (x : A) :
  x ∈ unique_from seen l <-> x ∈ l /\ x ∉ seen.
Proof.
  revert seen. induction l as [|y l IH]; intros seen; simpl.
  - split; [intros H; by apply elem_of_nil in H | intros [H _]; by apply elem_of_nil in H].
  - destruct (decide (y ∈ seen)) as [Hy|Hy].
    + rewrite IH, elem_of_cons. split; [intros [? ?]; by auto|].
      intros [[->|?] ?]; [done | by split].
    + rewrite !elem_of_cons, IH, not_elem_of_cons. split.
      * intros [->|(? & ? & ?)]; [by split; [left|] | by split; [right|]].
      * intros [[->|Hx] Hs]; [by left|].
        destruct (decide (x = y)) as [->|Hne]; [by left | by right].
Qed.

Lemma NoDup_unique_from (seen l : list A) : NoDup (unique_from seen l).
Proof.
  revert seen. induction l as [|y l IH]; intros seen; simpl; [constructor|].
  destruct (decide (y ∈ seen)); [apply IH|].
  apply NoDup_cons. split; [|apply IH].
  rewrite elem_of_unique_from, not_elem_of_cons. intros (_ & ? & _). done.
Qed.

Lemma elem_of_unique (l : list A) (x : A) : x ∈ unique l <-> x ∈ l.
Proof.
  unfold unique. rewrite elem_of_unique_from. split; [by intros [? _]|].
  intros ?. split; [done|]. apply not_elem_of_nil.
Qed.

Lemma NoDup_unique (l : list A) : NoDup (unique l).
Proof. apply NoDup_unique_from. Qed.
End unique_facts.

Lemma length_unique_size (l : list string) :
  length (unique l) = size (list_to_set l : gset string).
Proof.
  rewrite <- (size_list_to_set (C := gset string) (unique l)) by apply NoDup_unique.
  f_equal. apply set_eq. intros x.
  by rewrite !elem_of_list_to_set, elem_of_unique.
Qed.

Section overlap_facts.

(** The comparison of the loop is the one of the specification. *)
Lemma ts_gtb_ends_after_start (prev curr : Entry.t) :
  ts_gtb (Entry.datetime_end prev) (Entry.datetime_start curr)
  = bool_decide (ends_after_start prev curr).
Proof.
  unfold ts_gtb.
  destruct (Entry.datetime_end prev) as [e|] eqn:He;
    [|symmetry; apply bool_decide_eq_false; unfold ends_after_start; rewrite He;
      by intros (? & ? & [=] & _)].
  destruct (Entry.datetime_start curr) as [s|] eqn:Hs;
    [|symmetry; apply bool_decide_eq_false; unfold ends_after_start; rewrite Hs;
      by intros (? & ? & _ & [=] & _)].
  destruct (Z.ltb_spec s e) as [Hlt|Hge]; symmetry.
  - apply bool_decide_eq_true. exists e, s. repeat split; [done..|lia].
  - apply bool_decide_eq_false. unfold ends_after_start. rewrite He, Hs.
    intros (? & ? & [= <-] & [= <-] & ?). lia.
Qed.

Lemma iloc_middle {A} (pre : list A) (x : A) (rest : list A) :
  iloc (pre ++ x :: rest) (length pre) = Ok x.
Proof. unfold iloc. by rewrite list_lookup_middle. Qed.

(** The index loop visits the consecutive rows, and nothing else. *)
Lemma overlap_loop_suffix (name : cell) (rest : list Entry.t) :
  forall (pre : list Entry.t) (x : Entry.t),
    overlap_loop name (pre ++ x :: rest) (seq (S (length pre)) (length rest))
    = Ok (pair_messages name (adjacent_pairs (x :: rest))).
Proof.
  induction rest as [|y rest IH]; intros pre x; [reflexivity|].
  cbn [length seq overlap_loop].
  replace (S (length pre) - 1)%nat with (length pre) by lia.
  rewrite iloc_middle. cbn [mbind result_bind].
  replace (pre ++ x :: y :: rest) with ((pre ++ [x]) ++ y :: rest)
    by (by rewrite <- app_assoc).
  replace (S (length pre)) with (length (pre ++ [x]))
    by (rewrite length_app; simpl; lia).
  rewrite iloc_middle. cbn [mbind result_bind].
  rewrite IH. cbn [mbind result_bind].
  unfold pair_messages. cbn [adjacent_pairs List.filter fst snd].
  rewrite <- ts_gtb_ends_after_start.
  by destruct (ts_gtb (Entry.datetime_end x) (Entry.datetime_start y)).
Qed.

Lemma overlap_loop_adjacent (name : cell) (sub : list Entry.t) :
  overlap_loop name sub (seq 1 (length sub - 1))
  = Ok (pair_messages name (adjacent_pairs sub)).
Proof.
  destruct sub as [|x rest]; [reflexivity|].
  cbn [length]. replace (S (length rest) - 1)%nat with (length rest) by lia.
  apply (overlap_loop_suffix name rest [] x).
Qed.

Lemma volunteer_overlaps_spec (filtered_df : list Entry.t) (name : cell) :
  volunteer_overlaps filtered_df name = Ok (spec_volunteer_overlaps filtered_df name).
Proof. unfold volunteer_overlaps. apply overlap_loop_adjacent. Qed.

Lemma overlaps_for_spec (filtered_df : list Entry.t) (names : list cell) :
  overlaps_for filtered_df names
  = Ok (flat_map (spec_volunteer_overlaps filtered_df) names).
Proof.
  induction names as [|name names IH]; [reflexivity|].
  cbn [overlaps_for flat_map]. rewrite volunteer_overlaps_spec, IH. reflexivity.
Qed.

(** The loop of the page computes the conflicts of the specification;
    in particular it never raises. *)
Lemma overlap_conflicts_spec (filtered_df : list Entry.t) :
  overlap_conflicts filtered_df = Ok (spec_overlap_conflicts filtered_df).
Proof. apply overlaps_for_spec. Qed.

Lemma find_conflicts_spec (filtered_df : list Entry.t) :
  find_conflicts filtered_df
  = Ok (spec_overlap_conflicts filtered_df ++ capacity_conflicts filtered_df).
Proof. unfold find_conflicts. by rewrite overlap_conflicts_spec. Qed.
End overlap_facts.

Section sort_facts.

#[local] Instance start_le_total : Total start_le.
Proof. intros a b. unfold start_le. lia. Qed.

#[local] Instance start_le_trans : Transitive start_le.
Proof. intros a b c. unfold start_le. lia. Qed.

Lemma filter_partition_Permutation {A} (p : A -> bool) (l : list A) :
  List.filter p l ++ List.filter (fun x => negb (p x)) l ≡ₚ l.
Proof.
  induction l as [|x l IH]; [reflexivity|]. simpl.
  destruct (p x); simpl.
  - by rewrite IH.
  - rewrite <- Permutation_middle. by rewrite IH.
Qed.

Lemma insert_by_start_Permutation (e : Entry.t) (rows : list Entry.t) :
  insert_by_start e rows ≡ₚ e :: rows.
Proof.
  induction rows as [|x rest IH]; [reflexivity|]. cbn [insert_by_start].
  destruct (decide (start_le e x)); [reflexivity|].
  rewrite IH. apply perm_swap.
Qed.

Lemma foldr_insert_Permutation (rows : list Entry.t) :
  foldr insert_by_start [] rows ≡ₚ rows.
Proof.
  induction rows as [|x rest IH]; [reflexivity|]. cbn [foldr].
  by rewrite insert_by_start_Permutation, IH.
Qed.

Lemma sort_values_by_start_Permutation (sub : list Entry.t) :
  sort_values_by_start sub ≡ₚ sub.
Proof.
  unfold sort_values_by_start.
  rewrite foldr_insert_Permutation. apply filter_partition_Permutation.
Qed.

Lemma insert_by_start_sorted (e : Entry.t) (rows : list Entry.t) :
  StronglySorted start_le rows -> StronglySorted start_le (insert_by_start e rows).
Proof.
  induction 1 as [|x rest Hs IH Hx]; cbn [insert_by_start].
  - repeat constructor.
  - destruct (decide (start_le e x)) as [Hex|Hex].
    + constructor; [by constructor|]. constructor; [done|].
      eapply Forall_impl; [exact Hx|]. intros y Hy. by transitivity x.
    + constructor; [done|].
      rewrite insert_by_start_Permutation. constructor; [|done].
      destruct (total start_le e x); done.
Qed.

Lemma foldr_insert_sorted (rows : list Entry.t) :
  StronglySorted start_le (foldr insert_by_start [] rows).
Proof.
  induction rows as [|x rest IH]; [constructor|].
  cbn [foldr]. by apply insert_by_start_sorted.
Qed.

Lemma StronglySorted_start_order_started (l : list Entry.t) :
  Forall (fun e => has_start e = true) l ->
  StronglySorted start_le l -> StronglySorted start_order l.
Proof.
  intros Hall Hs. induction Hs as [|x l Hs IH Hx]; [constructor|].
  apply Forall_cons in Hall as [Hxs Hall].
  constructor; [by apply IH|].
  rewrite Forall_forall in Hx, Hall |- *. intros y Hy.
  specialize (Hx y Hy). specialize (Hall y Hy).
  unfold start_order, start_le, start_key, has_start in *.
  destruct (Entry.datetime_start x), (Entry.datetime_start y); done.
Qed.

Lemma StronglySorted_start_order_unstarted (l : list Entry.t) :
  Forall (fun e => has_start e = false) l -> StronglySorted start_order l.
Proof.
  induction 1 as [|x l Hx Hall IH]; constructor; [done|].
  eapply Forall_impl; [exact Hall|]. intros y Hy.
  unfold start_order, has_start in *.
  destruct (Entry.datetime_start x), (Entry.datetime_start y); done.
Qed.

(** The sorted table is in ascending order of start, rows without a start
    at the end. *)
Lemma sort_values_by_start_sorted (sub : list Entry.t) :
  StronglySorted start_order (sort_values_by_start sub).
Proof.
  unfold sort_values_by_start.
  assert (Hstarted : Forall (fun e => has_start e = true)
                            (foldr insert_by_start [] (List.filter has_start sub))).
  { apply Forall_forall. intros e He.
    rewrite foldr_insert_Permutation in He.
    by apply elem_of_List_filter in He as [_ He]. }
  assert (Hun : Forall (fun e => has_start e = false)
                       (List.filter (fun e => negb (has_start e)) sub)).
  { apply Forall_forall. intros e He.
    apply elem_of_List_filter in He as [_ He]. by apply negb_true_iff. }
  apply StronglySorted_app. split; [|split].
  - intros a b Ha Hb.
    rewrite Forall_forall in Hstarted, Hun.
    specialize (Hstarted a Ha). specialize (Hun b Hb).
    unfold start_order, has_start in *.
    destruct (Entry.datetime_start a), (Entry.datetime_start b); done.
  - apply StronglySorted_start_order_started; [done|].
    apply foldr_insert_sorted.
  - by apply StronglySorted_start_order_unstarted.
Qed.

(** The sort is stable: the rows with one and the same start (or all
    without a start) stand in the sorted table in the order they have in
    the table. *)
Lemma insert_by_start_same_start (t : timestamp) (e : Entry.t) (rows : list Entry.t) :
  has_start e = true -> Forall (fun x => has_start x = true) rows ->
  List.filter (fun x => bool_decide (Entry.datetime_start x = t)) (insert_by_start e rows)
  = List.filter (fun x => bool_decide (Entry.datetime_start x = t)) (e :: rows).
Proof.
  intros He. induction 1 as [|x rest Hx Hall IH]; [reflexivity|].
  cbn [insert_by_start]. destruct (decide (start_le e x)) as [Hex|Hex]; [reflexivity|].
  cbn [List.filter] in IH |- *. rewrite IH.
  destruct (bool_decide (Entry.datetime_start x = t)) eqn:Hxt; [|reflexivity].
  destruct (bool_decide (Entry.datetime_start e = t)) eqn:Het; [|reflexivity].
  apply bool_decide_eq_true in Hxt, Het. exfalso. apply Hex.
  unfold start_le, start_key. rewrite Hxt, Het. lia.
Qed.

Lemma foldr_insert_same_start (t : timestamp) (rows : list Entry.t) :
  Forall (fun x => has_start x = true) rows ->
  List.filter (fun x => bool_decide (Entry.datetime_start x = t))
              (foldr insert_by_start [] rows)
  = List.filter (fun x => bool_decide (Entry.datetime_start x = t)) rows.
Proof.
  induction 1 as [|x rest Hx Hall IH]; [reflexivity|]. cbn [foldr].
  rewrite insert_by_start_same_start; [by cbn [List.filter]; rewrite IH | done |].
  apply Forall_forall. intros y Hy. rewrite foldr_insert_Permutation in Hy.
  rewrite Forall_forall in Hall. by apply Hall.
Qed.

Lemma sort_values_by_start_stable (sub : list Entry.t) (t : timestamp) :
  List.filter (fun x => bool_decide (Entry.datetime_start x = t))
              (sort_values_by_start sub)
  = List.filter (fun x => bool_decide (Entry.datetime_start x = t)) sub.
Proof.
  unfold sort_values_by_start. rewrite List.filter_app.
  rewrite foldr_insert_same_start
    by (apply Forall_forall; intros x Hx; by apply elem_of_List_filter in Hx as [_ ?]).
  rewrite !filter_filter.
  destruct t as [z|].
  - rewrite (List_filter_nil
               (fun x => negb (has_start x) && bool_decide (Entry.datetime_start x = Some z))).
    + rewrite app_nil_r. apply List_filter_ext. intros x. unfold has_start.
      destruct (Entry.datetime_start x) as [y|]; [reflexivity|].
      symmetry. by apply bool_decide_eq_false.
    + intros x _. unfold has_start.
      destruct (Entry.datetime_start x) as [y|]; [reflexivity|].
      by apply bool_decide_eq_false.
  - rewrite (List_filter_nil
               (fun x => has_start x && bool_decide (Entry.datetime_start x = None))).
    + apply List_filter_ext. intros x. unfold has_start.
      by destruct (Entry.datetime_start x).
    + intros x _. unfold has_start.
      destruct (Entry.datetime_start x) as [y|]; [|reflexivity].
      by apply bool_decide_eq_false.
Qed.

End sort_facts.

Section capacity_facts.

Lemma NoDup_all_eq {A} (l : list A) (x : A) :
  NoDup l -> (forall y, y ∈ l -> y = x) -> l = [] \/ l = [x].
Proof.
  intros Hnd Hall. destruct l as [|y l]; [by left|]. right.
  assert (y = x) as -> by (apply Hall; left).
  destruct l as [|z l]; [done|].
  assert (z = x) as -> by (apply Hall; right; left).
  apply NoDup_cons in Hnd as [Hnot _]. exfalso. apply Hnot. left.
Qed.

Lemma volunteer_count_distinct (filtered_df : list Entry.t) (event_id date : string) :
  volunteer_count (List.filter is_grg filtered_df) (event_id, date)
  = distinct_volunteers filtered_df event_id date.
Proof.
  unfold volunteer_count, distinct_volunteers.
  by rewrite length_unique_size, filter_filter.
Qed.

Lemma group_keys_NoDup (grg_df : list Entry.t) :
  NoDup (merge_sort key_le (unique (omap group_key grg_df))).
Proof.
  rewrite merge_sort_Permutation. apply NoDup_unique.
Qed.

Lemma elem_of_group_keys (grg_df : list Entry.t) (k : string * string) :
  k ∈ merge_sort key_le (unique (omap group_key grg_df))
  <-> exists e, e ∈ grg_df /\ group_key e = Some k.
Proof.
  rewrite merge_sort_Permutation, elem_of_unique. apply list_elem_of_omap.
Qed.

(** A group with a volunteer in it has a row of the grouped table. *)
Lemma distinct_volunteers_group (filtered_df : list Entry.t) (event_id date : string) :
  (0 < distinct_volunteers filtered_df event_id date)%nat ->
  exists e, e ∈ List.filter is_grg filtered_df /\ group_key e = Some (event_id, date).
Proof.
  unfold distinct_volunteers. intros Hpos.
  apply size_pos_elem_of in Hpos as [v Hv].
  apply elem_of_list_to_set, list_elem_of_omap in Hv as (e & He & _).
  apply elem_of_List_filter in He as [He Hp].
  apply andb_true_iff in Hp as [Hgrg Hgroup].
  exists e. split; [by apply elem_of_List_filter|].
  unfold in_group in Hgroup. by apply bool_decide_eq_true in Hgroup.
Qed.

(** The overbooking messages: one per group key, with the number of
    distinct volunteers of the group, when that number exceeds two. *)
Lemma elem_of_capacity_conflicts (filtered_df : list Entry.t) (c : Conflict) :
  c ∈ capacity_conflicts filtered_df
  <-> exists event_id date,
        c = Overbooked event_id date (distinct_volunteers filtered_df event_id date)
        /\ (2 < distinct_volunteers filtered_df event_id date)%nat.
Proof.
  unfold capacity_conflicts, grg_counts. split.
  - intros Hc. apply elem_of_map in Hc as ([[i d] n] & <- & Hrow).
    apply elem_of_List_filter in Hrow as [Hrow Hn].
    apply elem_of_map in Hrow as (k & [= -> <-] & _).
    cbn [fst snd] in Hn |- *. exists i, d.
    rewrite volunteer_count_distinct in Hn. rewrite volunteer_count_distinct.
    split; [done|]. by apply Nat.ltb_lt.
  - intros (i & d & -> & Hn).
    apply elem_of_map.
    exists ((i, d), volunteer_count (List.filter is_grg filtered_df) (i, d)).
    cbn [fst snd]. split; [by rewrite volunteer_count_distinct|].
    apply elem_of_List_filter. cbn [fst snd].
    split; [|rewrite volunteer_count_distinct; by apply Nat.ltb_lt].
    apply elem_of_map. exists (i, d). split; [done|].
    apply elem_of_group_keys. apply distinct_volunteers_group. lia.
Qed.

Lemma NoDup_capacity_conflicts (filtered_df : list Entry.t) :
  NoDup (capacity_conflicts filtered_df).
Proof.
  unfold capacity_conflicts, grg_counts.
  apply NoDup_map_inj.
  - intros [[i d] n] [[i' d'] n'] [= -> -> ->]. done.
  - apply NoDup_List_filter, NoDup_map_inj.
    + intros k k' [= ->]. done.
    + apply group_keys_NoDup.
Qed.

(** Exactly one message for a group over capacity, none otherwise. *)
Lemma capacity_conflicts_for (filtered_df : list Entry.t) (event_id date : string) :
  List.filter (overbooked_for event_id date) (capacity_conflicts filtered_df)
  = if (2 <? distinct_volunteers filtered_df event_id date)%nat
    then [Overbooked event_id date (distinct_volunteers filtered_df event_id date)]
    else [].
Proof.
  set (n := distinct_volunteers filtered_df event_id date).
  destruct (NoDup_all_eq
              (List.filter (overbooked_for event_id date) (capacity_conflicts filtered_df))
              (Overbooked event_id date n)) as [Hnil|Hone].
  - apply NoDup_List_filter, NoDup_capacity_conflicts.
  - intros c Hc. apply elem_of_List_filter in Hc as [Hc Hfor].
    apply elem_of_capacity_conflicts in Hc as (i & d & -> & _).
    simpl in Hfor. apply andb_true_iff in Hfor as [Hi Hd].
    apply String.eqb_eq in Hi as ->. by apply String.eqb_eq in Hd as ->.
  - rewrite Hnil. destruct (Nat.ltb_spec 2 n) as [Hn|Hn]; [|done].
    assert (Hin : Overbooked event_id date n
                  ∈ List.filter (overbooked_for event_id date)
                                (capacity_conflicts filtered_df)).
    { apply elem_of_List_filter. split.
      - apply elem_of_capacity_conflicts. by exists event_id, date.
      - simpl. by rewrite !String.eqb_refl. }
    rewrite Hnil in Hin. by apply elem_of_nil in Hin.
  - rewrite Hone. destruct (Nat.ltb_spec 2 n) as [Hn|Hn]; [done|].
    assert (Hin : Overbooked event_id date n
                  ∈ List.filter (overbooked_for event_id date)
                                (capacity_conflicts filtered_df))
      by (rewrite Hone; left).
    apply elem_of_List_filter in Hin as [Hin _].
    apply elem_of_capacity_conflicts in Hin as (i & d & [= -> ->] & Hgt).
    fold n in Hgt. lia.
Qed.

Lemma overbooked_for_overlaps (entries : list Entry.t) (event_id date : string) :
  List.filter (overbooked_for event_id date) (spec_overlap_conflicts entries) = [].
Proof.
  unfold spec_overlap_conflicts.
  induction (unique (map Entry.volunteer entries)) as [|name names IH];
    [reflexivity|].
  cbn [flat_map]. rewrite List.filter_app, IH, app_nil_r.
  unfold spec_volunteer_overlaps, pair_messages.
  induction (List.filter _ (adjacent_pairs _)) as [|pc l IHl]; [reflexivity|].
  simpl. exact IHl.
Qed.

(** The rows that pass the filters of the side bar have a start. *)
Lemma apply_filters_started (merged_df : list Entry.t) (w : DashboardInput) :
  Forall (fun e => is_Some (Entry.datetime_start e)) (apply_filters merged_df w).
Proof.
  unfold apply_filters. apply Forall_forall. intros e He.
  apply elem_of_List_filter in He as [_ He]. unfold in_date_range in He.
  destruct (Entry.datetime_start e); [by eexists | discriminate].
Qed.

(** A table with a single volunteer has no overbooked group. *)
Lemma capacity_conflicts_one_volunteer (filtered_df : list Entry.t) (v : cell) :
  Forall (fun e => Entry.volunteer e = v) filtered_df ->
  capacity_conflicts filtered_df = [].
Proof.
  intros Hall.
  destruct (capacity_conflicts filtered_df) as [|c l] eqn:Hc; [reflexivity|].
  assert (Hin : c ∈ capacity_conflicts filtered_df) by (rewrite Hc; left).
  apply elem_of_capacity_conflicts in Hin as (i & d & _ & Hgt).
  exfalso. revert Hgt. unfold distinct_volunteers.
  set (vols := omap Entry.volunteer _).
  assert (Hvols : forall x, x ∈ vols -> Some x = v).
  { intros x Hx. apply list_elem_of_omap in Hx as (e & He & Hev).
    apply elem_of_List_filter in He as [He _].
    rewrite Forall_forall in Hall. by rewrite <- (Hall e He). }
  rewrite <- length_unique_size.
  destruct (NoDup_all_eq (unique vols) (default EmptyString v) (NoDup_unique vols))
    as [->| ->]; simpl; try lia.
  intros y Hy. apply elem_of_unique, Hvols in Hy. by subst v.
Qed.
End capacity_facts.

Section two_bookings.


End two_bookings.


(** C3.  The checker compares only the adjacent pairs of the start-time
    order, and that misses overlaps: with three entries of one volunteer,
    09:00-17:00, 10:00-11:00 and 12:00-13:00 on one date, the first and the
    third overlap in time, yet the only conflict emitted is the one of the
    first and the second. *)
Theorem adjacent_pairs_miss_overlap :
  (forall filtered_df : list Entry.t,
      find_conflicts filtered_df
      = Ok (spec_overlap_conflicts filtered_df ++ capacity_conflicts filtered_df))
  /\ exists (filtered_df : list Entry.t) (a b c : Entry.t),
       filtered_df = [a; b; c]
       /\ Forall (fun e => Entry.volunteer e = Some "Bob") filtered_df
       /\ intervals_overlap a c
       /\ find_conflicts filtered_df = Ok [overlap_message (Some "Bob") a b]
       /\ (overlap_message (Some "Bob") a c ∉ [overlap_message (Some "Bob") a b])
       /\ (overlap_message (Some "Bob") c a ∉ [overlap_message (Some "Bob") a b]).
Proof.
  split; [apply find_conflicts_spec|].
  pose (at_ := fun h : Z => Some ((20241 * 1440 + h * 60) * 60000000000)%Z).
  exists [Entry.mk (Some "COR001") (Some "Bob") (Some "course") (Some "2025-06-02")
                   (Some "09:00") (Some "17:00") (at_ 9%Z) (at_ 17%Z);
          Entry.mk (Some "GUI001") (Some "Bob") (Some "guiding") (Some "2025-06-02")
                   (Some "10:00") (Some "11:00") (at_ 10%Z) (at_ 11%Z);
          Entry.mk (Some "GRG001") (Some "Bob") (Some "grg") (Some "2025-06-02")
                   (Some "12:00") (Some "13:00") (at_ 12%Z) (at_ 13%Z)].
  do 3 eexists. split; [reflexivity|].
  split; [repeat constructor|].
  split.
  { do 4 eexists. repeat split; simpl; lia. }
  split; [vm_compute; reflexivity|].
  split; intros Hin; apply list_elem_of_singleton in Hin; discriminate.
Qed.

(** C5, as stated, fails on "only over entries with a non-null interval":
    three grg rows of one event whose end time did not parse (datetime_end
    is NaT) pass the filters of the page and are reported as overbooked. *)
Lemma capacity_counts_entries_without_end :
  let start := Some ((20241 * 1440 + 10 * 60) * 60000000000)%Z in
  let row v := Entry.mk (Some "GRG001") (Some v) (Some "grg") (Some "2025-06-02")
                        (Some "10:00") (Some "soon") start None in
  let merged_df := [row "Ann Lee"; row "Ben Ode"; row "Cy Park"] in
  let w := {| selected_volunteer := "All";
              selected_type := ["grg"];
              start_date := 20241;
              end_date := 20241 |} in
  Forall (fun e => Entry.datetime_end e = None) merged_df
  /\ apply_filters merged_df w = merged_df
  /\ show_dashboard merged_df w
     = Ok (Some (Warnings [Overbooked "GRG001" "2025-06-02" 3])).
Proof.
  split; [repeat constructor|]. split; vm_compute; reflexivity.
Qed.

(** C5, amended.  The capacity check runs over the entries left by the
    filters of the page, all of which have a non-null datetime_start (the
    datetime_end is not looked at and may be null): it groups the entries
    of type grg (compared in lower case) by (event_id, date), counts the
    distinct volunteers of each group, and emits exactly one overbooking
    conflict with the event, the date and the count for each group whose
    count exceeds 2, and none for a group with a count of at most 2. *)
Theorem capacity_conflicts_per_group :
  forall (merged_df : list Entry.t) (w : DashboardInput)
         (event_id date : string),
    let filtered_df := apply_filters merged_df w in
    let conflicts := spec_overlap_conflicts filtered_df ++ capacity_conflicts filtered_df in
    Forall (fun e => is_Some (Entry.datetime_start e)) filtered_df
    /\ find_conflicts filtered_df = Ok conflicts
    /\ show_dashboard merged_df w
       = (if (end_date w <? start_date w)%Z then Ok None
          else Ok (Some (conflict_report conflicts)))
    /\ List.filter (overbooked_for event_id date) conflicts
       = if (2 <? distinct_volunteers filtered_df event_id date)%nat
         then [Overbooked event_id date (distinct_volunteers filtered_df event_id date)]
         else [].
Proof.
  intros merged_df w event_id date filtered_df conflicts.
  split; [apply apply_filters_started|].
  split; [apply find_conflicts_spec|].
  split.
  - unfold show_dashboard. destruct (end_date w <? start_date w)%Z; [done|].
    fold filtered_df. by rewrite find_conflicts_spec.
  - unfold conflicts.
    rewrite List.filter_app, overbooked_for_overlaps. apply capacity_conflicts_for.
Qed.

(** Three distinct volunteers on one GRG event and date, the type written in
    three ways and one volunteer entered twice: one message with the count
    three, and no message for the group of two. *)
Example capacity_three_volunteers :
  let start := Some ((20241 * 1440 + 10 * 60) * 60000000000)%Z in
  let stop := Some ((20241 * 1440 + 11 * 60) * 60000000000)%Z in
  let row i ty v := Entry.mk (Some i) (Some v) (Some ty) (Some "2025-06-02")
                             (Some "10:00") (Some "11:00") start stop in
  capacity_conflicts
    [row "GRG001" "grg" "Ann Lee"; row "GRG001" "GRG" "Ben Ode";
     row "GRG002" "grg" "Ann Lee"; row "GRG001" "Grg" "Cy Park";
     row "GRG002" "grg" "Dee Roe"; row "GRG001" "grg" "Ann Lee";
     row "COR001" "course" "Eli Sun"; row "COR001" "course" "Fay Tan";
     row "COR001" "course" "Gus Ure"]
  = [Overbooked "GRG001" "2025-06-02" 3].
Proof. vm_compute. reflexivity. Qed.

(** * Further properties of the script *)

(** ** Identifier generation *)

Section generate_event_id_more.
Import Py.

Lemma existsb_false_forall {A} (f : A -> bool) (l : list A) :
  existsb f l = false -> forall x, x ∈ l -> f x = false.
Proof.
  intros Hex x Hx. apply not_true_is_false. intros Hfx.
  assert (existsb f l = true) by (apply existsb_exists; exists x;
                                  by rewrite <- list_elem_of_In).
  congruence.
Qed.

Lemma max_from_snoc (x : N) (l : list N) (y : N) :
  max_from x (l ++ [y]) = N.max (max_from x l) y.
Proof. unfold max_from. by rewrite fold_left_app. Qed.

Lemma next_of_fold (nums : list N) : next_of nums = fold_left N.max nums 0 + 1.
Proof.
  destruct nums as [|n ns]; [reflexivity|]. unfold next_of, max_from. simpl.
  by rewrite N.max_0_l.
Qed.

Lemma next_of_snoc (nums : list N) : next_of (nums ++ [next_of nums]) = next_of nums + 1.
Proof.
  destruct nums as [|m ms]; [reflexivity|].
  cbn [app next_of]. rewrite max_from_snoc.
  generalize (max_from m ms). intros x. rewrite N.max_r by lia. reflexivity.
Qed.

Lemma fold_max_Permutation (l l' : list N) :
  l ≡ₚ l' -> forall a, fold_left N.max l a = fold_left N.max l' a.
Proof.
  induction 1 as [|x l l' _ IH|x y l|l l' l'' _ IH1 _ IH2]; intros a; simpl.
  - reflexivity.
  - apply IH.
  - f_equal. lia.
  - by rewrite IH1.
Qed.

Lemma numeric_suffixes_app (l1 l2 : list string) (prefix : string) :
  numeric_suffixes (l1 ++ l2) prefix
  = numeric_suffixes l1 prefix ++ numeric_suffixes l2 prefix.
Proof. unfold numeric_suffixes. apply omap_app. Qed.

Lemma numeric_suffixes_generated (prefix : string) (n : N) :
  numeric_suffixes [prefix +:+ format_0d 3 n] prefix = [n].
Proof.
  unfold numeric_suffixes. cbn [omap list_omap].
  rewrite startswith_append, slice_from_append. unfold is_numeric.
  destruct (format_0d_decimal 3 n) as [-> ->]. simpl.
  by rewrite format_0d_value.
Qed.

(** An identifier that the generator could write can be read back. *)
Lemma undecodable_generated (prefix : string) (n : N) :
  within_digit_limit (str_of_N n) = true ->
  undecodable prefix (prefix +:+ format_0d 3 n) = false.
Proof.
  intros Hlim. unfold undecodable. rewrite slice_from_append.
  destruct (format_0d_decimal 3 n) as [_ ->].
  rewrite (format_0d_within n Hlim). simpl. apply andb_false_r.
Qed.
End generate_event_id_more.

(** X1.  [generate_event_id] raises [ValueError], and nothing else, in
    exactly two cases: an identifier that starts with the prefix has a
    suffix that [isdigit] accepts and [int] refuses (it holds a digit that
    [isdecimal] does not accept, or more digits than CPython's limit of
    4300), or the next number itself has more digits than that limit and
    cannot be written.  In every other case it returns the prefix followed
    by the largest numeric suffix plus one (one when there is none),
    written on at least three digits.  Identifiers are texts over the code
    points U+0000 to U+00FF. *)
Theorem generate_event_id_value_or_error :
  forall (event_ids : list cell) (prefix : string),
    generate_event_id event_ids prefix
    = if existsb (undecodable prefix) (omap id event_ids)
      then Raise ValueError
      else let n := next_of (numeric_suffixes (omap id event_ids) prefix) in
           if Py.within_digit_limit (Py.str_of_N n)
           then Ok (prefix +:+ Py.format_0d 3 n)
           else Raise ValueError.
Proof. intros. apply generate_event_id_cases. Qed.

(** X2.  Numbering is consecutive: once an identifier has been generated
    and stored, the next one generated for the same prefix carries the next
    number, unless that number has more digits than CPython's limit of
    4300, in which case the generator raises [ValueError]. *)
Theorem generate_event_id_consecutive :
  forall (event_ids : list cell) (prefix new_id : string),
    generate_event_id event_ids prefix = Ok new_id ->
    exists n,
      new_id = prefix +:+ Py.format_0d 3 n
      /\ generate_event_id (event_ids ++ [Some new_id]) prefix
         = if Py.within_digit_limit (Py.str_of_N (n + 1))
           then Ok (prefix +:+ Py.format_0d 3 (n + 1))
           else Raise ValueError.
Proof.
  intros event_ids prefix new_id Hgen.
  rewrite generate_event_id_cases in Hgen.
  destruct (existsb _ (omap id event_ids)) eqn:Hex; [discriminate|].
  cbv zeta in Hgen.
  set (nums := numeric_suffixes (omap id event_ids) prefix) in *.
  destruct (Py.within_digit_limit (Py.str_of_N (next_of nums))) eqn:Hlim;
    [|discriminate].
  injection Hgen as <-.
  exists (next_of nums). split; [reflexivity|].
  rewrite generate_event_id_cases, omap_app. cbn [omap list_omap id].
  rewrite existsb_app, Hex. cbn [existsb orb].
  rewrite (undecodable_generated prefix (next_of nums) Hlim). cbn [orb]. cbv zeta.
  rewrite numeric_suffixes_app, numeric_suffixes_generated. fold nums.
  by rewrite next_of_snoc.
Qed.

Lemma generate_event_id_consecutive_witness :
  generate_event_id [Some "GUI001"; Some "GRG007"; None] "GRG" = Ok "GRG008"
  /\ exists n,
       "GRG008" = "GRG" +:+ Py.format_0d 3 n
       /\ generate_event_id ([Some "GUI001"; Some "GRG007"; None] ++ [Some "GRG008"]) "GRG"
          = if Py.within_digit_limit (Py.str_of_N (n + 1))
            then Ok ("GRG" +:+ Py.format_0d 3 (n + 1))
            else Raise ValueError.
Proof.
  split; [reflexivity|].
  exact (generate_event_id_consecutive [Some "GUI001"; Some "GRG007"; None]
                                       "GRG" "GRG008" eq_refl).
Defined.

(** X3.  The numbering of a prefix ignores every identifier that does not
    start with it, and every missing identifier, wherever it stands in the
    table: the counters of the event types do not interfere. *)
Theorem generate_event_id_other_prefix :
  forall (before after : list cell) (other : cell) (prefix : string),
    match other with
    | Some eid => Py.startswith eid prefix = false
    | None => True
    end ->
    generate_event_id (before ++ other :: after) prefix
    = generate_event_id (before ++ after) prefix.
Proof.
  intros before after other prefix Hother. unfold generate_event_id.
  assert (List.filter (fun eid => Py.startswith eid prefix)
                      (omap id (before ++ other :: after))
          = List.filter (fun eid => Py.startswith eid prefix)
                        (omap id (before ++ after))) as ->; [|reflexivity].
  rewrite !omap_app, !List.filter_app. f_equal.
  destruct other as [eid|]; cbn [omap list_omap id]; [|reflexivity].
  cbn [List.filter]. by rewrite Hother.
Qed.

Lemma generate_event_id_other_prefix_witness :
  Py.startswith "COR004" "GRG" = false
  /\ generate_event_id ([Some "GRG001"] ++ Some "COR004" :: [Some "GRG002"]) "GRG"
     = generate_event_id ([Some "GRG001"] ++ [Some "GRG002"]) "GRG".
Proof.
  split; [reflexivity|].
  exact (generate_event_id_other_prefix [Some "GRG001"] [Some "GRG002"]
                                        (Some "COR004") "GRG" eq_refl).
Defined.

(** X4.  The generated identifier, and whether the generator raises, do not
    depend on the order of the rows of the events table. *)
Theorem generate_event_id_Permutation :
  forall (event_ids event_ids' : list cell) (prefix : string),
    event_ids ≡ₚ event_ids' ->
    generate_event_id event_ids prefix = generate_event_id event_ids' prefix.
Proof.
  intros event_ids event_ids' prefix Hperm.
  assert (Hids : omap id event_ids ≡ₚ omap id event_ids') by by rewrite Hperm.
  rewrite !generate_event_id_cases.
  assert (existsb (undecodable prefix) (omap id event_ids)
          = existsb (undecodable prefix) (omap id event_ids')) as ->.
  { apply eq_iff_eq_true. rewrite !existsb_exists.
    split; intros (x & Hx & Hbad); exists x; (split; [|done]);
      apply list_elem_of_In; apply list_elem_of_In in Hx.
    - by rewrite <- Hids.
    - by rewrite Hids. }
  destruct (existsb _ _); [reflexivity|].
  assert (next_of (numeric_suffixes (omap id event_ids) prefix)
          = next_of (numeric_suffixes (omap id event_ids') prefix)) as ->;
    [|reflexivity].
  rewrite !next_of_fold. f_equal.
  apply fold_max_Permutation. unfold numeric_suffixes. by rewrite Hids.
Qed.

Lemma generate_event_id_Permutation_witness :
  [Some "GRG003"; None; Some "GRG001"] ≡ₚ [Some "GRG001"; Some "GRG003"; None]
  /\ generate_event_id [Some "GRG003"; None; Some "GRG001"] "GRG"
     = generate_event_id [Some "GRG001"; Some "GRG003"; None] "GRG".
Proof.
  assert (H : [Some "GRG003"; None; Some "GRG001"]
              ≡ₚ [Some "GRG001"; Some "GRG003"; None]).
  { etransitivity; [apply perm_skip, perm_swap|].
    etransitivity; [apply perm_swap|]. reflexivity. }
  split; [exact H | exact (generate_event_id_Permutation _ _ "GRG" H)].
Defined.

(** ** Page "Add Event" *)

Section add_event_more.

Lemma event_type_of_pick (pick : nat) :
  iloc (map fst
          (List.filter
             (fun kv => cell_eqb (Some kv.2) (selectbox (map snd type_labels) pick))
             type_labels)) 0
  = Ok (picked_event_type pick).
Proof. destruct pick as [|[|[|n]]]; reflexivity. Qed.

Lemma picked_event_type_prefix (pick : nat) :
  (picked_event_type pick, dict_get type_prefix_map (picked_event_type pick) "EVT")
  ∈ type_prefix_map.
Proof.
  destruct pick as [|[|[|n]]]; cbn; [right; left | left | right; right; left | right; left].
Qed.

Lemma show_add_event_idle (events_df : list Event.t) (f : AddEventForm) :
  add_event_clicked f = false ->
  show_add_event events_df f = Ok (events_df, AddEventIdle).
Proof.
  intros Hclick. unfold show_add_event.
  rewrite event_type_of_pick. cbn [mbind result_bind].
  destruct (selectbox_nonempty time_options (start_pick f)) as [st Hst]; [done|].
  rewrite Hst. unfold end_times_filtered.
  destruct (negb (String.eqb _ "grg")); cbn [mbind result_bind]; by rewrite Hclick.
Qed.

(** What a click on "Add Event" does, in one equation. *)
Lemma show_add_event_click (events_df : list Event.t) (f : AddEventForm) :
  add_event_clicked f = true ->
  show_add_event events_df f
  = let event_type := picked_event_type (type_pick f) in
    let event_name :=
      if String.eqb event_type "grg" then "GRG Session" else event_name_input f in
    if negb (Py.nonempty (Py.strip event_name))
    then Ok (events_df, EventNameRequired)
    else
      new_event_id ← generate_event_id (map Event.event_id events_df)
                                       (dict_get type_prefix_map event_type "EVT");
      Ok (events_df ++ [added_event f new_event_id], EventAdded new_event_id).
Proof.
  intros Hclick. unfold show_add_event, added_event.
  rewrite event_type_of_pick. cbn [mbind result_bind].
  destruct (selectbox_nonempty time_options (start_pick f)) as [st Hst]; [done|].
  rewrite Hst. unfold end_times_filtered.
  destruct (String.eqb (picked_event_type (type_pick f)) "grg");
    cbn [negb mbind result_bind]; rewrite Hclick; cbv zeta;
    destruct (negb (Py.nonempty _)); try reflexivity;
    destruct (generate_event_id _ _); reflexivity.
Qed.

Lemma next_of_pos (nums : list N) : 1 <= next_of nums.
Proof. destruct nums; simpl; lia. Qed.

Lemma generate_event_id_raises (event_ids : list cell) (prefix : string) (e : exn) :
  generate_event_id event_ids prefix = Raise e ->
  e = ValueError
  /\ ((exists eid, Some eid ∈ event_ids /\ undecodable prefix eid = true)
      \/ Py.within_digit_limit
           (Py.str_of_N (next_of (numeric_suffixes (omap id event_ids) prefix)))
         = false).
Proof.
  rewrite generate_event_id_cases.
  destruct (existsb _ _) eqn:Hex.
  - intros [= <-]. split; [done|]. left.
    apply existsb_exists in Hex as (eid & Hin & Hbad).
    exists eid. split; [|done].
    apply list_elem_of_In, list_elem_of_omap in Hin as ([x|] & Hx & [= ->]). done.
  - cbv zeta. destruct (Py.within_digit_limit _) eqn:Hlim; [discriminate|].
    intros [= <-]. split; [done | by right].
Qed.
End add_event_more.

(** X5.  A run of "Add Event" that announces an identifier has appended
    exactly one row and left the earlier rows as they were; the new row
    carries that identifier and one of the three event types, and the
    identifier is the prefix of that type (never the fallback EVT) followed
    by a number from 1 on, written on at least three decimal digits. *)
Theorem show_add_event_appends_row :
  forall (events_df events_df' : list Event.t) (f : AddEventForm) (new_id : string),
    show_add_event events_df f = Ok (events_df', EventAdded new_id) ->
    exists event_type prefix n,
      (event_type, prefix) ∈ type_prefix_map
      /\ 1 <= n
      /\ new_id = prefix +:+ Py.format_0d 3 n
      /\ (3 <= String.length (Py.format_0d 3 n))%nat
      /\ Py.str_all Py.isdecimal_char (Py.format_0d 3 n) = true
      /\ events_df' = events_df ++ [added_event f new_id]
      /\ Event.event_id (added_event f new_id) = Some new_id
      /\ Event.type (added_event f new_id) = Some event_type.
Proof.
  intros events_df events_df' f new_id Hrun.
  destruct (add_event_clicked f) eqn:Hclick;
    [|rewrite show_add_event_idle in Hrun by done; discriminate].
  rewrite show_add_event_click in Hrun by done. cbv zeta in Hrun.
  destruct (negb (Py.nonempty _)); [discriminate|].
  rewrite generate_event_id_cases in Hrun.
  destruct (existsb _ _); [discriminate|]. cbv zeta in Hrun.
  destruct (Py.within_digit_limit _); [|discriminate].
  cbn [mbind result_bind] in Hrun. injection Hrun as <- <-.
  exists (picked_event_type (type_pick f)),
         (dict_get type_prefix_map (picked_event_type (type_pick f)) "EVT"),
         (next_of (numeric_suffixes (omap id (map Event.event_id events_df))
                     (dict_get type_prefix_map (picked_event_type (type_pick f)) "EVT"))).
  split; [apply picked_event_type_prefix|].
  split; [apply next_of_pos|].
  split; [reflexivity|].
  split; [apply format_0d_length|].
  split; [apply format_0d_decimal|].
  done.
Qed.

Lemma show_add_event_appends_row_witness :
  let f := {| type_pick := 2;
              school_name_input := "Hill School";
              event_name_input := "Castle tour";
              grade_input := "7";
              num_students_input := 24;
              date_input := {| year := 2025; month := 6; day := 12 |};
              start_pick := 4;
              end_pick := 1;
              required_input := 2;
              add_event_clicked := true |} in
  let events_df :=
    [Event.mk (Some "GUI004") (Some "guiding") (Some "Mill School") (Some "Walk")
              (Some "3") 18 (Some "2025-06-02") (Some "09:00") (Some "10:00") 1] in
  show_add_event events_df f = Ok (events_df ++ [added_event f "GUI005"], EventAdded "GUI005")
  /\ exists event_type prefix n,
       (event_type, prefix) ∈ type_prefix_map
       /\ 1 <= n
       /\ "GUI005" = prefix +:+ Py.format_0d 3 n
       /\ (3 <= String.length (Py.format_0d 3 n))%nat
       /\ Py.str_all Py.isdecimal_char (Py.format_0d 3 n) = true
       /\ events_df ++ [added_event f "GUI005"] = events_df ++ [added_event f "GUI005"]
       /\ Event.event_id (added_event f "GUI005") = Some "GUI005"
       /\ Event.type (added_event f "GUI005") = Some event_type.
Proof.
  intros f events_df.
  assert (H : show_add_event events_df f
              = Ok (events_df ++ [added_event f "GUI005"], EventAdded "GUI005"))
    by (vm_compute; reflexivity).
  split; [exact H | exact (show_add_event_appends_row _ _ _ _ H)].
Defined.

(** X6.  The page "Add Event" can only fail with the [ValueError] of the
    identifier generator, and only on a click with a name that is not
    blank: the type lookup always finds its key and the start time is
    always a time of the grid, so there is no [IndexError] and no
    [TypeError].  The generator then fails for one of its two reasons: an
    identifier of the table is undecodable for the prefix of the type
    picked, or the next number has too many digits to be written. *)
Theorem show_add_event_only_ValueError :
  forall (events_df : list Event.t) (f : AddEventForm) (e : exn),
    show_add_event events_df f = Raise e ->
    let prefix := dict_get type_prefix_map (picked_event_type (type_pick f)) "EVT" in
    let event_ids := map Event.event_id events_df in
    e = ValueError
    /\ add_event_clicked f = true
    /\ generate_event_id event_ids prefix = Raise ValueError
    /\ ((exists eid, Some eid ∈ event_ids /\ undecodable prefix eid = true)
        \/ Py.within_digit_limit
             (Py.str_of_N (next_of (numeric_suffixes (omap id event_ids) prefix)))
           = false).
Proof.
  intros events_df f e Hrun prefix event_ids.
  destruct (add_event_clicked f) eqn:Hclick;
    [|rewrite show_add_event_idle in Hrun by done; discriminate].
  rewrite show_add_event_click in Hrun by done. cbv zeta in Hrun.
  destruct (negb (Py.nonempty _)); [discriminate|].
  fold prefix event_ids in Hrun.
  destruct (generate_event_id event_ids prefix) as [i|e'] eqn:Hgen; [discriminate|].
  cbn [mbind result_bind] in Hrun. injection Hrun as <-.
  apply generate_event_id_raises in Hgen as Hwhy. destruct Hwhy as [-> Hwhy].
  done.
Qed.

Lemma show_add_event_only_ValueError_witness :
  let f := {| type_pick := 1;
              school_name_input := "";
              event_name_input := "";
              grade_input := "";
              num_students_input := 0;
              date_input := {| year := 2025; month := 6; day := 12 |};
              start_pick := 0;
              end_pick := 0;
              required_input := 2;
              add_event_clicked := true |} in
  let events_df :=
    [Event.mk (Some ("GRG" +:+ String "178"%char EmptyString)) (Some "grg") None
              (Some "GRG Session") None 0 (Some "2025-06-02") (Some "09:00")
              (Some "10:00") 1] in
  show_add_event events_df f = Raise ValueError
  /\ add_event_clicked f = true
  /\ generate_event_id (map Event.event_id events_df) "GRG" = Raise ValueError.
Proof.
  intros f events_df.
  assert (H : show_add_event events_df f = Raise ValueError)
    by (vm_compute; reflexivity).
  destruct (show_add_event_only_ValueError events_df f ValueError H)
    as (_ & Hclick & Hgen & _).
  split; [exact H|]. split; [exact Hclick | exact Hgen].
Defined.

(** X7.  For a course or a guiding, a name that is empty or made of
    whitespace only is refused on the click: the page reports that the
    event name is required and the events table stays as it was, whatever
    else the form holds. *)
Theorem show_add_event_blank_name :
  forall (events_df : list Event.t) (f : AddEventForm),
    add_event_clicked f = true ->
    type_pick f <> 1%nat ->
    Py.strip (event_name_input f) = EmptyString ->
    show_add_event events_df f = Ok (events_df, EventNameRequired).
Proof.
  intros events_df f Hclick Hpick Hblank.
  rewrite show_add_event_click by done. cbv zeta.
  assert (String.eqb (picked_event_type (type_pick f)) "grg" = false) as ->
    by (destruct (type_pick f) as [|[|[|n]]]; done).
  by rewrite Hblank.
Qed.

Lemma show_add_event_blank_name_witness :
  let f := {| type_pick := 0;
              school_name_input := "Hill School";
              event_name_input := "   ";
              grade_input := "7";
              num_students_input := 24;
              date_input := {| year := 2025; month := 6; day := 12 |};
              start_pick := 4;
              end_pick := 1;
              required_input := 2;
              add_event_clicked := true |} in
  add_event_clicked f = true
  /\ type_pick f <> 1%nat
  /\ Py.strip (event_name_input f) = EmptyString
  /\ show_add_event [] f = Ok ([], EventNameRequired).
Proof.
  intros f.
  assert (Hpick : type_pick f <> 1%nat) by discriminate.
  split; [reflexivity|]. split; [exact Hpick|]. split; [reflexivity|].
  exact (show_add_event_blank_name [] f eq_refl Hpick eq_refl).
Defined.

(** X8.  A GRG event never depends on the text inputs: whatever the form
    holds for school, name, grade and students, a click with the type GRG
    stores the name "GRG Session", an empty school and grade and 0
    students, under the identifier that the generator gives for GRG. *)
Theorem show_add_event_grg :
  forall (events_df : list Event.t) (f : AddEventForm) (new_id : string),
    add_event_clicked f = true ->
    type_pick f = 1%nat ->
    generate_event_id (map Event.event_id events_df) "GRG" = Ok new_id ->
    show_add_event events_df f
    = Ok (events_df ++ [added_event f new_id], EventAdded new_id)
    /\ Event.type (added_event f new_id) = Some "grg"
    /\ Event.event_name (added_event f new_id) = Some "GRG Session"
    /\ Event.school_name (added_event f new_id) = Some EmptyString
    /\ Event.grade (added_event f new_id) = Some EmptyString
    /\ Event.num_students (added_event f new_id) = 0%Z.
Proof.
  intros events_df f new_id Hclick Hpick Hgen.
  rewrite show_add_event_click by done. unfold added_event.
  rewrite Hpick. cbn [picked_event_type]. cbv zeta.
  change (String.eqb "grg" "grg") with true. cbv iota.
  change (dict_get type_prefix_map "grg" "EVT") with "GRG".
  change (negb (Py.nonempty (Py.strip "GRG Session"))) with false. cbv iota.
  rewrite Hgen. cbn [mbind result_bind]. done.
Qed.

Lemma show_add_event_grg_witness :
  let f := {| type_pick := 1;
              school_name_input := "ignored";
              event_name_input := "   ";
              grade_input := "ignored";
              num_students_input := 99;
              date_input := {| year := 2025; month := 6; day := 12 |};
              start_pick := 4;
              end_pick := 1;
              required_input := 2;
              add_event_clicked := true |} in
  add_event_clicked f = true
  /\ type_pick f = 1%nat
  /\ generate_event_id (map Event.event_id []) "GRG" = Ok "GRG001"
  /\ show_add_event [] f = Ok ([] ++ [added_event f "GRG001"], EventAdded "GRG001")
  /\ Event.event_name (added_event f "GRG001") = Some "GRG Session"
  /\ Event.num_students (added_event f "GRG001") = 0%Z.
Proof.
  intros f.
  destruct (show_add_event_grg [] f "GRG001" eq_refl eq_refl eq_refl)
    as (Hrun & _ & Hname & _ & _ & Hnum).
  split; [reflexivity|]. split; [reflexivity|]. split; [reflexivity|].
  split; [exact Hrun|]. split; [exact Hname | exact Hnum].
Defined.

(** X9.  For every start time of the grid, the end times on offer are
    exactly the grid times that come after it, in the same order: comparing
    the "HH:MM" texts agrees with the order of the times.  For the last
    start time nothing is left. *)
Theorem end_times_filtered_are_the_later_times :
  forall (i : nat) (start_time : string),
    time_options !! i = Some start_time ->
    end_times_filtered (Some start_time) = Ok (drop (S i) time_options).
Proof.
  intros i start_time Hi.
  do 19 (destruct i as [|i]; [injection Hi as <-; vm_compute; reflexivity|]).
  apply lookup_lt_Some in Hi. vm_compute in Hi. lia.
Qed.

Lemma end_times_filtered_are_the_later_times_witness :
  time_options !! 16%nat = Some "16:00"
  /\ end_times_filtered (Some "16:00") = Ok ["16:30"; "17:00"].
Proof.
  split; [reflexivity|].
  exact (end_times_filtered_are_the_later_times 16 "16:00" eq_refl).
Defined.

Section event_id_invariant.

Lemma event_ids_snoc_NoDup (events_df : list Event.t) (e : Event.t) (new_id : string) :
  Event.event_id e = Some new_id ->
  Some new_id ∉ map Event.event_id events_df ->
  NoDup (omap id (map Event.event_id events_df)) ->
  NoDup (omap id (map Event.event_id (events_df ++ [e]))).
Proof.
  intros He Hfresh Hnd. rewrite map_app, omap_app. cbn [map omap list_omap].
  rewrite He. cbn [id]. apply NoDup_app. split; [done|]. split; [|apply NoDup_singleton].
  intros x Hx Hx'. apply list_elem_of_singleton in Hx' as ->.
  apply Hfresh. apply list_elem_of_omap in Hx as ([y|] & Hy & [= ->]). done.
Qed.

Lemma add_event_runs_keep_NoDup (fs : list AddEventForm) :
  forall events_df : list Event.t,
    NoDup (omap id (map Event.event_id events_df)) ->
    NoDup (omap id (map Event.event_id (add_event_runs events_df fs).1)).
Proof.
  induction fs as [|f fs IH]; intros events_df Hnd; [done|].
  cbn [add_event_runs].
  destruct (add_event_run_cases events_df f) as [Hrun|(e & i & Hrun & He & Hfresh)];
    rewrite Hrun.
  - specialize (IH events_df Hnd).
    by destruct (add_event_runs events_df fs) as [final ids].
  - specialize (IH (events_df ++ [e]) (event_ids_snoc_NoDup _ _ _ He Hfresh Hnd)).
    by destruct (add_event_runs (events_df ++ [e]) fs) as [final ids].
Qed.
End event_id_invariant.

(** X10.  Uniqueness of the identifiers is an invariant of the events
    table: if no two rows share an identifier before a session of the page
    "Add Event", no two rows share one after it, whatever the forms
    submitted. *)
Theorem add_event_runs_unique_ids :
  forall (events_df : list Event.t) (fs : list AddEventForm),
    NoDup (omap id (map Event.event_id events_df)) ->
    NoDup (omap id (map Event.event_id (add_event_runs events_df fs).1)).
Proof. intros events_df fs. apply add_event_runs_keep_NoDup. Qed.

Lemma add_event_runs_unique_ids_witness :
  let f ty := {| type_pick := ty;
                 school_name_input := "Hill School";
                 event_name_input := "Talk";
                 grade_input := "7";
                 num_students_input := 24;
                 date_input := {| year := 2025; month := 6; day := 12 |};
                 start_pick := 4;
                 end_pick := 1;
                 required_input := 2;
                 add_event_clicked := true |} in
  let events_df :=
    [Event.mk (Some "GRG002") (Some "grg") None (Some "GRG Session") None 0
              (Some "2025-06-02") (Some "09:00") (Some "10:00") 1] in
  NoDup (omap id (map Event.event_id events_df))
  /\ NoDup (omap id (map Event.event_id (add_event_runs events_df [f 1%nat; f 0%nat; f 1%nat]).1)).
Proof.
  intros f events_df.
  assert (H : NoDup (omap id (map Event.event_id events_df)))
    by (apply NoDup_singleton).
  split; [exact H | exact (add_event_runs_unique_ids events_df _ H)].
Defined.

(** ** Page "Add Assignment" *)

Section assignment_more.

Lemma display_to_id_fold_origin (events_df : list Event.t) :
  forall (m : gmap string cell) (k : string) (c : cell),
    fold_left (fun m e => <[event_display e := Event.event_id e]> m) events_df m !! k
    = Some c ->
    m !! k = Some c
    \/ exists e, e ∈ events_df /\ event_display e = k /\ Event.event_id e = c.
Proof.
  induction events_df as [|e0 es IH]; intros m k c; simpl; [by left|].
  intros Hk. apply IH in Hk as [Hk|(e & He & Hd & Hi)].
  - destruct (decide (event_display e0 = k)) as [Heq|Hne].
    + rewrite Heq, lookup_insert_eq in Hk. injection Hk as <-.
      right. exists e0. split; [left | done].
    + rewrite lookup_insert_ne in Hk by done. by left.
  - right. exists e. split; [by right | done].
Qed.

Lemma display_to_id_origin (events_df : list Event.t) (k : string) (c : cell) :
  display_to_id events_df !! k = Some c ->
  exists e, e ∈ events_df /\ event_display e = k /\ Event.event_id e = c.
Proof.
  intros Hk. apply display_to_id_fold_origin in Hk as [Hk|Hk]; [|done].
  by rewrite lookup_empty in Hk.
Qed.

Lemma selectbox_lookup {A} (options : list A) (pick : nat) (x : A) :
  options !! pick = Some x -> selectbox options pick = Some x.
Proof. unfold selectbox. by intros ->. Qed.

(** What the selection consists of, when the page reaches the button. *)
Lemma assignment_selection_inv (events_df : list Event.t)
    (volunteers_df : list Volunteer.t) (assignments_df : list Assignment.t)
    (f : AssignForm) (event_id volunteer : cell) :
  assignment_selection events_df volunteers_df assignments_df f
  = Ok (inr (event_id, volunteer)) ->
  exists shown booked,
    selectbox (map event_display events_df) (event_pick f) = Some shown
    /\ display_to_id events_df !! shown = Some event_id
    /\ join_names
         (map Assignment.volunteer
              (List.filter (fun a => cell_eqb (Assignment.event_id a) event_id)
                           assignments_df)) = Ok booked
    /\ volunteer = selectbox (map Volunteer.full_name volunteers_df) (volunteer_pick f)
    /\ exists w, w ∈ volunteers_df /\ volunteer = Some (Volunteer.full_name w).
Proof.
  unfold assignment_selection.
  destruct events_df as [|e0 events']; [discriminate|].
  destruct volunteers_df as [|v0 volunteers']; [discriminate|].
  destruct (selectbox_nonempty (map Volunteer.full_name (v0 :: volunteers'))
                               (volunteer_pick f)) as [name Hname]; [done|].
  rewrite Hname.
  destruct (selectbox _ (event_pick f)) as [[|c shown]|] eqn:Hshown; try discriminate.
  destruct (display_to_id _ !! _) as [i|] eqn:Hid; [cbn [mbind result_bind]|discriminate].
  destruct (iloc _ 0) as [event_info|]; [cbn [mbind result_bind]|discriminate].
  destruct (join_names _) as [booked|] eqn:Hjoin; [cbn [mbind result_bind]|discriminate].
  intros [= <- <-]. exists (String c shown), booked.
  split; [done|]. split; [done|]. split; [done|]. split; [done|].
  apply selectbox_elem, elem_of_map in Hname as (w & <- & Hw).
  by exists w.
Qed.

Lemma assign_volunteer_cases (assignments_df : list Assignment.t) (e v : string) :
  assign_volunteer assignments_df (Some e) (Some v)
  = if decide (Assignment.mk (Some e) (Some v) ∈ assignments_df)
    then (assignments_df, AlreadyAssigned)
    else (assignments_df ++ [Assignment.mk (Some e) (Some v)],
          VolunteerAssigned (Some v) (Some e)).
Proof.
  destruct (decide _) as [Hin|Hnot].
  - apply (assign_volunteer_present _ _ _ _ Hin).
    unfold same_pair. simpl. by rewrite !String.eqb_refl.
  - apply assign_volunteer_absent. intros [ae av] Ha.
    apply not_true_is_false. intros Hsame. apply Hnot.
    unfold same_pair in Hsame. simpl in Hsame.
    apply andb_true_iff in Hsame as [He Hv].
    apply cell_eqb_true in He as (x & -> & [= ->]).
    apply cell_eqb_true in Hv as (y & -> & [= ->]). done.
Qed.

End assignment_more.

(** X11.  When the page "Add Assignment" reaches its button with a click,
    it does one of two things, decided by whether the selected pair is
    already a row: it refuses and leaves the table as it was, or it appends
    exactly that pair at the end.  The event written is an identifier of
    the events table and the volunteer written is the full name of a row of
    the volunteers table. *)
Theorem show_add_assignment_click :
  forall (events_df : list Event.t) (volunteers_df : list Volunteer.t)
         (assignments_df : list Assignment.t) (f : AssignForm)
         (event_id volunteer : cell),
    assignment_selection events_df volunteers_df assignments_df f
    = Ok (inr (event_id, volunteer)) ->
    assign_clicked f = true ->
    show_add_assignment events_df volunteers_df assignments_df f
    = Ok (if decide (Assignment.mk event_id volunteer ∈ assignments_df)
          then (assignments_df, AlreadyAssigned)
          else (assignments_df ++ [Assignment.mk event_id volunteer],
                VolunteerAssigned volunteer event_id))
    /\ event_id ∈ map Event.event_id events_df
    /\ volunteer ∈ map (fun w => Some (Volunteer.full_name w)) volunteers_df.
Proof.
  intros events_df volunteers_df assignments_df f event_id volunteer Hsel Hclick.
  pose proof (assignment_selection_known _ _ _ _ _ _ Hsel) as [[e ->] Hknown].
  pose proof (assignment_selection_inv _ _ _ _ _ _ Hsel)
    as (_ & _ & _ & _ & _ & _ & w & Hw & ->).
  split; [|split; [done|]].
  - unfold show_add_assignment. rewrite Hsel. cbn [mbind result_bind].
    rewrite Hclick. f_equal. apply assign_volunteer_cases.
  - apply elem_of_map. by exists w.
Qed.

Lemma show_add_assignment_click_witness :
  let events_df :=
    [Event.mk (Some "COR001") (Some "course") (Some "Hill School") (Some "Talk")
              (Some "5") 20 (Some "2025-06-02") (Some "10:00") (Some "11:00") 1] in
  let volunteers_df := [Volunteer.mk (Some "Alice") (Some "Moss") None;
                        Volunteer.mk (Some "Bob") (Some "Ray") (Some "Bobby")] in
  let assignments_df := [Assignment.mk (Some "COR001") (Some "Alice Moss")] in
  let f := {| event_pick := 0; volunteer_pick := 1; assign_clicked := true |} in
  assignment_selection events_df volunteers_df assignments_df f
  = Ok (inr (Some "COR001", Some "Bob Ray"))
  /\ show_add_assignment events_df volunteers_df assignments_df f
     = Ok (assignments_df ++ [Assignment.mk (Some "COR001") (Some "Bob Ray")],
           VolunteerAssigned (Some "Bob Ray") (Some "COR001")).
Proof.
  intros events_df volunteers_df assignments_df f.
  assert (Hsel : assignment_selection events_df volunteers_df assignments_df f
                 = Ok (inr (Some "COR001", Some "Bob Ray")))
    by (vm_compute; reflexivity).
  split; [exact Hsel|].
  destruct (show_add_assignment_click _ _ _ _ _ _ Hsel eq_refl) as [Hrun _].
  rewrite Hrun. reflexivity.
Defined.

(** X12.  The pairs of the assignments table stay pairwise distinct: if no
    two rows are equal before a run of the page "Add Assignment", no two
    rows are equal after it. *)
Theorem show_add_assignment_keeps_NoDup :
  forall (events_df : list Event.t) (volunteers_df : list Volunteer.t)
         (assignments_df assignments_df' : list Assignment.t) (f : AssignForm)
         (r : AssignReport),
    NoDup assignments_df ->
    show_add_assignment events_df volunteers_df assignments_df f
    = Ok (assignments_df', r) ->
    NoDup assignments_df'.
Proof.
  intros events_df volunteers_df assignments_df assignments_df' f r Hnd.
  unfold show_add_assignment.
  destruct (assignment_selection _ _ _ f) as [[stopped|[event_id volunteer]]|] eqn:Hsel;
    cbn [mbind result_bind]; [by intros [= <- _]| |discriminate].
  destruct (assign_clicked f); [|by intros [= <- _]].
  pose proof (assignment_selection_known _ _ _ _ _ _ Hsel) as [[e ->] _].
  pose proof (assignment_selection_inv _ _ _ _ _ _ Hsel)
    as (_ & _ & _ & _ & _ & _ & w & _ & ->).
  rewrite assign_volunteer_cases.
  destruct (decide _) as [Hin|Hnot]; intros [= <- _]; [done|].
  apply NoDup_app. split; [done|]. split; [|apply NoDup_singleton].
  intros x Hx Hx'. apply list_elem_of_singleton in Hx' as ->. done.
Qed.

Lemma show_add_assignment_keeps_NoDup_witness :
  let events_df :=
    [Event.mk (Some "COR001") (Some "course") (Some "Hill School") (Some "Talk")
              (Some "5") 20 (Some "2025-06-02") (Some "10:00") (Some "11:00") 1] in
  let volunteers_df := [Volunteer.mk (Some "Alice") (Some "Moss") None] in
  let assignments_df := [Assignment.mk (Some "GRG001") (Some "Alice Moss")] in
  let f := {| event_pick := 0; volunteer_pick := 0; assign_clicked := true |} in
  let assignments_df' :=
    assignments_df ++ [Assignment.mk (Some "COR001") (Some "Alice Moss")] in
  NoDup assignments_df
  /\ show_add_assignment events_df volunteers_df assignments_df f
     = Ok (assignments_df', VolunteerAssigned (Some "Alice Moss") (Some "COR001"))
  /\ NoDup assignments_df'.
Proof.
  intros events_df volunteers_df assignments_df f assignments_df'.
  assert (Hnd : NoDup assignments_df) by apply NoDup_singleton.
  assert (Hrun : show_add_assignment events_df volunteers_df assignments_df f
                 = Ok (assignments_df',
                       VolunteerAssigned (Some "Alice Moss") (Some "COR001")))
    by (vm_compute; reflexivity).
  split; [exact Hnd|]. split; [exact Hrun|].
  exact (show_add_assignment_keeps_NoDup _ _ _ _ _ _ Hnd Hrun).
Defined.

(** X13.  The identifier the page works with is the one of the event that
    was picked, as long as every event shown under the same text carries
    the same identifier (the lookup goes through the text shown, and of two
    events with the same text the later one wins). *)
Theorem assignment_selection_picked_event :
  forall (events_df : list Event.t) (volunteers_df : list Volunteer.t)
         (assignments_df : list Assignment.t) (f : AssignForm)
         (picked : Event.t) (event_id volunteer : cell),
    events_df !! event_pick f = Some picked ->
    (forall e, e ∈ events_df -> event_display e = event_display picked ->
               Event.event_id e = Event.event_id picked) ->
    assignment_selection events_df volunteers_df assignments_df f
    = Ok (inr (event_id, volunteer)) ->
    event_id = Event.event_id picked.
Proof.
  intros events_df volunteers_df assignments_df f picked event_id volunteer
         Hpick Hsame Hsel.
  apply assignment_selection_inv in Hsel as (shown & _ & Hshown & Hid & _).
  rewrite (selectbox_lookup _ _ (event_display picked)) in Hshown
    by (by rewrite list_lookup_fmap, Hpick).
  injection Hshown as <-.
  apply display_to_id_origin in Hid as (e & He & Hd & <-). by apply Hsame.
Qed.

Lemma assignment_selection_picked_event_witness :
  let e1 := Event.mk (Some "COR001") (Some "course") (Some "Hill School") (Some "Talk")
                     (Some "5") 20 (Some "2025-06-02") (Some "10:00") (Some "11:00") 1 in
  let e2 := Event.mk (Some "GRG001") (Some "grg") None (Some "GRG Session")
                     None 0 (Some "2025-06-02") (Some "10:00") (Some "11:00") 2 in
  let volunteers_df := [Volunteer.mk (Some "Alice") (Some "Moss") None] in
  let f := {| event_pick := 1; volunteer_pick := 0; assign_clicked := false |} in
  assignment_selection [e1; e2] volunteers_df [] f
  = Ok (inr (Some "GRG001", Some "Alice Moss"))
  /\ Some "GRG001" = Event.event_id e2.
Proof.
  intros e1 e2 volunteers_df f.
  assert (Hsel : assignment_selection [e1; e2] volunteers_df [] f
                 = Ok (inr (Some "GRG001", Some "Alice Moss")))
    by (vm_compute; reflexivity).
  split; [exact Hsel|].
  apply (assignment_selection_picked_event [e1; e2] volunteers_df [] f e2
                                           (Some "GRG001") (Some "Alice Moss"));
    [reflexivity| |exact Hsel].
  intros e He Hd. apply elem_of_cons in He as [->|He].
  - vm_compute in Hd. discriminate.
  - by apply list_elem_of_singleton in He as ->.
Defined.

Section assignment_twice.

Lemma join_names_all_texts (names : list cell) :
  Forall (fun n => n <> None) names <-> exists booked, join_names names = Ok booked.
Proof.
  split.
  - induction 1 as [|n names Hn _ [s IH]]; simpl; [by eexists|].
    destruct n as [x|]; [|done]. rewrite IH. simpl. by eexists.
  - induction names as [|n names IH]; simpl; intros [booked Hb]; [constructor|].
    destruct n as [x|]; [|discriminate].
    destruct (join_names names) as [tail|]; [|discriminate].
    constructor; [done|]. apply IH. by eexists.
Qed.

(** The selection looks at the assignments only to write the names booked
    for the event. *)
Lemma assignment_selection_other_table (events_df : list Event.t)
    (volunteers_df : list Volunteer.t) (assignments_df assignments_df' : list Assignment.t)
    (f : AssignForm) (event_id volunteer : cell) :
  assignment_selection events_df volunteers_df assignments_df f
  = Ok (inr (event_id, volunteer)) ->
  Forall (fun a => cell_eqb (Assignment.event_id a) event_id = true ->
                   Assignment.volunteer a <> None) assignments_df' ->
  assignment_selection events_df volunteers_df assignments_df' f
  = Ok (inr (event_id, volunteer)).
Proof.
  unfold assignment_selection.
  destruct events_df as [|e0 events']; [discriminate|].
  destruct volunteers_df as [|v0 volunteers']; [discriminate|].
  destruct (selectbox _ (event_pick f)) as [[|c shown]|]; try discriminate.
  destruct (display_to_id _ !! _) as [i|]; [cbn [mbind result_bind]|discriminate].
  destruct (iloc _ 0) as [event_info|]; [cbn [mbind result_bind]|discriminate].
  destruct (join_names _) as [booked|]; [cbn [mbind result_bind]|discriminate].
  intros [= -> <-] Hall.
  assert (Hjoin : exists booked',
             join_names (map Assignment.volunteer
                           (List.filter (fun a => cell_eqb (Assignment.event_id a) event_id)
                                        assignments_df')) = Ok booked').
  { apply join_names_all_texts, Forall_forall. intros n Hn.
    apply elem_of_map in Hn as (a & <- & Ha).
    apply elem_of_List_filter in Ha as [Ha Hid].
    rewrite Forall_forall in Hall. by apply Hall. }
  destruct Hjoin as [booked' Hjoin]. unfold cell in *. by rewrite Hjoin.
Qed.

Lemma assignment_selection_texts (events_df : list Event.t)
    (volunteers_df : list Volunteer.t) (assignments_df : list Assignment.t)
    (f : AssignForm) (event_id volunteer : cell) :
  assignment_selection events_df volunteers_df assignments_df f
  = Ok (inr (event_id, volunteer)) ->
  Forall (fun a => cell_eqb (Assignment.event_id a) event_id = true ->
                   Assignment.volunteer a <> None) assignments_df.
Proof.
  intros Hsel. apply assignment_selection_inv in Hsel as (_ & booked & _ & _ & Hjoin & _).
  assert (Hall : Forall (fun n => n <> None)
                   (map Assignment.volunteer
                      (List.filter (fun a => cell_eqb (Assignment.event_id a) event_id)
                                   assignments_df)))
    by (apply join_names_all_texts; by exists booked).
  apply Forall_forall. intros a Ha Hid.
  rewrite Forall_forall in Hall. apply Hall.
  apply elem_of_map. exists a. split; [done|]. by apply elem_of_List_filter.
Qed.

Lemma resolve_volunteer_text (m : gmap string string) (raw : cell) :
  raw <> None -> resolve_volunteer m raw <> None.
Proof.
  destruct raw as [r|]; [intros _|done]. unfold resolve_volunteer.
  by destruct (m !! Py.strip r).
Qed.

Lemma resolve_saved_snoc (volunteers_df : list Volunteer.t)
    (assignments_df : list Assignment.t) (event_id : cell) (v : string) :
  resolve_saved volunteers_df (assignments_df ++ [Assignment.mk event_id (Some v)])
  = Ok (resolve_assignments volunteers_df assignments_df
        ++ [Assignment.mk event_id
                          (resolve_volunteer (name_map volunteers_df) (Some v))]).
Proof.
  unfold resolve_saved.
  destruct (assignments_df ++ [Assignment.mk event_id (Some v)]) as [|a l] eqn:Hl;
    [by destruct assignments_df|].
  rewrite <- Hl. rewrite forallb_app. cbn [forallb Assignment.volunteer is_missing].
  rewrite andb_false_r. unfold resolve_assignments. by rewrite map_app.
Qed.
End assignment_twice.

(** X14.  A second click does nothing, as long as the full name of the
    volunteer picked resolves to itself: after a run of the script that
    assigned a volunteer, the next run, which reads the file again and
    rewrites its names before the page looks for the pair, refuses the same
    form as already assigned and leaves the file as the first run wrote
    it.  (When the full name is the alias of another volunteer the second
    run looks for the pair under that other name and assigns again, see
    [second_click_alias_collision].) *)
Theorem run_add_assignment_twice :
  forall (events_df : list Event.t) (volunteers_df : list Volunteer.t)
         (saved saved' : list Assignment.t) (f : AssignForm)
         (event_id volunteer : cell),
    run_add_assignment events_df volunteers_df saved f
    = (saved', Ok (VolunteerAssigned volunteer event_id)) ->
    resolve_volunteer (name_map volunteers_df) volunteer = volunteer ->
    run_add_assignment events_df volunteers_df saved' f = (saved', Ok AlreadyAssigned).
Proof.
  intros events_df volunteers_df saved saved' f event_id volunteer Hrun Hself.
  unfold run_add_assignment in Hrun.
  destruct (resolve_saved volunteers_df saved) as [assignments_df|e];
    cbn [mbind result_bind] in Hrun; [|discriminate].
  destruct (show_add_assignment events_df volunteers_df assignments_df f)
    as [[assignments_df' r]|e] eqn:Hpage; [|discriminate].
  destruct r; try discriminate. injection Hrun as -> -> ->.
  apply show_add_assignment_assigned in Hpage as (Hsel & Hclick & ->).
  pose proof (assignment_selection_known _ _ _ _ _ _ Hsel) as [[e ->] _].
  pose proof (assignment_selection_inv _ _ _ _ _ _ Hsel)
    as (_ & _ & _ & _ & _ & _ & w & _ & ->).
  pose proof (assignment_selection_texts _ _ _ _ _ _ Hsel) as Htexts.
  unfold run_add_assignment. rewrite resolve_saved_snoc, Hself.
  cbn [mbind result_bind]. unfold show_add_assignment.
  rewrite (assignment_selection_other_table _ _ _ _ _ _ _ Hsel).
  - cbn [mbind result_bind]. rewrite Hclick, assign_volunteer_cases.
    rewrite decide_True by (apply elem_of_app; right; left). reflexivity.
  - apply Forall_app. split; [|by repeat constructor].
    apply Forall_forall. intros a Ha Hid.
    apply elem_of_map in Ha as (a0 & <- & Ha0). cbn [Assignment.volunteer].
    apply resolve_volunteer_text.
    rewrite Forall_forall in Htexts. by apply Htexts.
Qed.

Lemma run_add_assignment_twice_witness :
  let events_df :=
    [Event.mk (Some "COR001") (Some "course") (Some "Hill School") (Some "Talk")
              (Some "5") 20 (Some "2025-06-02") (Some "10:00") (Some "11:00") 1] in
  let volunteers_df := [Volunteer.mk (Some "Alice") (Some "Moss") (Some "Ali");
                        Volunteer.mk (Some "Bob") (Some "Ray") None] in
  let f := {| event_pick := 0; volunteer_pick := 0; assign_clicked := true |} in
  let saved := [Assignment.mk (Some "GRG001") (Some " Ali ")] in
  let saved' := [Assignment.mk (Some "GRG001") (Some "Alice Moss");
                 Assignment.mk (Some "COR001") (Some "Alice Moss")] in
  run_add_assignment events_df volunteers_df saved f
  = (saved', Ok (VolunteerAssigned (Some "Alice Moss") (Some "COR001")))
  /\ resolve_volunteer (name_map volunteers_df) (Some "Alice Moss") = Some "Alice Moss"
  /\ run_add_assignment events_df volunteers_df saved' f = (saved', Ok AlreadyAssigned).
Proof.
  intros events_df volunteers_df f saved saved'.
  assert (Hrun : run_add_assignment events_df volunteers_df saved f
                 = (saved', Ok (VolunteerAssigned (Some "Alice Moss") (Some "COR001"))))
    by (vm_compute; reflexivity).
  assert (Hself : resolve_volunteer (name_map volunteers_df) (Some "Alice Moss")
                  = Some "Alice Moss")
    by (vm_compute; reflexivity).
  split; [exact Hrun|]. split; [exact Hself|].
  exact (run_add_assignment_twice _ _ _ _ _ _ _ Hrun Hself).
Defined.

(** Without that condition the second click assigns again: the full name
    "Al Brown" is also the alias of Bo Clark, so the second run reads the
    row written by the first one as a row of Bo Clark. *)
Example second_click_alias_collision :
  let events_df :=
    [Event.mk (Some "COR001") (Some "course") (Some "Hill School") (Some "Talk")
              (Some "5") 20 (Some "2025-06-02") (Some "10:00") (Some "11:00") 1] in
  let volunteers_df := [Volunteer.mk (Some "Al") (Some "Brown") None;
                        Volunteer.mk (Some "Bo") (Some "Clark") (Some "Al Brown")] in
  let f := {| event_pick := 0; volunteer_pick := 0; assign_clicked := true |} in
  let first := [Assignment.mk (Some "COR001") (Some "Al Brown")] in
  let second := [Assignment.mk (Some "COR001") (Some "Bo Clark");
                 Assignment.mk (Some "COR001") (Some "Al Brown")] in
  run_add_assignment events_df volunteers_df [] f
  = (first, Ok (VolunteerAssigned (Some "Al Brown") (Some "COR001")))
  /\ run_add_assignment events_df volunteers_df first f
     = (second, Ok (VolunteerAssigned (Some "Al Brown") (Some "COR001"))).
Proof. split; vm_compute; reflexivity. Qed.

(** ** Volunteer names *)

Section name_map_more.

Lemma name_map_fold_last (volunteers_df : list Volunteer.t) (k : string) :
  forall m : gmap string string,
    fold_left name_map_step volunteers_df m !! k
    = match last (List.filter (fun v => String.eqb (name_key v) k) volunteers_df) with
      | Some v => Some (Volunteer.full_name v)
      | None => m !! k
      end.
Proof.
  induction volunteers_df as [|v vs IH]; intros m; [reflexivity|].
  cbn [fold_left List.filter]. rewrite IH. unfold name_map_step.
  destruct (String.eqb_spec (name_key v) k) as [Heq|Hne].
  - rewrite last_cons. destruct (last _); [reflexivity|].
    by rewrite Heq, lookup_insert_eq.
  - destruct (last _); [reflexivity|]. by rewrite lookup_insert_ne.
Qed.

Lemma lstrip_spaces (ws : string) :
  Py.str_all Py.isspace_char ws = true -> Py.lstrip ws = EmptyString.
Proof.
  induction ws as [|c ws IH]; [reflexivity|]. simpl.
  intros [Hc Hws]%andb_true_iff. rewrite Hc. by apply IH.
Qed.

Lemma rstrip_spaces (ws : string) :
  Py.str_all Py.isspace_char ws = true -> Py.rstrip ws = EmptyString.
Proof.
  induction ws as [|c ws IH]; [reflexivity|]. simpl.
  intros [Hc Hws]%andb_true_iff. by rewrite (IH Hws), Hc.
Qed.

Lemma lstrip_append_spaces (pre s : string) :
  Py.str_all Py.isspace_char pre = true -> Py.lstrip (pre +:+ s) = Py.lstrip s.
Proof.
  induction pre as [|c pre IH]; [reflexivity|]. rewrite append_cons. simpl.
  intros [Hc Hpre]%andb_true_iff. rewrite Hc. by apply IH.
Qed.

Lemma rstrip_append_spaces (s post : string) :
  Py.str_all Py.isspace_char post = true -> Py.rstrip (s +:+ post) = Py.rstrip s.
Proof.
  intros Hpost. induction s as [|c s IH]; [by apply rstrip_spaces|].
  rewrite append_cons. simpl. by rewrite IH.
Qed.

Lemma lstrip_append (s post : string) :
  Py.lstrip (s +:+ post)
  = if Py.str_all Py.isspace_char s then Py.lstrip post else Py.lstrip s +:+ post.
Proof.
  induction s as [|c s IH]; [reflexivity|]. rewrite append_cons. simpl.
  destruct (Py.isspace_char c); simpl; [exact IH | by rewrite append_cons].
Qed.

(** Blanks around a text do not change what [strip] gives. *)
Lemma strip_padded (pre s post : string) :
  Py.str_all Py.isspace_char pre = true ->
  Py.str_all Py.isspace_char post = true ->
  Py.strip (pre +:+ s +:+ post) = Py.strip s.
Proof.
  intros Hpre Hpost. unfold Py.strip.
  rewrite lstrip_append_spaces by done. rewrite lstrip_append.
  destruct (Py.str_all Py.isspace_char s) eqn:Hs.
  - by rewrite (lstrip_spaces post), (lstrip_spaces s).
  - by apply rstrip_append_spaces.
Qed.
End name_map_more.

(** X15.  The lookup table of the names holds, under each key, the full
    name of the last row of the volunteers table that has this key (its
    alias, or its full name when the alias is blank), and nothing under a
    key that no row has. *)
Theorem name_map_last_row :
  forall (volunteers_df : list Volunteer.t) (k : string),
    name_map volunteers_df !! k
    = Volunteer.full_name
        <$> last (List.filter (fun v => String.eqb (name_key v) k) volunteers_df).
Proof.
  intros volunteers_df k. unfold name_map. rewrite name_map_fold_last.
  destruct (last _); [reflexivity | apply lookup_empty].
Qed.

(** X16.  Name resolution never invents a name: a missing cell stays
    missing, and a text resolves either to itself or to the full name of a
    row of the volunteers table whose key is the stripped text. *)
Theorem resolve_volunteer_raw_or_full_name :
  forall (volunteers_df : list Volunteer.t) (raw : cell),
    match raw, resolve_volunteer (name_map volunteers_df) raw with
    | None, r => r = None
    | Some x, Some r =>
        r = x
        \/ exists w, w ∈ volunteers_df
                     /\ name_key w = Py.strip x /\ r = Volunteer.full_name w
    | Some _, None => False
    end.
Proof.
  intros volunteers_df [x|]; [|reflexivity]. unfold resolve_volunteer.
  destruct (name_map volunteers_df !! Py.strip x) as [full|] eqn:Hfull; [|by left].
  right. apply name_map_origin in Hfull as (w & Hw & Hk & <-). by exists w.
Qed.

(** X17.  Blanks around the first or the last name of a row of the
    volunteers file do not reach the full name: the two parts are stripped
    before they are joined by one space. *)
Theorem full_name_ignores_outer_blanks :
  forall (first last pre1 post1 pre2 post2 : string) (alias : cell),
    Py.str_all Py.isspace_char pre1 = true ->
    Py.str_all Py.isspace_char post1 = true ->
    Py.str_all Py.isspace_char pre2 = true ->
    Py.str_all Py.isspace_char post2 = true ->
    Volunteer.full_name
      (Volunteer.mk (Some (pre1 +:+ first +:+ post1))
                    (Some (pre2 +:+ last +:+ post2)) alias)
    = Py.strip first +:+ " " +:+ Py.strip last.
Proof.
  intros first last pre1 post1 pre2 post2 alias H1 H2 H3 H4.
  unfold Volunteer.full_name. cbn [Volunteer.first_name Volunteer.last_name fillna_empty].
  by rewrite !strip_padded.
Qed.

Lemma full_name_ignores_outer_blanks_witness :
  Volunteer.full_name (Volunteer.mk (Some ("  " +:+ "Ann Marie" +:+ " "))
                                    (Some ("" +:+ "Lee" +:+ "   ")) None)
  = Py.strip "Ann Marie" +:+ " " +:+ Py.strip "Lee".
Proof.
  exact (full_name_ignores_outer_blanks "Ann Marie" "Lee" "  " " " "" "   " None
                                        eq_refl eq_refl eq_refl eq_refl).
Defined.

(** ** Dashboard *)

Section dashboard_more.

Lemma List_filter_sublist {A} (p : A -> bool) (l : list A) :
  List.filter p l `sublist_of` l.
Proof.
  induction l as [|x l IH]; simpl; [constructor|].
  destruct (p x); by constructor.
Qed.

Lemma flat_map_nil_inv {A B} (f : A -> list B) (l : list A) (x : A) :
  flat_map f l = [] -> x ∈ l -> f x = [].
Proof.
  induction l as [|y l IH]; simpl; intros Hnil Hx; [by apply elem_of_nil in Hx|].
  apply app_eq_nil in Hnil as [Hy Hl].
  apply elem_of_cons in Hx as [->|Hx]; [done | by apply IH].
Qed.

Lemma start_order_Some_r (x y : Entry.t) (sy : Z) :
  start_order x y -> Entry.datetime_start y = Some sy ->
  exists sx, Entry.datetime_start x = Some sx /\ (sx <= sy)%Z.
Proof.
  unfold start_order. intros Hxy Hy. rewrite Hy in Hxy.
  destruct (Entry.datetime_start x) as [sx|]; [by exists sx | done].
Qed.

(** In a table sorted by start in which no row ends after the next one
    starts, no row overlaps any later row. *)
Lemma sorted_no_overlap (l : list Entry.t) :
  StronglySorted start_order l -> no_adjacent_overlap l ->
  forall i j a b, (i < j)%nat -> l !! i = Some a -> l !! j = Some b ->
                  ~ intervals_overlap a b.
Proof.
  unfold no_adjacent_overlap.
  induction 1 as [|x l Hsorted IH Hx]; intros Hno i j a b Hij Ha Hb; [done|].
  destruct l as [|y l']; [destruct j as [|j]; [lia | by simpl in Hb]|].
  cbn [adjacent_pairs List.filter fst snd] in Hno.
  rewrite <- ts_gtb_ends_after_start in Hno.
  destruct (ts_gtb (Entry.datetime_end x) (Entry.datetime_start y)) eqn:Hxy;
    [discriminate|].
  destruct i as [|i].
  - injection Ha as <-. destruct j as [|j]; [lia|]. simpl in Hb.
    intros (sa & ea & sb & eb & Hsa & Hea & Hsb & Heb & _ & Hlt).
    assert (Hyb : exists sy, Entry.datetime_start y = Some sy /\ (sy <= sb)%Z).
    { destruct j as [|j].
      - injection Hb as <-. exists sb. split; [done | lia].
      - apply StronglySorted_inv in Hsorted as [_ Hy].
        rewrite Forall_forall in Hy.
        apply (start_order_Some_r y b sb); [|done].
        apply Hy. by eapply list_elem_of_lookup_2. }
    destruct Hyb as (sy & Hsy & Hle).
    rewrite Hea, Hsy in Hxy. simpl in Hxy. apply Z.ltb_ge in Hxy. lia.
  - destruct j as [|j]; [lia|]. simpl in Ha, Hb.
    apply (IH Hno i j a b); [lia | done | done].
Qed.

Lemma intervals_overlap_sym (a b : Entry.t) :
  intervals_overlap a b -> intervals_overlap b a.
Proof.
  intros (sa & ea & sb & eb & ? & ? & ? & ? & ? & ?).
  exists sb, eb, sa, ea. done.
Qed.

Lemma adjacent_pairs_split {A} (l : list A) (x y : A) :
  (x, y) ∈ adjacent_pairs l -> exists l1 l2, l = l1 ++ x :: y :: l2.
Proof.
  induction l as [|z l IH]; [intros H; by apply elem_of_nil in H|].
  destruct l as [|z' l']; [intros H; by apply elem_of_nil in H|].
  cbn [adjacent_pairs]. intros [[= -> ->]|Hin]%elem_of_cons.
  - by exists [], l'.
  - destruct (IH Hin) as (l1 & l2 & ->). by exists (z :: l1), l2.
Qed.

Lemma sorted_adjacent (l : list Entry.t) (x y : Entry.t) :
  StronglySorted start_order l -> (x, y) ∈ adjacent_pairs l -> start_order x y.
Proof.
  intros Hs Hin. apply adjacent_pairs_split in Hin as (l1 & l2 & ->).
  apply StronglySorted_app in Hs as (_ & _ & Hs).
  apply StronglySorted_inv in Hs as [_ Hx]. rewrite Forall_forall in Hx.
  apply Hx. left.
Qed.

Lemma elem_of_adjacent_pairs {A} (l : list A) (x y : A) :
  (x, y) ∈ adjacent_pairs l -> x ∈ l /\ y ∈ l.
Proof.
  intros Hin. apply adjacent_pairs_split in Hin as (l1 & l2 & ->).
  split; apply elem_of_app; right; [left | right; left].
Qed.

Lemma elem_of_volunteer_rows (filtered_df : list Entry.t) (name : cell) (e : Entry.t) :
  e ∈ sort_values_by_start
        (List.filter (fun e => cell_eqb (Entry.volunteer e) name) filtered_df)
  <-> e ∈ filtered_df /\ cell_eqb (Entry.volunteer e) name = true.
Proof. by rewrite sort_values_by_start_Permutation, elem_of_List_filter. Qed.
End dashboard_more.

(** X18.  The three filters of the side bar act as one test on each row:
    the filtered table is made of the rows of the joined table that pass
    it, in their order, and filtering a second time changes nothing. *)
Theorem apply_filters_rows :
  forall (merged_df : list Entry.t) (w : DashboardInput),
    apply_filters merged_df w = List.filter (passes_filters w) merged_df
    /\ apply_filters merged_df w `sublist_of` merged_df
    /\ apply_filters (apply_filters merged_df w) w = apply_filters merged_df w.
Proof.
  intros merged_df w. split; [apply apply_filters_filter|]. split.
  - rewrite apply_filters_filter. apply List_filter_sublist.
  - rewrite !apply_filters_filter, filter_filter.
    apply List_filter_ext. intros x. by destruct (passes_filters w x).
Qed.

(** X19.  With one volunteer selected in the side bar, the checker never
    reports an overbooked slot: every group then holds at most that one
    volunteer, so only overlap conflicts can be shown. *)
Theorem volunteer_filter_hides_overbooking :
  forall (merged_df : list Entry.t) (w : DashboardInput),
    selected_volunteer w <> "All" ->
    capacity_conflicts (apply_filters merged_df w) = []
    /\ find_conflicts (apply_filters merged_df w)
       = Ok (spec_overlap_conflicts (apply_filters merged_df w)).
Proof.
  intros merged_df w Hsel.
  assert (Hcap : capacity_conflicts (apply_filters merged_df w) = []).
  { apply (capacity_conflicts_one_volunteer _ (Some (selected_volunteer w))).
    apply Forall_forall. intros e He.
    rewrite apply_filters_filter in He. apply elem_of_List_filter in He as [_ He].
    unfold passes_filters in He.
    apply andb_true_iff in He as [[He _]%andb_true_iff _].
    apply String.eqb_neq in Hsel. rewrite Hsel in He. simpl in He.
    by apply cell_eqb_true in He as (x & -> & [= ->]). }
  split; [done|]. by rewrite find_conflicts_spec, Hcap, app_nil_r.
Qed.

Lemma volunteer_filter_hides_overbooking_witness :
  let start := Some ((20241 * 1440 + 10 * 60) * 60000000000)%Z in
  let stop := Some ((20241 * 1440 + 11 * 60) * 60000000000)%Z in
  let row v := Entry.mk (Some "GRG001") (Some v) (Some "grg") (Some "2025-06-02")
                        (Some "10:00") (Some "11:00") start stop in
  let merged_df := [row "Ann Lee"; row "Ben Ode"; row "Cy Park"] in
  let w v := {| selected_volunteer := v;
                selected_type := ["grg"];
                start_date := 20241;
                end_date := 20241 |} in
  show_dashboard merged_df (w "All")
  = Ok (Some (Warnings [Overbooked "GRG001" "2025-06-02" 3]))
  /\ selected_volunteer (w "Ann Lee") <> "All"
  /\ capacity_conflicts (apply_filters merged_df (w "Ann Lee")) = []
  /\ show_dashboard merged_df (w "Ann Lee") = Ok (Some NoConflictsFound).
Proof.
  intros start stop row merged_df w.
  assert (Hsel : selected_volunteer (w "Ann Lee") <> "All") by discriminate.
  destruct (volunteer_filter_hides_overbooking merged_df (w "Ann Lee") Hsel)
    as [Hcap _].
  split; [vm_compute; reflexivity|]. split; [exact Hsel|].
  split; [exact Hcap | vm_compute; reflexivity].
Defined.

(** X20.  When the checker emits no overlap conflict, there is none: no two
    different rows of the table that belong to the same volunteer have time
    intervals with a moment in common.  (With more than two entries the
    checker can miss some overlapping pairs, but never all of them.) *)
Theorem no_overlap_conflict_means_no_overlap :
  forall (filtered_df : list Entry.t) (a b : Entry.t) (name : string),
    overlap_conflicts filtered_df = Ok [] ->
    a ∈ filtered_df -> b ∈ filtered_df -> a <> b ->
    Entry.volunteer a = Some name -> Entry.volunteer b = Some name ->
    ~ intervals_overlap a b.
Proof.
  intros filtered_df a b name Hnone Ha Hb Hab Hva Hvb.
  rewrite overlap_conflicts_spec in Hnone. injection Hnone as Hnone.
  assert (Hname : spec_volunteer_overlaps filtered_df (Some name) = []).
  { apply (flat_map_nil_inv _ _ _ Hnone).
    apply elem_of_unique, elem_of_map. by exists a. }
  unfold spec_volunteer_overlaps, pair_messages in Hname.
  apply map_eq_nil in Hname.
  set (rows := sort_values_by_start
                 (List.filter (fun e => cell_eqb (Entry.volunteer e) (Some name))
                              filtered_df)) in *.
  assert (Hsorted : StronglySorted start_order rows)
    by apply sort_values_by_start_sorted.
  assert (Has : a ∈ rows).
  { apply elem_of_volunteer_rows. split; [done|].
    rewrite Hva. simpl. apply String.eqb_refl. }
  assert (Hbs : b ∈ rows).
  { apply elem_of_volunteer_rows. split; [done|].
    rewrite Hvb. simpl. apply String.eqb_refl. }
  apply list_elem_of_lookup in Has as [i Hi].
  apply list_elem_of_lookup in Hbs as [j Hj].
  destruct (Nat.lt_trichotomy i j) as [Hlt|[Heq|Hgt]].
  - by apply (sorted_no_overlap rows Hsorted Hname i j).
  - subst j. congruence.
  - intros Hov. apply intervals_overlap_sym in Hov.
    by apply (sorted_no_overlap rows Hsorted Hname j i b a).
Qed.

Lemma no_overlap_conflict_means_no_overlap_witness :
  let at_ (h : Z) := Some ((20241 * 1440 + h * 60) * 60000000000)%Z in
  let a := Entry.mk (Some "COR001") (Some "Bob") (Some "course") (Some "2025-06-02")
                    (Some "09:00") (Some "10:00") (at_ 9%Z) (at_ 10%Z) in
  let b := Entry.mk (Some "GUI001") (Some "Bob") (Some "guiding") (Some "2025-06-02")
                    (Some "10:00") (Some "12:00") (at_ 10%Z) (at_ 12%Z) in
  overlap_conflicts [b; a] = Ok [] /\ ~ intervals_overlap a b.
Proof.
  intros at_ a b.
  assert (Hnone : overlap_conflicts [b; a] = Ok []) by (vm_compute; reflexivity).
  split; [exact Hnone|].
  apply (no_overlap_conflict_means_no_overlap [b; a] a b "Bob" Hnone);
    [right; left | left | discriminate | reflexivity | reflexivity].
Defined.

(** X21.  Every overlap conflict that the checker emits is a real one: it
    comes from two rows of the table that belong to the volunteer named,
    and the second of them starts no earlier than the first one starts and
    strictly before the first one ends. *)
Theorem overlap_conflict_is_real :
  forall (filtered_df : list Entry.t) (conflicts : list Conflict)
         (name date start_prev start_curr type_prev type_curr : cell),
    find_conflicts filtered_df = Ok conflicts ->
    Overlap name date start_prev start_curr type_prev type_curr ∈ conflicts ->
    exists (prev curr : Entry.t) (volunteer : string) (sp ep sc : Z),
      prev ∈ filtered_df /\ curr ∈ filtered_df
      /\ name = Some volunteer
      /\ Entry.volunteer prev = Some volunteer
      /\ Entry.volunteer curr = Some volunteer
      /\ Overlap name date start_prev start_curr type_prev type_curr
         = overlap_message name prev curr
      /\ Entry.datetime_start prev = Some sp
      /\ Entry.datetime_end prev = Some ep
      /\ Entry.datetime_start curr = Some sc
      /\ (sp <= sc < ep)%Z.
Proof.
  intros filtered_df conflicts name date start_prev start_curr type_prev type_curr
         Hfind Hin.
  rewrite find_conflicts_spec in Hfind. injection Hfind as <-.
  apply elem_of_app in Hin as [Hin|Hin];
    [|apply elem_of_capacity_conflicts in Hin as (? & ? & [=] & _)].
  unfold spec_overlap_conflicts in Hin.
  apply list_elem_of_In, in_flat_map in Hin as (nm & _ & Hin).
  apply list_elem_of_In in Hin. unfold spec_volunteer_overlaps, pair_messages in Hin.
  apply elem_of_map in Hin as ([prev curr] & Hmsg & Hpair).
  apply elem_of_List_filter in Hpair as [Hpair Hgt]. cbn [fst snd] in Hmsg, Hgt.
  rewrite <- ts_gtb_ends_after_start in Hgt.
  assert (nm = name) as -> by (unfold overlap_message in Hmsg; congruence).
  pose proof (sorted_adjacent _ _ _ (sort_values_by_start_sorted _) Hpair) as Horder.
  apply elem_of_adjacent_pairs in Hpair as [Hprev Hcurr].
  apply elem_of_volunteer_rows in Hprev as [Hprev Hvp].
  apply elem_of_volunteer_rows in Hcurr as [Hcurr Hvc].
  apply cell_eqb_true in Hvp as (v & Hvp & ->).
  apply cell_eqb_true in Hvc as (v' & Hvc & [= <-]).
  unfold ts_gtb in Hgt.
  destruct (Entry.datetime_end prev) as [ep|] eqn:Hep; [|discriminate].
  destruct (Entry.datetime_start curr) as [sc|] eqn:Hsc; [|discriminate].
  apply Z.ltb_lt in Hgt.
  destruct (start_order_Some_r prev curr sc Horder Hsc) as (sp & Hsp & Hle).
  exists prev, curr, v, sp, ep, sc. repeat split; done.
Qed.

Lemma overlap_conflict_is_real_witness :
  let at_ (h m : Z) := Some ((20241 * 1440 + h * 60 + m) * 60000000000)%Z in
  let a := Entry.mk (Some "COR001") (Some "Bob") (Some "course") (Some "2025-06-02")
                    (Some "10:00") (Some "11:00") (at_ 10 0)%Z (at_ 11 0)%Z in
  let b := Entry.mk (Some "GUI001") (Some "Bob") (Some "guiding") (Some "2025-06-02")
                    (Some "10:30") (Some "11:30") (at_ 10 30)%Z (at_ 11 30)%Z in
  let message := Overlap (Some "Bob") (Some "2025-06-02") (Some "10:00") (Some "10:30")
                         (Some "course") (Some "guiding") in
  find_conflicts [b; a] = Ok [message]
  /\ exists (prev curr : Entry.t) (volunteer : string) (sp ep sc : Z),
       prev ∈ [b; a] /\ curr ∈ [b; a]
       /\ Some "Bob" = Some volunteer
       /\ Entry.volunteer prev = Some volunteer
       /\ Entry.volunteer curr = Some volunteer
       /\ message = overlap_message (Some "Bob") prev curr
       /\ Entry.datetime_start prev = Some sp
       /\ Entry.datetime_end prev = Some ep
       /\ Entry.datetime_start curr = Some sc
       /\ (sp <= sc < ep)%Z.
Proof.
  intros at_ a b message.
  assert (Hfind : find_conflicts [b; a] = Ok [message]) by (vm_compute; reflexivity).
  split; [exact Hfind|].
  apply (overlap_conflict_is_real [b; a] [message] _ _ _ _ _ _ Hfind). left.
Defined.

(** ** Page "Event Details" *)

Section details_more.

Lemma split_head_id (i rest : string) :
  no_space i = true -> split_head " - " (i +:+ " - " +:+ rest) = i.
Proof.
  unfold no_space. induction i as [|c i IH]; intros Hi; [reflexivity|].
  simpl in Hi. apply andb_true_iff in Hi as [Hc Hi].
  rewrite append_cons. cbn [split_head Py.startswith].
  apply negb_true_iff in Hc. rewrite Ascii.eqb_sym in Hc. rewrite Hc.
  cbn [andb]. by rewrite IH.
Qed.

Lemma lookup_map {A B} (f : A -> B) (l : list A) (i : nat) :
  map f l !! i = f <$> l !! i.
Proof.
  revert i. induction l as [|x l IH]; intros [|i]; simpl; try reflexivity. apply IH.
Qed.

(** With identifiers that are all different, the look-up of an event by
    its identifier finds this event alone. *)
Lemma filter_event_id_unique (events_df : list Event.t) (e : Event.t) (i : string) :
  NoDup (map Event.event_id events_df) ->
  e ∈ events_df -> Event.event_id e = Some i ->
  List.filter (fun x => cell_eqb (Event.event_id x) (Some i)) events_df = [e].
Proof.
  induction events_df as [|x l IH]; intros Hnd He Hi; [by apply elem_of_nil in He|].
  simpl in Hnd. apply NoDup_cons in Hnd as [Hx Hnd]. simpl.
  apply elem_of_cons in He as [<-|He].
  - rewrite Hi. simpl. rewrite String.eqb_refl. f_equal.
    apply List_filter_nil. intros y Hy.
    destruct (cell_eqb (Event.event_id y) (Some i)) eqn:Hy'; [|done].
    apply cell_eqb_true in Hy' as (s & Hy' & [= <-]).
    exfalso. apply Hx. apply elem_of_map. exists y. by rewrite Hy', Hi.
  - destruct (cell_eqb (Event.event_id x) (Some i)) eqn:Hx'; [|by apply IH].
    apply cell_eqb_true in Hx' as (s & Hx' & [= <-]).
    exfalso. apply Hx. apply elem_of_map. exists e. by rewrite Hx', Hi.
Qed.

Lemma join_names_Ok (names : list cell) :
  Forall (fun n => n <> None) names -> exists s, join_names names = Ok s.
Proof.
  induction 1 as [|n names Hn _ [s IH]]; simpl; [by eexists|].
  destruct n as [x|]; [|done]. rewrite IH. simpl. by eexists.
Qed.

End details_more.

(** X22.  Whatever the details page shows is consistent: the event shown is
    a row of the events table whose identifier is the text in front of the
    first " - " of the option picked, the number assigned is the number of
    assignment rows of that event, the number still required is
    max(required - assigned, 0), and "No volunteers booked yet." is written
    exactly when that number assigned is 0. *)
Theorem show_event_details_shown :
  forall (events_df : list Event.t) (assignments_df : list Assignment.t) (pick : nat)
         (event : Event.t) (booked : BookedText) (assigned_count still : Z),
    show_event_details events_df assignments_df pick
    = EventDetails event booked assigned_count still ->
    exists selected_event : string,
      Some selected_event ∈ map details_option events_df
      /\ event ∈ events_df
      /\ Event.event_id event = Some (split_head " - " selected_event)
      /\ assigned_count = count_assigned (Event.event_id event) assignments_df
      /\ still = Z.max (Event.required event - assigned_count) 0
      /\ (0 <= still)%Z
      /\ (booked = NoVolunteersBookedYet <-> assigned_count = 0%Z).
Proof.
  intros events_df assignments_df pick event booked assigned_count still.
  unfold show_event_details.
  destruct (selectbox (map details_option events_df) pick) as [[sel|]|] eqn:Hsel;
    [|discriminate..].
  apply selectbox_elem in Hsel.
  destruct sel as [|c sel]; [discriminate|].
  set (selected_event := String c sel) in *. cbn zeta.
  set (event_id := split_head " - " selected_event).
  destruct (List.filter (fun e => cell_eqb (Event.event_id e) (Some event_id)) events_df)
    as [|ev rest] eqn:Hf; [discriminate|].
  assert (Hev : ev ∈ events_df /\ cell_eqb (Event.event_id ev) (Some event_id) = true).
  { apply (elem_of_List_filter
             (fun e => cell_eqb (Event.event_id e) (Some event_id)) events_df ev).
    rewrite Hf. left. }
  destruct Hev as [Hev Hid]. apply cell_eqb_true in Hid as (s & Hid & [= <-]).
  unfold show_event_details_counts, count_assigned.
  rewrite length_map.
  set (rows := List.filter (fun a => cell_eqb (Assignment.event_id a) (Some event_id))
                           assignments_df).
  intros Hshow. exists selected_event.
  assert (Hcases : event = ev
                   /\ assigned_count = Z.of_nat (length rows)
                   /\ still = Z.max (Event.required ev - Z.of_nat (length rows)) 0
                   /\ (booked = NoVolunteersBookedYet <-> rows = [])).
  { destruct rows as [|a rows'] eqn:Hrows; simpl in Hshow.
    - injection Hshow as <- <- <- <-. done.
    - destruct (Assignment.volunteer a) as [v|]; [|discriminate].
      destruct (join_names (map Assignment.volunteer rows')) as [tail|]; [|discriminate].
      simpl in Hshow. injection Hshow as <- <- <- <-. repeat split; done. }
  destruct Hcases as (-> & -> & -> & Hbooked).
  rewrite Hid. fold rows. repeat split; try done; try lia.
  - intros Hb. apply Hbooked in Hb. by rewrite Hb.
  - intros Hz. apply Hbooked. destruct rows; [done|simpl in Hz; lia].
Qed.

Lemma show_event_details_shown_witness :
  let event := Event.mk (Some "COR001") (Some "course") (Some "Hill School")
                        (Some "Talk") (Some "5") 20 (Some "2025-06-02")
                        (Some "10:00") (Some "11:00") 3 in
  let assignments_df := [Assignment.mk (Some "COR001") (Some "Ann Lee");
                         Assignment.mk (Some "GUI001") (Some "Ben Ode");
                         Assignment.mk (Some "COR001") (Some "Cy Park")] in
  show_event_details [event] assignments_df 0
  = EventDetails event (BookedNames "Ann Lee, Cy Park") 2 1
  /\ exists selected_event : string,
       Some selected_event ∈ map details_option [event]
       /\ event ∈ [event]
       /\ Event.event_id event = Some (split_head " - " selected_event)
       /\ 2%Z = count_assigned (Event.event_id event) assignments_df
       /\ 1%Z = Z.max (Event.required event - 2) 0
       /\ (0 <= 1)%Z
       /\ (BookedNames "Ann Lee, Cy Park" = NoVolunteersBookedYet <-> 2%Z = 0%Z).
Proof.
  intros event assignments_df.
  assert (Hshow : show_event_details [event] assignments_df 0
                  = EventDetails event (BookedNames "Ann Lee, Cy Park") 2 1)
    by (vm_compute; reflexivity).
  split; [exact Hshow|].
  exact (show_event_details_shown [event] assignments_df 0 event _ 2 1 Hshow).
Defined.

(** X23.  Round trip of the option text.  Let the picked event have an
    identifier without a blank, a name, and a date in the form the page
    "Add Event" writes (YYYY-MM-DD), the identifier and the name holding a
    letter that keeps their columns texts (as "GRG001" and "GRG Session"
    do), and let the identifiers of the events be all different.  Then the
    details page finds that very event behind the text of its option, even
    when the name itself holds " - ", and shows it with the number of its
    assignment rows (provided no booked name is missing, which would make
    the join of the names fail). *)
Theorem show_event_details_finds_picked :
  forall (events_df : list Event.t) (assignments_df : list Assignment.t) (pick : nat)
         (e : Event.t) (i n : string) (date : Date),
    events_df !! pick = Some e ->
    Event.event_id e = Some i -> Event.event_name e = Some n ->
    Event.date e = Some (strftime_Ymd date) ->
    kept_as_text i = true -> kept_as_text n = true ->
    no_space i = true ->
    NoDup (map Event.event_id events_df) ->
    Forall (fun a => Assignment.event_id a = Some i -> Assignment.volunteer a <> None)
           assignments_df ->
    exists booked : BookedText,
      show_event_details events_df assignments_df pick
      = EventDetails e booked (count_assigned (Some i) assignments_df)
                     (Z.max (Event.required e - count_assigned (Some i) assignments_df) 0).
Proof.
  intros events_df assignments_df pick e i n date Hpick Hi Hn Hd _ _ Hsp Hnd Hvols.
  generalize dependent (strftime_Ymd date). intros d Hd.
  unfold show_event_details.
  assert (Hopt : map details_option events_df !! pick
                 = Some (Some (i +:+ " - " +:+ n +:+ " - " +:+ d))).
  { rewrite lookup_map, Hpick. simpl. unfold details_option.
    by rewrite Hi, Hn, Hd. }
  assert (Hsel : selectbox (map details_option events_df) pick
                 = Some (Some (i +:+ " - " +:+ n +:+ " - " +:+ d)))
    by exact (selectbox_lookup _ _ _ Hopt).
  unfold cell in *. rewrite Hsel. clear Hsel Hopt.
  pose proof (split_head_id i (n +:+ " - " +:+ d) Hsp) as Hsplit.
  assert (Hne : i +:+ " - " +:+ n +:+ " - " +:+ d <> EmptyString)
    by (by destruct i).
  destruct (i +:+ " - " +:+ n +:+ " - " +:+ d) as [|c sel]; [done|].
  cbn beta iota zeta. rewrite Hsplit.
  rewrite (filter_event_id_unique events_df e i Hnd (list_elem_of_lookup_2 _ _ _ Hpick) Hi).
  unfold show_event_details_counts, count_assigned. rewrite length_map.
  assert (Hall : Forall (fun v => v <> None)
                   (map Assignment.volunteer
                      (List.filter (fun a => cell_eqb (Assignment.event_id a) (Some i))
                                   assignments_df))).
  { apply Forall_forall. intros v Hv. apply elem_of_map in Hv as (a & <- & Ha).
    apply elem_of_List_filter in Ha as [Ha Hid].
    apply cell_eqb_true in Hid as (s & Hid & [= <-]).
    rewrite Forall_forall in Hvols. by apply Hvols. }
  unfold cell in *. destruct (join_names_Ok _ Hall) as [names Hjoin]. rewrite Hjoin.
  match goal with
  | |- context [match ?vols with [] => _ | _ :: _ => _ end] => destruct vols
  end; eexists; reflexivity.
Qed.

Lemma show_event_details_finds_picked_witness :
  let first := Event.mk (Some "GRG001") (Some "grg") (Some "") (Some "GRG Session")
                        (Some "") 0 (Some "2025-06-02") (Some "09:00") (Some "10:00") 2 in
  let second := Event.mk (Some "COR001") (Some "course") (Some "Hill School")
                         (Some "Talk - part 2") (Some "5") 20 (Some "2025-06-03")
                         (Some "10:00") (Some "11:00") 3 in
  let assignments_df := [Assignment.mk (Some "COR001") (Some "Ann Lee");
                         Assignment.mk (Some "GRG001") (Some "Ben Ode")] in
  kept_as_text "COR001" = true
  /\ kept_as_text "Talk - part 2" = true
  /\ kept_as_text "101" = false
  /\ exists booked : BookedText,
       show_event_details [first; second] assignments_df 1
       = EventDetails second booked (count_assigned (Some "COR001") assignments_df)
           (Z.max (Event.required second - count_assigned (Some "COR001") assignments_df) 0).
Proof.
  intros first second assignments_df.
  split; [reflexivity|]. split; [reflexivity|]. split; [reflexivity|].
  apply (show_event_details_finds_picked [first; second] assignments_df 1 second
           "COR001" "Talk - part 2" {| year := 2025; month := 6; day := 3 |});
    try reflexivity.
  - simpl. apply NoDup_cons. split; [|apply NoDup_singleton].
    intros [= ]%list_elem_of_singleton.
  - repeat constructor; discriminate.
Defined.

(** ** The joined table *)

Section merged_more.
Variable to_datetime : string -> timestamp.

(** Among identifiers that are all different, at most one event carries a
    given one. *)
Lemma filter_event_id_at_most_one (events_df : list Event.t) (k : cell) :
  NoDup (map Event.event_id events_df) ->
  (length (List.filter (fun e => bool_decide (Event.event_id e = k)) events_df) <= 1)%nat.
Proof.
  induction events_df as [|x l IH]; intros Hnd; simpl; [lia|].
  simpl in Hnd. apply NoDup_cons in Hnd as [Hx Hnd].
  destruct (bool_decide (Event.event_id x = k)) eqn:Hk; [|by apply IH].
  apply bool_decide_eq_true in Hk. simpl.
  rewrite (List_filter_nil (fun e => bool_decide (Event.event_id e = k)) l); [simpl; lia|].
  intros y Hy. apply bool_decide_eq_false. intros Hyk.
  apply Hx. apply elem_of_map. exists y. split; [congruence|done].
Qed.

Lemma merge_matches_one (a : Assignment.t) (events_df : list Event.t) :
  NoDup (map Event.event_id events_df) ->
  exists x, merge_matches a events_df = [x].
Proof.
  intros Hnd. unfold merge_matches.
  pose proof (filter_event_id_at_most_one events_df (Assignment.event_id a) Hnd) as Hlen.
  destruct (List.filter _ events_df) as [|e [|e' l]]; simpl in *; [by eexists.. | lia].
Qed.

Lemma elem_of_merge_matches (a : Assignment.t) (events_df : list Event.t) (e : Event.t) :
  Some e ∈ merge_matches a events_df ->
  e ∈ events_df /\ Event.event_id e = Assignment.event_id a.
Proof.
  unfold merge_matches.
  destruct (List.filter (fun e => bool_decide (Event.event_id e = Assignment.event_id a))
                        events_df) as [|e0 l] eqn:Hf.
  - intros [=]%list_elem_of_singleton.
  - rewrite <- Hf. intros (e' & [= ->] & He)%elem_of_map.
    apply (elem_of_List_filter
             (fun e => bool_decide (Event.event_id e = Assignment.event_id a))) in He
      as [He Hid].
    by apply bool_decide_eq_true in Hid.
Qed.

Lemma elem_of_merged_df (assignments_df : list Assignment.t) (events_df : list Event.t)
    (r : Entry.t) :
  r ∈ merged_df to_datetime assignments_df events_df ->
  exists a x, a ∈ assignments_df /\ x ∈ merge_matches a events_df
              /\ r = merged_row to_datetime a x.
Proof.
  unfold merged_df. rewrite list_elem_of_In, in_flat_map.
  intros (a & Ha & Hr). apply list_elem_of_In, elem_of_map in Hr as (x & <- & Hx).
  exists a, x. by rewrite list_elem_of_In.
Qed.

End merged_more.

(** X24.  When the identifiers of the events are all different, the joined
    table has exactly one row for each assignment, in the order of the
    assignments table, with the event_id and the volunteer of that
    assignment: the join neither loses nor repeats a booking. *)
Theorem merged_df_one_row_per_assignment :
  forall (to_datetime : string -> timestamp) (assignments_df : list Assignment.t)
         (events_df : list Event.t),
    NoDup (map Event.event_id events_df) ->
    map (fun r => Assignment.mk (Entry.event_id r) (Entry.volunteer r))
        (merged_df to_datetime assignments_df events_df)
    = assignments_df.
Proof.
  intros to_datetime assignments_df events_df Hnd. unfold merged_df.
  induction assignments_df as [|a l IH]; [reflexivity|].
  cbn [flat_map]. rewrite map_app, IH.
  destruct (merge_matches_one a events_df Hnd) as [x ->].
  simpl. by destruct a.
Qed.

Lemma merged_df_one_row_per_assignment_witness :
  let event i := Event.mk (Some i) (Some "course") (Some "Hill School") (Some "Talk")
                          (Some "5") 20 (Some "2025-06-02") (Some "10:00")
                          (Some "11:00") 2 in
  let assignments_df := [Assignment.mk (Some "COR002") (Some "Ann Lee");
                         Assignment.mk (Some "COR009") (Some "Ben Ode");
                         Assignment.mk (Some "COR002") (Some "Cy Park")] in
  map (fun r => Assignment.mk (Entry.event_id r) (Entry.volunteer r))
      (merged_df (fun _ => None) assignments_df [event "COR001"; event "COR002"])
  = assignments_df.
Proof.
  intros event assignments_df.
  apply (merged_df_one_row_per_assignment (fun _ => None) assignments_df
           [event "COR001"; event "COR002"]).
  simpl. apply NoDup_cons. split; [|apply NoDup_singleton].
  intros [= ]%list_elem_of_singleton.
Defined.

(** X25.  Every row that the dashboard shows, and so every row that the
    conflict checker sees, joins an assignment of the assignments table with
    an event of the events table that carries its identifier and has a
    type: a booking for an event that is not in the events table never
    passes the filters. *)
Theorem dashboard_rows_have_events :
  forall (to_datetime : string -> timestamp) (assignments_df : list Assignment.t)
         (events_df : list Event.t) (w : DashboardInput) (r : Entry.t),
    r ∈ apply_filters (merged_df to_datetime assignments_df events_df) w ->
    exists (a : Assignment.t) (e : Event.t),
      a ∈ assignments_df /\ e ∈ events_df
      /\ Event.event_id e = Assignment.event_id a
      /\ r = merged_row to_datetime a (Some e)
      /\ is_Some (Event.type e).
Proof.
  intros to_datetime assignments_df events_df w r Hr.
  rewrite apply_filters_filter in Hr. apply elem_of_List_filter in Hr as [Hr Hpass].
  apply elem_of_merged_df in Hr as (a & x & Ha & Hx & ->).
  unfold passes_filters in Hpass.
  apply andb_true_iff in Hpass as [[_ Hty]%andb_true_iff _].
  unfold type_isin in Hty. simpl in Hty.
  destruct x as [e|]; [|discriminate].
  apply elem_of_merge_matches in Hx as [He Hid].
  exists a, e. repeat split; try done.
  simpl in Hty. by destruct (Event.type e); [eexists|].
Qed.

Lemma dashboard_rows_have_events_witness :
  let to_datetime (_ : string) := Some (20241 * 86400000000000)%Z in
  let event := Event.mk (Some "COR001") (Some "course") (Some "Hill School")
                        (Some "Talk") (Some "5") 20 (Some "2025-06-02")
                        (Some "10:00") (Some "11:00") 2 in
  let known := Assignment.mk (Some "COR001") (Some "Ann Lee") in
  let unknown := Assignment.mk (Some "COR777") (Some "Ben Ode") in
  let w := {| selected_volunteer := "All";
              selected_type := ["course"];
              start_date := 20241;
              end_date := 20241 |} in
  apply_filters (merged_df to_datetime [unknown; known] [event]) w
  = [merged_row to_datetime known (Some event)]
  /\ exists (a : Assignment.t) (e : Event.t),
       a ∈ [unknown; known] /\ e ∈ [event]
       /\ Event.event_id e = Assignment.event_id a
       /\ merged_row to_datetime known (Some event) = merged_row to_datetime a (Some e)
       /\ is_Some (Event.type e).
Proof.
  intros to_datetime event known unknown w.
  assert (Hrows : apply_filters (merged_df to_datetime [unknown; known] [event]) w
                  = [merged_row to_datetime known (Some event)])
    by (vm_compute; reflexivity).
  split; [exact Hrows|].
  apply (dashboard_rows_have_events to_datetime [unknown; known] [event] w).
  rewrite Hrows. left.
Defined.

(** ** The dashboard as it first appears *)

Section defaults_more.

Lemma elem_of_sorted (l : list string) (x : string) : x ∈ sorted l <-> x ∈ l.
Proof. unfold sorted. by rewrite merge_sort_Permutation. Qed.

Lemma elem_of_dropna {A} (col : list (option A)) (x : A) :
  x ∈ dropna col <-> Some x ∈ col.
Proof.
  unfold dropna. rewrite list_elem_of_omap. split.
  - by intros ([y|] & Hy & [= ->]).
  - intros Hx. by exists (Some x).
Qed.

Lemma existsb_eqb_elem_of (ty : string) (l : list string) :
  ty ∈ l -> existsb (String.eqb ty) l = true.
Proof.
  intros H. apply existsb_exists. exists ty.
  split; [by apply list_elem_of_In | apply String.eqb_refl].
Qed.

Lemma fold_min_bounds (ts : list Z) (t : Z) :
  (fold_left Z.min ts t <= t)%Z
  /\ forall x, x ∈ ts -> (fold_left Z.min ts t <= x)%Z.
Proof.
  revert t. induction ts as [|y ts IH]; intros t; simpl.
  - split; [lia|]. intros x Hx. by apply elem_of_nil in Hx.
  - destruct (IH (Z.min t y)) as [Hinit Hrest]. split; [lia|].
    intros x [->|Hx]%elem_of_cons; [lia | by apply Hrest].
Qed.

Lemma fold_min_le (ts : list Z) (t x : Z) :
  x ∈ t :: ts -> (fold_left Z.min ts t <= x)%Z.
Proof.
  destruct (fold_min_bounds ts t) as [Hinit Hrest].
  intros [->|Hx]%elem_of_cons; [done | by apply Hrest].
Qed.

Lemma fold_max_bounds (ts : list Z) (t : Z) :
  (t <= fold_left Z.max ts t)%Z
  /\ forall x, x ∈ ts -> (x <= fold_left Z.max ts t)%Z.
Proof.
  revert t. induction ts as [|y ts IH]; intros t; simpl.
  - split; [lia|]. intros x Hx. by apply elem_of_nil in Hx.
  - destruct (IH (Z.max t y)) as [Hinit Hrest]. split; [lia|].
    intros x [->|Hx]%elem_of_cons; [lia | by apply Hrest].
Qed.

Lemma fold_max_ge (ts : list Z) (t x : Z) :
  x ∈ t :: ts -> (x <= fold_left Z.max ts t)%Z.
Proof.
  destruct (fold_max_bounds ts t) as [Hinit Hrest].
  intros [->|Hx]%elem_of_cons; [done | by apply Hrest].
Qed.

Lemma date_of_mono (a b : Z) : (a <= b)%Z -> (date_of a <= date_of b)%Z.
Proof. intros H. unfold date_of, ns_per_day. apply Z.div_le_mono; lia. Qed.

(** The default dates leave out no row that has a start. *)
Lemma dashboard_defaults_dates (today : Z) (merged_df : list Entry.t)
    (events_df : list Event.t) (r : Entry.t) (t : Z) :
  r ∈ merged_df -> Entry.datetime_start r = Some t ->
  let w := dashboard_defaults today merged_df events_df in
  in_date_range (start_date w) (end_date w) r = true.
Proof.
  intros Hr Ht w. unfold in_date_range. rewrite Ht.
  assert (Hin : t ∈ dropna (map Entry.datetime_start merged_df)).
  { apply elem_of_dropna, elem_of_map. by exists r. }
  subst w. unfold dashboard_defaults. cbn [start_date end_date].
  destruct (dropna (map Entry.datetime_start merged_df)) as [|t0 ts];
    [by apply elem_of_nil in Hin|].
  cbn [fst snd]. apply andb_true_iff. split; apply Z.leb_le, date_of_mono.
  - by apply fold_min_le.
  - by apply fold_max_ge.
Qed.

End defaults_more.

(** X26.  The dashboard as it first appears, with no widget touched: the
    table shown consists of exactly the joined rows that have a type and a
    start that could be parsed, in their order.  The default selection
    hides nothing else: no volunteer, no type of the events table and no
    day with a booking is left out. *)
Theorem dashboard_defaults_show_all :
  forall (today : Z) (to_datetime : string -> timestamp)
         (assignments_df : list Assignment.t) (events_df : list Event.t),
    let merged := merged_df to_datetime assignments_df events_df in
    apply_filters merged (dashboard_defaults today merged events_df)
    = List.filter typed_and_dated merged.
Proof.
  intros today to_datetime assignments_df events_df merged.
  rewrite apply_filters_filter. apply List_filter_ext_in. intros r Hr.
  unfold passes_filters, typed_and_dated.
  replace (String.eqb (selected_volunteer (dashboard_defaults today merged events_df)) "All")
    with true by reflexivity.
  cbn [orb andb].
  destruct (Entry.datetime_start r) as [t|] eqn:Ht.
  - rewrite (dashboard_defaults_dates today merged events_df r t Hr Ht).
    rewrite andb_true_r. unfold type_isin.
    destruct (Entry.type r) as [ty|] eqn:Hty; [|reflexivity].
    apply existsb_eqb_elem_of. cbn [selected_type dashboard_defaults].
    apply elem_of_sorted, elem_of_unique, elem_of_dropna, elem_of_map.
    apply elem_of_merged_df in Hr as (a & x & _ & Hx & ->).
    destruct x as [e|]; [|discriminate].
    apply elem_of_merge_matches in Hx as [He _]. by exists e.
  - unfold in_date_range. rewrite Ht, andb_false_r.
    by destruct (Entry.type r).
Qed.
